(** * Training script [train.py]: model selection, learning-rate schedule,
      dataset split and checkpointing

    A shallow embedding of [src/train.py].  Python [float]s are IEEE 754
    binary64 numbers ([spec_float] at precision 53), Python [int]s are [Z],
    exceptions are explicit results, and the objects the script mutates
    (the model, the optimizer, the scheduler, the file system, the console)
    live in a [World] that every statement threads along. *)

From Stdlib Require Import ZArith Lia Bool.
From Stdlib Require Import Floats.SpecFloat.
From stdpp Require Import gmap strings list functions.

Local Open Scope Z_scope.

(** ** Exceptions and fallible results *)

Inductive exn :=
| ZeroDivisionError
| OverflowError
| ValueError
| KeyError (key : string)
| OSError.

Inductive result (A : Type) :=
| Ok (a : A)
| Raise (e : exn).
Arguments Ok {A} a.
Arguments Raise {A} e.

Definition result_bind {A B} (r : result A) (k : A -> result B) : result B :=
  match r with
  | Ok a => k a
  | Raise e => Raise e
  end.

Definition is_ok {A} (r : result A) : bool :=
  match r with Ok _ => true | Raise _ => false end.

(** ** Python numbers *)

Module Py.

Definition prec : Z := 53.
Definition emax : Z := 1024.

(** A Python [float]. *)
Definition float := spec_float.

Definition zero : float := S754_zero false.
Definition one : float := S754_finite false 4503599627370496 (-52).
Definition inf : float := S754_infinity false.
Definition neg_inf : float := S754_infinity true.
Definition nan : float := S754_nan.

Definition is_nan (x : float) : bool :=
  match x with S754_nan => true | _ => false end.

(** [x <= y], [x < y], [x > y] on floats: false as soon as one side is NaN. *)
Definition le (x y : float) : bool := SFleb x y.
Definition lt (x y : float) : bool := SFltb x y.
Definition gt (x y : float) : bool := SFltb y x.
(** [x == y]: numeric equality, false on NaN, true on [0.0 == -0.0]. *)
Definition eq (x y : float) : bool := SFeqb x y.

Definition add (x y : float) : float := SFadd prec emax x y.
Definition mul (x y : float) : float := SFmul prec emax x y.

(** The builtins [max(a, b)] and [min(a, b)]: the first argument is kept
    unless the second compares strictly better. *)
Definition max (a b : float) : float := if gt b a then b else a.
Definition min (a b : float) : float := if lt b a then b else a.

(** An integer as an exact (not yet rounded) binary number. *)
Definition exact (n : Z) : float :=
  match n with
  | Z0 => S754_zero false
  | Zpos p => S754_finite false p 0
  | Zneg p => S754_finite true p 0
  end.

(** [float(n)]: the nearest binary64, [OverflowError] beyond the range. *)
Definition float_of_int (n : Z) : result float :=
  match binary_normalize prec emax n 0 false with
  | S754_infinity _ => Raise OverflowError
  | x => Ok x
  end.

(** [a / b] on two ints: the correctly rounded quotient. *)
Definition int_true_div (a b : Z) : result float :=
  if b =? 0 then Raise ZeroDivisionError
  else match SFdiv prec emax (exact a) (exact b) with
       | S754_infinity _ => Raise OverflowError
       | q => Ok q
       end.

(** [x / n] with a float [x] and an int [n]. *)
Definition float_div_int (x : float) (n : Z) : result float :=
  result_bind (float_of_int n) (fun y =>
    match y with
    | S754_zero _ => Raise ZeroDivisionError
    | _ => Ok (SFdiv prec emax x y)
    end).

(** [n * x] and [x * n] with an int [n] and a float [x]. *)
Definition int_mul_float (n : Z) (x : float) : result float :=
  result_bind (float_of_int n) (fun y => Ok (mul y x)).
Definition float_mul_int (x : float) (n : Z) : result float :=
  result_bind (float_of_int n) (fun y => Ok (mul x y)).

(** [int(x)]: truncation toward zero. *)
Definition int_of_float (x : float) : result Z :=
  match x with
  | S754_zero _ => Ok 0
  | S754_finite s m e =>
      let a := match e with
               | Zneg k => Z.shiftr (Zpos m) (Zpos k)
               | _ => Z.shiftl (Zpos m) e
               end in
      Ok (if s then - a else a)
  | S754_infinity _ => Raise OverflowError
  | S754_nan => Raise ValueError
  end.

(** [fits k x]: [x] is a finite number of magnitude below [2 ^ k]. *)
Definition fits (k : Z) (x : float) : bool :=
  match x with
  | S754_zero _ => true
  | S754_finite _ m e => Zpos (digits2_pos m) + e <=? k
  | _ => false
  end.

(** [has_sign s x]: [x] is a number whose sign bit is [s]. *)
Definition has_sign (s : bool) (x : float) : bool :=
  match x with
  | S754_zero s' | S754_infinity s' | S754_finite s' _ _ => eqb s s'
  | S754_nan => false
  end.

(** [math.isfinite(x)] *)
Definition is_finite (x : float) : bool :=
  match x with
  | S754_zero _ | S754_finite _ _ _ => true
  | _ => false
  end.

(** A binary64 value strictly between 0 and 1, as a ratio must be. *)
Definition is_ratio (x : float) : bool :=
  valid_binary prec emax x && lt zero x && lt x one.

End Py.

(** ** The numeric backend

    Tensors, the network, the loss, the optimizer's update rule and the
    random generator are PyTorch's; the script only calls them.  They are
    collected in one interface, so that the control flow of [train.py] can be
    stated over any of them and run on a small one. *)

Class Backend := {
  (** the parameter tensors of a model, i.e. its [state_dict()] *)
  Params : Type;
  (** the optimizer's internal buffers *)
  OptState : Type;
  optimizer_new : OptState;
  (** one (waveform, label) pair *)
  Sample : Type;
  label : Sample -> Z;
  (** the class scores of a batch *)
  Outputs : Type;
  (** [model(waveforms)]; the flag is the training mode (dropout on) *)
  forward : bool -> Params -> list Sample -> Outputs;
  (** [loss_criterion(outputs, labels).item()] *)
  criterion : Outputs -> list Sample -> Py.float;
  (** [torch.argmax(outputs, dim = 1)] *)
  argmax : Outputs -> list Z;
  (** [zero_grad], [backward] and [optimizer.step()] at a learning rate: the
      new buffers and the new value of the parameters, written in place *)
  optimizer_update :
    Py.float -> OptState -> bool -> Params -> list Sample -> OptState * Params;
  (** the random permutation drawn at a state of the generator *)
  permute : nat -> list Sample -> list Sample;
  permute_length : forall g l, length (permute g l) = length l
}.

(** Object identity: the address of a [torch.nn.Module]. *)
Abbreviation loc := nat.

(** [Metrics]: metric name to value. *)
Abbreviation Metrics := (gmap string Py.float).

(** The lines the script prints, by what they report. *)
Inductive line :=
| LineNewBest (evaluation_metric : string) (metric : Py.float)
| LineBanner (train_size val_size test_size : Z)
| LineEpoch (epoch epochs : Z)
| LineTrain (loss accuracy : Py.float)
| LineVal (loss accuracy : Py.float)
| LineBlank
| LineTest (key : string) (value : Py.float)
| LineSaved.

Section Definitions.
Context `{Backend}.

Record TorchModule := {
  params : Params;
  training : bool
}.

Record Optimizer := {
  opt_state : OptState;
  opt_lr : Py.float
}.

(** [torch.optim.lr_scheduler.LambdaLR]: the step counter and the
    multiplier function it was built with. *)
Record LambdaLR := {
  lr_lambda : Z -> result Py.float;
  base_lr : Py.float;
  last_epoch : Z
}.

Record DataLoader := {
  dl_dataset : list Sample;
  dl_batch_size : Z;
  dl_shuffle : bool
}.

(** What the run shows and calls, in order: the lines [print] writes to
    stdout, the progress bars [tqdm] draws on stderr, and the evaluator
    calls.  A bar is recorded once, where [tqdm(iterable, desc = ...)] first
    draws it, with its description and its total; its redraws while the
    loop runs depend on the clock and are not recorded one by one. *)
Inductive event :=
| PrintNewBest (evaluation_metric : string) (metric : Py.float)
| PrintBanner (train_size val_size test_size : Z)
| PrintEpoch (epoch epochs : Z)
| PrintTrain (loss accuracy : Py.float)
| PrintVal (loss accuracy : Py.float)
| PrintBlank
| PrintTest (key : string) (value : Py.float)
| PrintSaved
| ProgressBar (desc : string) (total : Z)
| CallEvaluate (model : loc) (dataloader : DataLoader).

Record World := {
  heap : loc -> TorchModule;
  optimizer : Optimizer;
  scheduler : LambdaLR;
  rng : nat;
  dirs : gset string;
  files : gmap string Params;
  trace : list event
}.

(** *** Statements: a state and exception monad over the world *)

Definition M (A : Type) : Type := World -> result (A * World).

Definition ret {A} (a : A) : M A := fun w => Ok (a, w).

Definition bind {A B} (m : M A) (k : A -> M B) : M B :=
  fun w => match m w with
           | Ok (a, w') => k a w'
           | Raise e => Raise e
           end.

Definition lift {A} (r : result A) : M A :=
  fun w => match r with
           | Ok a => Ok (a, w)
           | Raise e => Raise e
           end.

Definition get : M World := fun w => Ok (w, w).
Definition put (w : World) : M unit := fun _ => Ok (tt, w).

End Definitions.

Notation "'let*' x ':=' m 'in' k" := (bind m (fun x => k))
  (at level 10, x pattern, m at level 100, k at level 200).

Notation "'let?' x ':=' r 'in' k" := (result_bind r (fun x => k))
  (at level 10, x pattern, r at level 100, k at level 200).

(** ** PyTorch and the operating system, as the script uses them *)

Section Torch.
Context `{Backend}.

Definition with_heap (h : loc -> TorchModule) (w : World) : World :=
  {| heap := h; optimizer := optimizer w; scheduler := scheduler w;
     rng := rng w; dirs := dirs w; files := files w; trace := trace w |}.

Definition with_optimizer (o : Optimizer) (w : World) : World :=
  {| heap := heap w; optimizer := o; scheduler := scheduler w;
     rng := rng w; dirs := dirs w; files := files w; trace := trace w |}.

Definition with_scheduler (s : LambdaLR) (w : World) : World :=
  {| heap := heap w; optimizer := optimizer w; scheduler := s;
     rng := rng w; dirs := dirs w; files := files w; trace := trace w |}.

Definition with_rng (g : nat) (w : World) : World :=
  {| heap := heap w; optimizer := optimizer w; scheduler := scheduler w;
     rng := g; dirs := dirs w; files := files w; trace := trace w |}.

Definition with_dirs (d : gset string) (w : World) : World :=
  {| heap := heap w; optimizer := optimizer w; scheduler := scheduler w;
     rng := rng w; dirs := d; files := files w; trace := trace w |}.

Definition with_files (f : gmap string Params) (w : World) : World :=
  {| heap := heap w; optimizer := optimizer w; scheduler := scheduler w;
     rng := rng w; dirs := dirs w; files := f; trace := trace w |}.

Definition with_trace (t : list event) (w : World) : World :=
  {| heap := heap w; optimizer := optimizer w; scheduler := scheduler w;
     rng := rng w; dirs := dirs w; files := files w; trace := t |}.

(** [print(...)] and the record of a call. *)
Definition emit (e : event) : M unit :=
  fun w => Ok (tt, with_trace (trace w ++ [e]) w).

(** [for x in l: s = body(s, x)] *)
Fixpoint for_each {A S : Type} (body : S -> A -> M S) (s : S) (l : list A)
  : M S :=
  match l with
  | [] => ret s
  | x :: l' => let* s' := body s x in for_each body s' l'
  end.

(** [d[key]] *)
Definition getitem (d : Metrics) (key : string) : result Py.float :=
  match d !! key with
  | Some v => Ok v
  | None => Raise (KeyError key)
  end.

(** In-place write of the parameters of the module at [model]. *)
Definition set_params (model : loc) (p : Params) (h : loc -> TorchModule)
  : loc -> TorchModule :=
  <[model := {| params := p; training := training (h model) |}]> h.

(** [model.train()] and [model.eval()] *)
Definition set_training (model : loc) (b : bool) : M unit :=
  fun w =>
    Ok (tt, with_heap
              (<[model := {| params := params (heap w model);
                             training := b |}]> (heap w)) w).

(** [model.state_dict()] *)
Definition state_dict (model : loc) : M Params :=
  fun w => Ok (params (heap w model), w).

(** [optimizer.zero_grad()], [loss.backward()], [optimizer.step()] on a
    batch: the parameters of [model] are overwritten where they are. *)
Definition optimizer_step (model : loc) (batch : list Sample) : M unit :=
  fun w =>
    let m := heap w model in
    let '(st, p) :=
      optimizer_update (opt_lr (optimizer w)) (opt_state (optimizer w))
                       (training m) (params m) batch in
    Ok (tt, with_optimizer {| opt_state := st; opt_lr := opt_lr (optimizer w) |}
              (with_heap (set_params model p (heap w)) w)).

(** The learning rate the scheduler writes into the optimizer at its
    current step: [base_lr * lr_lambda(last_epoch)]. *)
Definition scheduler_set_lr (s : LambdaLR) : M unit :=
  fun w =>
    match lr_lambda s (last_epoch s) with
    | Ok k =>
        Ok (tt, with_scheduler s
                  (with_optimizer
                     {| opt_state := opt_state (optimizer w);
                        opt_lr := Py.mul (base_lr s) k |} w))
    | Raise e => Raise e
    end.

(** [LambdaLR(optimizer, lr_lambda=f)]: the counter starts at 0 and the
    first learning rate is set at once. *)
Definition LambdaLR_new (f : Z -> result Py.float) : M unit :=
  fun w =>
    scheduler_set_lr
      {| lr_lambda := f; base_lr := opt_lr (optimizer w); last_epoch := 0 |} w.

(** [scheduler.step()] *)
Definition scheduler_step : M unit :=
  fun w =>
    let s := scheduler w in
    scheduler_set_lr
      {| lr_lambda := lr_lambda s; base_lr := base_lr s;
         last_epoch := last_epoch s + 1 |} w.

(** [DataLoader(dataset, batch_size = n, shuffle = b)].  With
    [shuffle = True] the loader builds a [RandomSampler], which refuses a
    dataset without samples; then the [BatchSampler] refuses a batch size
    that is not positive.  Both raise [ValueError]. *)
Definition DataLoader_new (dataset : list Sample) (batch_size : Z)
    (shuffle : bool) : result DataLoader :=
  if shuffle && bool_decide (dataset = []) then Raise ValueError
  else if batch_size <=? 0 then Raise ValueError
  else Ok {| dl_dataset := dataset; dl_batch_size := batch_size;
             dl_shuffle := shuffle |}.

(** [len(dataloader)]: the number of batches, the last one may be short. *)
Definition dl_len (dataloader : DataLoader) : Z :=
  (Z.of_nat (length (dl_dataset dataloader)) + dl_batch_size dataloader - 1)
  / dl_batch_size dataloader.

Fixpoint chunks {A : Type} (fuel : nat) (n : nat) (l : list A)
  : list (list A) :=
  match fuel with
  | O => []
  | S fuel' =>
      match l with
      | [] => []
      | _ => take n l :: chunks fuel' n (drop n l)
      end
  end.

(** [for batch in dataloader]: the batches of one pass, in a fresh random
    order when the loader shuffles. *)
Definition dl_iter (dataloader : DataLoader) : M (list (list Sample)) :=
  fun w =>
    let n := Z.to_nat (dl_batch_size dataloader) in
    let d := dl_dataset dataloader in
    if dl_shuffle dataloader
    then Ok (chunks (length d) n (permute (rng w) d), with_rng (S (rng w)) w)
    else Ok (chunks (length d) n d, w).

(** [torch.utils.data.random_split(dataset, [a, b, c])] with int lengths. *)
Definition random_split (dataset : list Sample) (a b c : Z)
  : M (list Sample * list Sample * list Sample) :=
  fun w =>
    if negb (a + b + c =? Z.of_nat (length dataset)) then Raise ValueError
    else
      let d := permute (rng w) dataset in
      Ok ((take (Z.to_nat a) d,
           take (Z.to_nat b) (drop (Z.to_nat a) d),
           take (Z.to_nat c) (drop (Z.to_nat a + Z.to_nat b) d)),
          with_rng (S (rng w)) w).

(** [os.makedirs(path, exist_ok=True)] *)
Definition makedirs (path : string) : M unit :=
  fun w =>
    match files w !! path with
    | Some _ => Raise OSError
    | None => Ok (tt, with_dirs ({[path]} ∪ dirs w) w)
    end.

(** [torch.save(obj, path)]: the file is created or replaced. *)
Definition torch_save (obj : Params) (path : string) : M unit :=
  fun w =>
    if decide (path ∈ dirs w) then Raise OSError
    else Ok (tt, with_files (<[path := obj]> (files w)) w).

End Torch.

(** ** The configuration the script reads ([config.data], [config.training]) *)

Record Config := {
  data_train_ratio : Py.float;
  data_test_val_ratio : Py.float;
  training_batch_size : Z;
  training_lr : Py.float;
  training_epochs : Z;
  training_warmup_ratio : Py.float;
  training_evaluation_metric : string;
  training_best_metric_lower_is_better : bool;
  training_checkpoint_dir : string;
  training_model_name : string
}.

(** ** Module [metrics] *)

Section Metrics.
Context `{Backend}.

(** Modelled from the spec: [compute_metrics] of module [metrics], whose
    source is not part of the sources at hand.  The loss is the mean of the
    per-batch losses, the accuracy the fraction of exact matches. *)
Definition compute_metrics (predictions references : list Z)
    (running_loss : Py.float) (num_batches : Z) : result Metrics :=
  let? loss := Py.float_div_int running_loss num_batches in
  let correct :=
    filter (fun pr => fst pr = snd pr) (zip predictions references) in
  let? accuracy :=
    Py.int_true_div (Z.of_nat (length correct))
                    (Z.of_nat (length predictions)) in
  Ok (<["loss"%string := loss]> (<["accuracy"%string := accuracy]> ∅)).

Definition eval_batch (model : loc)
    (acc : Py.float * list Z * list Z) (batch : list Sample)
  : M (Py.float * list Z * list Z) :=
  let '(running_loss, predictions, references) := acc in
  let* w := get in
  let outputs := forward (training (heap w model)) (params (heap w model)) batch in
  let loss := criterion outputs batch in
  ret (Py.add running_loss loss,
       predictions ++ argmax outputs,
       references ++ map label batch).

(** Modelled from the spec: [evaluate] of module [metrics].  The model is
    put in inference mode, every batch of the partition is seen once, no
    parameter is written. *)
Definition evaluate (model : loc) (dataloader : DataLoader) : M Metrics :=
  let* _ := emit (CallEvaluate model dataloader) in
  let* _ := set_training model false in
  let* batches := dl_iter dataloader in
  let* (running_loss, predictions, references) :=
    for_each (eval_batch model) (Py.zero, [], []) batches in
  lift (compute_metrics predictions references running_loss
                        (dl_len dataloader)).

End Metrics.

(** ** [train.py] *)

(** The multiplier [lr_warmup_linear_decay], a closure over [total_steps] and
    [warmup_steps]. *)
Definition lr_warmup_linear_decay (total_steps warmup_steps : Z) (step : Z)
  : result Py.float :=
  if step <? warmup_steps
  then Py.int_true_div step warmup_steps
  else
    let? q := Py.int_true_div (total_steps - step)
                              (total_steps - warmup_steps) in
    Ok (Py.max Py.zero q).

(** The sizes handed to [random_split]: train, test, validation. *)
Definition split_sizes (train_ratio test_val_ratio : Py.float)
    (dataset_size : Z) : result (Z * Z * Z) :=
  let? x := Py.float_mul_int train_ratio dataset_size in
  let? train_size := Py.int_of_float x in
  let test_val_size := dataset_size - train_size in
  let? y := Py.int_mul_float test_val_size test_val_ratio in
  let? test_size := Py.int_of_float y in
  let val_size := test_val_size - test_size in
  Ok (train_size, test_size, val_size).

(** [warmup_steps = int(total_steps * config.training.warmup_ratio)] *)
Definition warmup_steps (total_steps : Z) (warmup_ratio : Py.float)
  : result Z :=
  let? x := Py.int_mul_float total_steps warmup_ratio in
  Py.int_of_float x.

(** When the candidate of [manage_best_model_and_metrics] is selected. *)
Definition wins (lower_is_better : bool) (metric best_val_metric : Py.float)
  : bool :=
  if lower_is_better
  then Py.le metric best_val_metric
  else Py.gt metric best_val_metric.

Section Train.
Context `{Backend}.

(** The body of the batch loop of [train_one_epoch]. *)
Definition train_batch (model : loc)
    (acc : Py.float * list Z * list Z) (batch : list Sample)
  : M (Py.float * list Z * list Z) :=
  let '(running_loss, predictions, references) := acc in
  let* w := get in
  let outputs := forward (training (heap w model)) (params (heap w model)) batch in
  let loss := criterion outputs batch in
  let* _ := optimizer_step model batch in
  let* _ := scheduler_step in
  ret (Py.add running_loss loss,
       predictions ++ argmax outputs,
       references ++ map label batch).

(** The batch loop of [train_one_epoch], from empty accumulators. *)
Definition train_loop (model : loc) (batches : list (list Sample))
  : M (Py.float * list Z * list Z) :=
  for_each (train_batch model) (Py.zero, [], []) batches.

Definition train_one_epoch (model : loc) (dataloader : DataLoader)
  : M Metrics :=
  let* _ := set_training model true in
  let* _ := emit (ProgressBar "Training" (dl_len dataloader)) in
  let* batches := dl_iter dataloader in
  let* (running_loss, predictions, references) :=
    train_loop model batches in
  lift (compute_metrics predictions references running_loss
                        (dl_len dataloader)).

Definition manage_best_model_and_metrics
    (model : loc)
    (evaluation_metric : string)
    (val_metrics : Metrics)
    (best_val_metric : Py.float)
    (best_model : loc)
    (lower_is_better : bool) : M (Py.float * loc) :=
  let* metric := lift (getitem val_metrics evaluation_metric) in
  let is_best :=
    if lower_is_better
    then Py.le metric best_val_metric
    else Py.gt metric best_val_metric in
  if is_best
  then
    let* _ := emit (PrintNewBest evaluation_metric metric) in
    ret (metric, model)
  else ret (best_val_metric, best_model).

(** *** The script under [if __name__ == "__main__"] *)

(** Lines 88-102: sizes, random split, the three loaders. *)
Definition build_loaders (config : Config) (dataset : list Sample)
  : M (DataLoader * DataLoader * DataLoader) :=
  let dataset_size := Z.of_nat (length dataset) in
  let* (train_size, test_size, val_size) :=
    lift (split_sizes (data_train_ratio config) (data_test_val_ratio config)
                      dataset_size) in
  let* (train_dataset, test_dataset, val_dataset) :=
    random_split dataset train_size test_size val_size in
  let batch_size := training_batch_size config in
  let* train_dl := lift (DataLoader_new train_dataset batch_size true) in
  let* test_dl := lift (DataLoader_new test_dataset batch_size false) in
  let* val_dl := lift (DataLoader_new val_dataset batch_size false) in
  ret (train_dl, test_dl, val_dl).

(** Lines 112-115: a fresh optimizer at the configured learning rate. *)
Definition build_optimizer (config : Config) : M unit :=
  fun w =>
    Ok (tt, with_optimizer {| opt_state := optimizer_new;
                              opt_lr := training_lr config |} w).

Definition total_steps (train_dl : DataLoader) (epochs : Z) : Z :=
  dl_len train_dl * epochs.

(** Lines 118-126: the schedule, computed once, and its scheduler. *)
Definition build_scheduler (config : Config) (train_dl : DataLoader)
  : M unit :=
  let epochs := training_epochs config in
  let total_steps := total_steps train_dl epochs in
  let* warmup_steps :=
    lift (warmup_steps total_steps (training_warmup_ratio config)) in
  LambdaLR_new (lr_warmup_linear_decay total_steps warmup_steps).

(** Lines 129-131: the tracking state before the first epoch. *)
Definition initial_best (config : Config) (model : loc) : Py.float * loc :=
  let best_metric_lower_is_better :=
    training_best_metric_lower_is_better config in
  let best_val_metric :=
    if best_metric_lower_is_better then Py.inf else Py.neg_inf in
  let best_model := model in
  (best_val_metric, best_model).

(** Lines 143-164: one iteration of the epoch loop. *)
Definition epoch_body (config : Config) (model : loc)
    (train_dl val_dl : DataLoader)
    (best : Py.float * loc) (epoch : Z) : M (Py.float * loc) :=
  let '(best_val_metric, best_model) := best in
  let* _ := emit (PrintEpoch (epoch + 1) (training_epochs config)) in
  let* train_metrics := train_one_epoch model train_dl in
  let* val_metrics := evaluate model val_dl in
  let* train_loss := lift (getitem train_metrics "loss") in
  let* train_accuracy := lift (getitem train_metrics "accuracy") in
  let* val_loss := lift (getitem val_metrics "loss") in
  let* val_accuracy := lift (getitem val_metrics "accuracy") in
  let* _ := emit (PrintTrain train_loss train_accuracy) in
  let* _ := emit (PrintVal val_loss val_accuracy) in
  let* best' :=
    manage_best_model_and_metrics
      model
      (training_evaluation_metric config)
      val_metrics
      best_val_metric
      best_model
      (training_best_metric_lower_is_better config) in
  let* _ := emit PrintBlank in
  ret best'.

(** [for epoch in range(epochs)] *)
Definition epoch_loop (config : Config) (model : loc)
    (train_dl val_dl : DataLoader) (best : Py.float * loc)
  : M (Py.float * loc) :=
  for_each (epoch_body config model train_dl val_dl) best
           (seqZ 0 (training_epochs config)).

(** [f"{checkpoint_dir}/{model_name}.pt"] *)
Definition checkpoint_path (config : Config) : string :=
  training_checkpoint_dir config +:+ "/" +:+ training_model_name config
    +:+ ".pt".

(** Lines 167-177: the test metrics and the checkpoint. *)
Definition test_and_save (config : Config) (test_dl : DataLoader)
    (best_model : loc) : M unit :=
  let* test_metrics := evaluate best_model test_dl in
  let* _ :=
    for_each (fun _ kv => emit (PrintTest (fst kv) (snd kv))) tt
             (map_to_list test_metrics) in
  let* _ := makedirs (training_checkpoint_dir config) in
  let* sd := state_dict best_model in
  let* _ := torch_save sd (checkpoint_path config) in
  emit PrintSaved.

(** What [print] wrote to stdout in a run, line by line. *)
Definition printed (t : list event) : list line :=
  omap (fun e => match e with
                 | PrintNewBest k v => Some (LineNewBest k v)
                 | PrintBanner a b c => Some (LineBanner a b c)
                 | PrintEpoch i n => Some (LineEpoch i n)
                 | PrintTrain l a => Some (LineTrain l a)
                 | PrintVal l a => Some (LineVal l a)
                 | PrintBlank => Some LineBlank
                 | PrintTest k v => Some (LineTest k v)
                 | PrintSaved => Some LineSaved
                 | ProgressBar _ _ | CallEvaluate _ _ => None
                 end) t.

(** The progress bars [tqdm] drew on stderr in a run: description and
    total. *)
Definition progress_bars (t : list event) : list (string * Z) :=
  omap (fun e => match e with
                 | ProgressBar desc total => Some (desc, total)
                 | _ => None
                 end) t.

(** The number of [New best model found] lines in an output. *)

Definition is_new_best (e : event) : bool :=
  match e with
  | PrintNewBest _ _ => true
  | _ => false
  end.

Definition new_best_count (t : list event) : nat :=
  length (List.filter is_new_best t).

(** The evaluator calls recorded in an output. *)
Definition evaluate_calls (t : list event) : list (loc * DataLoader) :=
  omap (fun e => match e with
                 | CallEvaluate m d => Some (m, d)
                 | _ => None
                 end) t.

(** What one pass over a loader serves: the dataset, reshuffled if the
    loader shuffles. *)
Definition served (dataloader : DataLoader) (w : World) : list Sample :=
  if dl_shuffle dataloader
  then permute (rng w) (dl_dataset dataloader)
  else dl_dataset dataloader.

(** The parts of the world that only the script itself writes: the
    console and the file system. *)
Definition same_output (w w' : World) : Prop :=
  trace w' = trace w /\ dirs w' = dirs w /\ files w' = files w.

(** The scheduler is the one of [w] after [n] more steps. *)
Definition stepped (n : Z) (w w' : World) : Prop :=
  last_epoch (scheduler w') = last_epoch (scheduler w) + n /\
  lr_lambda (scheduler w') = lr_lambda (scheduler w) /\
  base_lr (scheduler w') = base_lr (scheduler w).

Definition main (config : Config) (dataset : list Sample) (model : loc)
  : M unit :=
  let* (train_dl, test_dl, val_dl) := build_loaders config dataset in
  let* _ := build_optimizer config in
  let* _ := build_scheduler config train_dl in
  let best := initial_best config model in
  let* _ :=
    emit (PrintBanner (Z.of_nat (length (dl_dataset train_dl)))
                      (Z.of_nat (length (dl_dataset val_dl)))
                      (Z.of_nat (length (dl_dataset test_dl)))) in
  let* (best_val_metric, best_model) :=
    epoch_loop config model train_dl val_dl best in
  test_and_save config test_dl best_model.

End Train.

(** ** A small backend to run the script on

    One integer weight that every optimizer step increases by one, a loss
    that is the distance of the weight to 7, samples that are their own
    label and are always classified right, and no shuffling. *)

Module Toy.

Definition of_Z (n : Z) : Py.float :=
  binary_normalize Py.prec Py.emax n 0 false.

(** The decimal literal [a/b], e.g. [0.7] as [decimal 7 10]. *)
Definition decimal (a b : Z) : Py.float :=
  SFdiv Py.prec Py.emax (Py.exact a) (Py.exact b).

Definition backend : Backend := {|
  Params := Z;
  OptState := unit;
  optimizer_new := tt;
  Sample := Z;
  label := fun x => x;
  Outputs := Z * list Z;
  forward := fun _ p batch => (p, batch);
  criterion := fun out _ => of_Z (Z.abs (fst out - 7));
  argmax := fun out => snd out;
  optimizer_update := fun _ st _ p _ => (st, p + 1);
  permute := fun _ l => l;
  permute_length := fun _ _ => eq_refl
|}.

#[local] Existing Instance backend.

Definition dataset (n : nat) : list Z := repeat 0 n.

(** The metrics [{"loss": v}]. *)
Definition loss_only (v : Py.float) : Metrics := {["loss"%string := v]}.

Definition model : loc := 0%nat.

(** The world before the script starts: the model at weight 0, an empty
    file system, nothing printed. *)
Definition world0 : World := {|
  heap := fun _ => {| params := 0; training := false |};
  optimizer := {| opt_state := tt; opt_lr := Py.zero |};
  scheduler := {| lr_lambda := fun _ => Ok Py.one; base_lr := Py.zero;
                  last_epoch := 0 |};
  rng := 0%nat;
  dirs := ∅;
  files := ∅;
  trace := []
|}.

Definition config (epochs : Z) (warmup_ratio : Py.float) : Config := {|
  data_train_ratio := decimal 7 10;
  data_test_val_ratio := decimal 1 2;
  training_batch_size := 10;
  training_lr := decimal 1 1000;
  training_epochs := epochs;
  training_warmup_ratio := warmup_ratio;
  training_evaluation_metric := "loss";
  training_best_metric_lower_is_better := true;
  training_checkpoint_dir := "ckpt";
  training_model_name := "m"
|}.

(** The world a statement ends in ([world0] if it raises). *)
Definition world_of {A} (r : result (A * World)) : World :=
  match r with
  | Ok (_, w) => w
  | Raise _ => world0
  end.

(** The value a statement returns (none if it raises). *)
Definition value_of {A} (r : result (A * World)) : option A :=
  match r with
  | Ok (a, _) => Some a
  | Raise _ => None
  end.

(** The exception a statement raises (none if it returns). *)
Definition error_of {A} (r : result (A * World)) : option exn :=
  match r with
  | Ok _ => None
  | Raise e => Some e
  end.

(** The evaluator calls of an output: the model and the size of the
    partition. *)
Definition calls (t : list event) : list (loc * nat) :=
  map (fun c => (fst c, length (dl_dataset (snd c)))) (evaluate_calls t).

(** The loaders of 100 samples split 70/15/15 in batches of 10. *)
Definition train_dl : DataLoader :=
  {| dl_dataset := dataset 70; dl_batch_size := 10; dl_shuffle := true |}.
Definition test_dl : DataLoader :=
  {| dl_dataset := dataset 15; dl_batch_size := 10; dl_shuffle := false |}.
Definition val_dl : DataLoader :=
  {| dl_dataset := dataset 15; dl_batch_size := 10; dl_shuffle := false |}.

(** Two epochs, a tenth of the steps for the warmup. *)
Definition config2 : Config := config 2 (decimal 1 10).

(** The world when the epoch loop of [main config2] starts: loaders,
    optimizer and scheduler built, banner printed. *)
Definition ready : World :=
  world_of
    ((let* _ := build_loaders config2 (dataset 100) in
      let* _ := build_optimizer config2 in
      let* _ := build_scheduler config2 train_dl in
      emit (PrintBanner 70 15 15)) world0).

(** The worlds after the first and after the second epoch. *)
Definition after_epoch_1 : World :=
  world_of (epoch_body config2 model train_dl val_dl
                       (initial_best config2 model) 0 ready).
Definition after_epoch_2 : World :=
  world_of (epoch_body config2 model train_dl val_dl
                       (Py.zero, model) 1 after_epoch_1).

(** The world at the end of the whole script. *)
Definition final : World :=
  world_of (main config2 (dataset 100) model world0).

End Toy.

(** * Properties *)

(** ** Binary64 arithmetic: digits, shifts and rounding *)

Lemma digits2_pos_size (p : positive) : digits2_pos p = Pos.size p.
Proof. induction p; simpl; congruence. Qed.

Lemma Zdigits2_log2 (m : Z) : 0 < m -> Zdigits2 m = Z.log2 m + 1.
Proof.
  destruct m as [|p|p]; try lia. intros _. simpl. rewrite digits2_pos_size.
  destruct p; simpl; lia.
Qed.

Lemma Zdigits2_nonneg (m : Z) : 0 <= Zdigits2 m.
Proof. destruct m; simpl; lia. Qed.

Lemma Zdigits2_lt_pow2 (m : Z) : 0 <= m -> m < 2 ^ Zdigits2 m.
Proof.
  intros Hm. destruct (Z.eq_dec m 0) as [->|Hne]; [reflexivity|].
  rewrite Zdigits2_log2 by lia. apply Z.log2_spec. lia.
Qed.

Lemma Zdigits2_ge_pow2 (m : Z) : 0 < m -> 2 ^ (Zdigits2 m - 1) <= m.
Proof.
  intros Hm. rewrite Zdigits2_log2 by lia.
  replace (Z.log2 m + 1 - 1) with (Z.log2 m) by lia. apply Z.log2_spec. lia.
Qed.

Lemma Zdigits2_le (m k : Z) : 0 <= m -> 0 <= k -> m < 2 ^ k -> Zdigits2 m <= k.
Proof.
  intros Hm Hk Hlt. destruct (Z.eq_dec m 0) as [->|Hne]; [simpl; lia|].
  rewrite Zdigits2_log2 by lia.
  assert (Z.log2 m < k) by (apply Z.log2_lt_pow2; lia). lia.
Qed.

Lemma shr_1_m (r : shr_record) : 0 <= shr_m r -> shr_m (shr_1 r) = shr_m r / 2.
Proof.
  destruct r as [m r s]. simpl. intros Hm.
  destruct m as [|[p|p|]|p]; cbn [shr_m shr_1]; try lia.
  - reflexivity.
  - apply Z.div_unique with (r := 1); lia.
  - apply Z.div_unique with (r := 0); lia.
  - reflexivity.
Qed.

Lemma iter_pos_shr_1_m (n : positive) (r : shr_record) :
  0 <= shr_m r -> shr_m (SpecFloat.iter_pos shr_1 n r) = shr_m r / 2 ^ Zpos n.
Proof.
  revert r. induction n as [n IH|n IH|]; intros r Hr; simpl SpecFloat.iter_pos.
  - assert (H1 : 0 <= shr_m (shr_1 r)) by (rewrite shr_1_m by done; apply Z.div_pos; lia).
    assert (H2 : 0 <= shr_m (SpecFloat.iter_pos shr_1 n (shr_1 r))) by (rewrite IH by done; apply Z.div_pos; lia).
    rewrite IH, IH, shr_1_m by done.
    rewrite !Z.div_div by lia. f_equal.
    rewrite Pos2Z.inj_xI, <- Z.pow_add_r, <- (Z.pow_1_r 2) at 1 by lia.
    rewrite <- Z.pow_add_r by lia. f_equal. lia.
  - assert (H2 : 0 <= shr_m (SpecFloat.iter_pos shr_1 n r)) by (rewrite IH by done; apply Z.div_pos; lia).
    rewrite IH, IH by done.
    rewrite !Z.div_div by lia. f_equal.
    rewrite Pos2Z.inj_xO, <- Z.pow_add_r by lia. f_equal. lia.
  - rewrite shr_1_m by done. reflexivity.
Qed.

Lemma shr_spec (r : shr_record) (e n : Z) :
  0 <= shr_m r ->
  shr_m (fst (shr r e n)) = shr_m r / 2 ^ Z.max 0 n /\
  snd (shr r e n) = e + Z.max 0 n.
Proof.
  intros Hr. destruct n as [|p|p]; simpl.
  - rewrite Z.div_1_r. lia.
  - rewrite iter_pos_shr_1_m by done. rewrite Z.max_r by lia. done.
  - rewrite Z.div_1_r. lia.
Qed.

Lemma shr_record_of_loc_m (m : Z) (l : location) : shr_m (shr_record_of_loc m l) = m.
Proof. destruct l as [|[]]; reflexivity. Qed.

Lemma round_nearest_even_bounds (m : Z) (l : location) :
  m <= round_nearest_even m l <= m + 1.
Proof.
  destruct l as [|[]]; simpl; try lia. destruct (Z.even m); lia.
Qed.

Lemma Zdigits2_div_pow2 (m k : Z) :
  0 <= m -> 0 <= k -> Zdigits2 (m / 2 ^ k) <= Z.max (Zdigits2 m - k) 0.
Proof.
  intros Hm Hk.
  pose proof (Zdigits2_lt_pow2 m Hm) as Hlt.
  pose proof (Zdigits2_nonneg m) as Hd.
  assert (H2k : 0 < 2 ^ k) by (apply Z.pow_pos_nonneg; lia).
  destruct (Z_le_gt_dec k (Zdigits2 m)) as [Hle|Hgt].
  - rewrite Z.max_l by lia. apply Zdigits2_le; [apply Z.div_pos; lia | lia |].
    apply Z.div_lt_upper_bound; [lia|].
    rewrite <- Z.pow_add_r by lia. replace (k + (Zdigits2 m - k)) with (Zdigits2 m) by lia. done.
  - rewrite Z.div_small; [simpl; lia|]. split; [done|].
    eapply Z.lt_le_trans; [exact Hlt|]. apply Z.pow_le_mono_r; lia.
Qed.

Lemma Zdigits2_succ_le (m m' : Z) :
  0 <= m -> 0 <= m' <= m + 1 -> Zdigits2 m' <= Zdigits2 m + 1.
Proof.
  intros Hm Hm'.
  pose proof (Zdigits2_lt_pow2 m Hm) as Hlt.
  pose proof (Zdigits2_nonneg m) as Hd.
  apply Zdigits2_le; [lia..|].
  rewrite Z.pow_add_r, Z.pow_1_r by lia. lia.
Qed.

(** The shape of a rounded result: the mantissa and exponent that
    [binary_round_aux] ends with, and how far they are from its input. *)
Lemma binary_round_aux_core (s : bool) (m e : Z) (l : location) :
  0 <= m ->
  exists m3 e3 : Z,
    binary_round_aux Py.prec Py.emax s m e l =
      match m3 with
      | Z0 => S754_zero s
      | Zpos p => if e3 <=? 971 then S754_finite s p e3 else S754_infinity s
      | Zneg _ => S754_nan
      end /\
    0 <= m3 /\
    (e <= 971 -> Zdigits2 m + e <= 1023 -> e3 <= 971) /\
    (0 < m3 -> Zdigits2 m3 + e3 <= Z.max (Zdigits2 m + e) (-1074) + 1).
Proof.
  intros Hm. unfold binary_round_aux, shr_fexp.
  set (d := Zdigits2 m).
  pose proof (Zdigits2_nonneg m) as Hd. fold d in Hd.
  set (n1 := fexp Py.prec Py.emax (d + e) - e).
  destruct (shr_spec (shr_record_of_loc m l) e n1) as [Hm1 He1];
    [rewrite shr_record_of_loc_m; done|].
  destruct (shr (shr_record_of_loc m l) e n1) as [r1 e1]. simpl in Hm1, He1.
  rewrite shr_record_of_loc_m in Hm1.
  set (m2 := round_nearest_even (shr_m r1) (loc_of_shr_record r1)).
  pose proof (round_nearest_even_bounds (shr_m r1) (loc_of_shr_record r1)) as Hm2.
  fold m2 in Hm2.
  assert (Hm1pos : 0 <= shr_m r1).
  { rewrite Hm1. apply Z.div_pos; [done|]. apply Z.pow_pos_nonneg; lia. }
  set (n2 := fexp Py.prec Py.emax (Zdigits2 m2 + e1) - e1).
  destruct (shr_spec (shr_record_of_loc m2 loc_Exact) e1 n2) as [Hm3 He3];
    [simpl; lia|].
  destruct (shr (shr_record_of_loc m2 loc_Exact) e1 n2) as [r3 e3].
  simpl in Hm3, He3.
  assert (Hm3pos : 0 <= shr_m r3).
  { rewrite Hm3. apply Z.div_pos; [lia|]. apply Z.pow_pos_nonneg; lia. }
  exists (shr_m r3), e3. split; [|split; [done|]].
  { unfold Py.emax, Py.prec. simpl (1024 - 53). reflexivity. }
  (* digit counts along the way *)
  assert (Hd1 : Zdigits2 (shr_m r1) <= Z.max (d - Z.max 0 n1) 0).
  { rewrite Hm1. apply Zdigits2_div_pow2; lia. }
  assert (Hd2 : Zdigits2 m2 <= Zdigits2 (shr_m r1) + 1).
  { apply Zdigits2_succ_le; lia. }
  assert (Hd3 : Zdigits2 (shr_m r3) <= Z.max (Zdigits2 m2 - Z.max 0 n2) 0).
  { rewrite Hm3. apply Zdigits2_div_pow2; lia. }
  unfold fexp, emin, Py.prec, Py.emax in n1, n2.
  split.
  - intros He Hde. subst n1 n2. lia.
  - intros Hpos.
    assert (1 <= Zdigits2 (shr_m r3)).
    { rewrite Zdigits2_log2 by done. pose proof (Z.log2_nonneg (shr_m r3)). lia. }
    subst n1 n2. lia.
Qed.

Lemma binary_round_aux_sign (s : bool) (m e : Z) (l : location) :
  0 <= m -> Py.has_sign s (binary_round_aux Py.prec Py.emax s m e l) = true.
Proof.
  intros Hm. destruct (binary_round_aux_core s m e l Hm) as (m3 & e3 & -> & Hm3 & _).
  destruct m3 as [|p|p]; [| |lia]; simpl; [|destruct (e3 <=? 971); simpl];
    by destruct s.
Qed.

Lemma binary_round_aux_fits (s : bool) (m e : Z) (l : location) :
  0 <= m -> e <= 971 -> Zdigits2 m + e <= 1023 ->
  Py.fits (Z.max (Zdigits2 m + e) (-1074) + 1)
          (binary_round_aux Py.prec Py.emax s m e l) = true.
Proof.
  intros Hm He Hd.
  destruct (binary_round_aux_core s m e l Hm) as (m3 & e3 & -> & Hm3 & He3 & Hd3).
  destruct m3 as [|p|p]; [done| |lia].
  rewrite (proj2 (Z.leb_le e3 971)) by auto. simpl.
  apply Z.leb_le. apply Hd3. lia.
Qed.

Lemma fits_mono (k k' : Z) (x : Py.float) :
  k <= k' -> Py.fits k x = true -> Py.fits k' x = true.
Proof.
  intros Hk. destruct x; simpl; try done.
  rewrite !Z.leb_le. lia.
Qed.

Lemma digits2_pos_iter_xO (m k : positive) :
  Zpos (digits2_pos (Pos.iter xO m k)) = Zpos (digits2_pos m) + Zpos k.
Proof.
  induction k as [|k IH] using Pos.peano_ind.
  - simpl. lia.
  - rewrite Pos.iter_succ. simpl digits2_pos. rewrite Pos2Z.inj_succ, IH. lia.
Qed.

Lemma shl_align_spec (mx : positive) (ex ex' : Z) :
  snd (shl_align mx ex ex') = Z.min ex ex' /\
  Zpos (digits2_pos (fst (shl_align mx ex ex'))) + snd (shl_align mx ex ex')
  = Zpos (digits2_pos mx) + ex.
Proof.
  unfold shl_align. destruct (ex' - ex) as [|d|d] eqn:E; simpl; [lia..|].
  rewrite digits2_pos_iter_xO. lia.
Qed.

(** [float(n)] succeeds on every int below [2 ^ 1023] in magnitude. *)
Lemma float_of_int_fits (n k : Z) :
  0 <= k <= 1023 -> Z.abs n < 2 ^ k ->
  exists x, Py.float_of_int n = Ok x /\ Py.fits (k + 1) x = true.
Proof.
  intros Hk Hn. unfold Py.float_of_int, binary_normalize.
  assert (Hgen : forall s p, Zpos p < 2 ^ k ->
            Py.fits (k + 1) (binary_round Py.prec Py.emax s p 0) = true).
  { intros s p Hp. unfold binary_round.
    pose proof (shl_align_spec p 0 (fexp Py.prec Py.emax (Zpos (digits2_pos p) + 0))) as [He Hd].
    destruct (shl_align p 0 _) as [mz ez]. simpl in He, Hd.
    assert (Hdp : Zdigits2 (Zpos p) <= k) by (apply Zdigits2_le; lia).
    simpl Zdigits2 in Hdp.
    eapply fits_mono; [|apply binary_round_aux_fits]; simpl Zdigits2; lia. }
  destruct n as [|p|p].
  - eexists; split; [reflexivity|done].
  - specialize (Hgen false p ltac:(lia)).
    destruct (binary_round Py.prec Py.emax false p 0) eqn:E; try done; eauto.
  - specialize (Hgen true p ltac:(lia)).
    destruct (binary_round Py.prec Py.emax true p 0) eqn:E; try done; eauto.
Qed.

Lemma digits2_pos_mul (p q : positive) :
  Zpos (digits2_pos (p * q)) <= Zpos (digits2_pos p) + Zpos (digits2_pos q).
Proof.
  change (Zdigits2 (Zpos (p * q)) <= Zdigits2 (Zpos p) + Zdigits2 (Zpos q)).
  pose proof (Zdigits2_lt_pow2 (Zpos p) ltac:(lia)).
  pose proof (Zdigits2_lt_pow2 (Zpos q) ltac:(lia)).
  pose proof (Zdigits2_nonneg (Zpos p)). pose proof (Zdigits2_nonneg (Zpos q)).
  apply Zdigits2_le; [lia..|].
  rewrite Z.pow_add_r, Pos2Z.inj_mul by lia. nia.
Qed.

Lemma mul_fits (k1 k2 : Z) (x y : Py.float) :
  k1 + k2 <= 973 ->
  Py.fits k1 x = true -> Py.fits k2 y = true ->
  Py.fits (Z.max (k1 + k2) (-1074) + 1) (Py.mul x y) = true.
Proof.
  intros Hk Hx Hy.
  destruct x as [sx|sx| |sx mx ex], y as [sy|sy| |sy my ey]; simpl in *; try done.
  apply Z.leb_le in Hx, Hy.
  pose proof (digits2_pos_mul mx my).
  eapply fits_mono; [|apply binary_round_aux_fits]; simpl Zdigits2; lia.
Qed.

Lemma int_of_float_fits (k : Z) (x : Py.float) :
  0 <= k -> Py.fits k x = true ->
  exists n, Py.int_of_float x = Ok n /\ Z.abs n < 2 ^ k.
Proof.
  intros Hk Hx. destruct x as [s|s| |s m e]; simpl in *; try done.
  - exists 0. split; [done|]. simpl. apply Z.pow_pos_nonneg; lia.
  - apply Z.leb_le in Hx. eexists; split; [reflexivity|].
    assert (Ha : 0 <= match e with
                      | Z.neg k0 => Z.shiftr (Z.pos m) (Z.pos k0)
                      | _ => Z.shiftl (Z.pos m) e
                      end < 2 ^ k).
    { pose proof (Zdigits2_lt_pow2 (Zpos m) ltac:(lia)) as Hm. simpl Zdigits2 in Hm.
      destruct e as [|e|e].
      - rewrite Z.shiftl_0_r. split; [lia|].
        eapply Z.lt_le_trans; [exact Hm|]. apply Z.pow_le_mono_r; lia.
      - rewrite Z.shiftl_mul_pow2 by lia. split; [lia|].
        eapply Z.lt_le_trans with (2 ^ (Zpos (digits2_pos m) + Zpos e)).
        + rewrite Z.pow_add_r by lia. apply Z.mul_lt_mono_pos_r; [lia|done].
        + apply Z.pow_le_mono_r; lia.
      - rewrite Z.shiftr_div_pow2 by lia.
        pose proof (Zdigits2_div_pow2 (Zpos m) (Zpos e) ltac:(lia) ltac:(lia)) as Hd.
        assert (0 <= Zpos m / 2 ^ Zpos e) by (apply Z.div_pos; lia).
        split; [done|].
        eapply Z.lt_le_trans; [apply Zdigits2_lt_pow2; done|].
        apply Z.pow_le_mono_r; [lia|]. simpl Zdigits2 in Hd. lia. }
    destruct s; lia.
Qed.

Lemma lt_one_inv (m : positive) (e : Z) :
  Py.lt (S754_finite false m e) Py.one = true ->
  e < -52 \/ (e = -52 /\ Zpos m < 4503599627370496).
Proof.
  unfold Py.lt, SFltb, Py.one, SFcompare.
  destruct (e ?= -52) eqn:Ee.
  - apply Z.compare_eq in Ee.
    destruct (Pos.compare_cont Eq m 4503599627370496) eqn:E; try discriminate.
    intros _. right. split; [exact Ee|]. exact E.
  - intros _. left. exact Ee.
  - discriminate.
Qed.

Lemma is_ratio_fits (r : Py.float) : Py.is_ratio r = true -> Py.fits 0 r = true.
Proof.
  unfold Py.is_ratio. rewrite !andb_true_iff. intros [[Hv H0] H1].
  destruct r as [s|s| |s m e].
  { reflexivity. }
  { destruct s; [vm_compute in H0 | vm_compute in H1]; discriminate. }
  { vm_compute in H0; discriminate. }
  destruct s; [vm_compute in H0; discriminate|].
  apply lt_one_inv in H1.
  unfold valid_binary, bounded, canonical_mantissa, fexp, emin, Py.prec, Py.emax in Hv.
  apply andb_true_iff in Hv as [Hc _]. apply Z.eqb_eq in Hc.
  unfold Py.fits. apply Z.leb_le.
  destruct H1 as [Hlt|[-> Hm]]; [lia|].
  assert (Zdigits2 (Zpos m) <= 52) by (apply Zdigits2_le; lia).
  simpl Zdigits2 in *. lia.
Qed.

Lemma SFdiv_core_binary_spec (pa pb : positive) :
  exists q e' l,
    SFdiv_core_binary Py.prec Py.emax (Zpos pa) 0 (Zpos pb) 0 = (q, e', l) /\
    0 <= q /\ e' <= 0 /\
    Zdigits2 q + e'
    <= Z.max (Zpos (digits2_pos pa) - Zpos (digits2_pos pb) + 1) 0.
Proof.
  unfold SFdiv_core_binary. simpl Zdigits2.
  set (da := Zpos (digits2_pos pa)). set (db := Zpos (digits2_pos pb)).
  set (e' := Z.min (fexp Py.prec Py.emax (da + 0 - (db + 0))) (0 - 0)).
  assert (He' : e' <= 0) by (subst e'; lia).
  set (s := 0 - 0 - e').
  set (m' := match s with Z.pos _ => Z.shiftl (Z.pos pa) s | Z0 => Z.pos pa | Z.neg _ => 0 end).
  assert (Hm' : m' = Zpos pa * 2 ^ s).
  { subst m'. destruct s as [|p|p] eqn:Es; [simpl; lia| |lia].
    rewrite Z.shiftl_mul_pow2 by lia. reflexivity. }
  pose proof (Z_div_mod m' (Zpos pb) ltac:(lia)) as Hdm.
  destruct (Z.div_eucl m' (Z.pos pb)) as [q r].
  exists q, e', (new_location (Z.pos pb) r). split; [reflexivity|].
  destruct Hdm as [Heq Hr].
  assert (H2s : 0 < 2 ^ s) by (apply Z.pow_pos_nonneg; lia).
  assert (Hq : 0 <= q) by nia.
  split; [done|]. split; [done|].
  pose proof (Zdigits2_lt_pow2 (Zpos pa) ltac:(lia)) as Ha. simpl Zdigits2 in Ha. fold da in Ha.
  pose proof (Zdigits2_ge_pow2 (Zpos pb) ltac:(lia)) as Hb. simpl Zdigits2 in Hb. fold db in Hb.
  assert (Hda : 1 <= da) by (subst da; lia).
  assert (Hdb : 1 <= db) by (subst db; lia).
  assert (Hm'lt : m' < 2 ^ (da + s)).
  { rewrite Hm', Z.pow_add_r by lia. apply Z.mul_lt_mono_pos_r; done. }
  assert (Hle : q * 2 ^ (db - 1) <= m').
  { assert (0 < 2 ^ (db - 1)) by (apply Z.pow_pos_nonneg; lia). nia. }
  destruct (Z_le_gt_dec 0 (da + s - db + 1)) as [Hge|Hlt].
  - assert (Zdigits2 q <= da + s - db + 1).
    { apply Zdigits2_le; [done..|].
      assert (0 < 2 ^ (db - 1)) by (apply Z.pow_pos_nonneg; lia).
      apply Z.mul_lt_mono_pos_r with (p := 2 ^ (db - 1)); [done|].
      rewrite <- Z.pow_add_r by lia.
      replace (da + s - db + 1 + (db - 1)) with (da + s) by lia. lia. }
    lia.
  - assert (q = 0).
    { assert (2 ^ (da + s) <= 2 ^ (db - 1)) by (apply Z.pow_le_mono_r; lia).
      assert (0 < 2 ^ (db - 1)) by (apply Z.pow_pos_nonneg; lia). nia. }
    subst q. simpl Zdigits2. lia.
Qed.

(** The quotient of two nonzero ints: its sign, and that it is finite when
    the operands are less than 1021 binary orders apart. *)
Lemma SFdiv_exact_spec (a b : Z) :
  a <> 0 -> b <> 0 ->
  Py.has_sign (xorb (a <? 0) (b <? 0))
              (SFdiv Py.prec Py.emax (Py.exact a) (Py.exact b)) = true /\
  (Zdigits2 a - Zdigits2 b <= 1021 ->
   Py.fits (Z.max (Zdigits2 a - Zdigits2 b + 1) 0 + 1)
           (SFdiv Py.prec Py.emax (Py.exact a) (Py.exact b)) = true).
Proof.
  intros Ha Hb.
  assert (Hgen : forall sa sb pa pb,
    Py.has_sign (xorb sa sb)
      (SFdiv Py.prec Py.emax (S754_finite sa pa 0) (S754_finite sb pb 0)) = true /\
    (Zpos (digits2_pos pa) - Zpos (digits2_pos pb) <= 1021 ->
     Py.fits (Z.max (Zpos (digits2_pos pa) - Zpos (digits2_pos pb) + 1) 0 + 1)
       (SFdiv Py.prec Py.emax (S754_finite sa pa 0) (S754_finite sb pb 0)) = true)).
  { intros sa sb pa pb. unfold SFdiv.
    destruct (SFdiv_core_binary_spec pa pb) as (q & e' & l & -> & Hq & He' & Hd).
    split; [by apply binary_round_aux_sign|].
    intros Hdd. eapply fits_mono; [|apply binary_round_aux_fits]; lia. }
  destruct a as [|pa|pa], b as [|pb|pb]; try done; apply Hgen.
Qed.

Lemma int_true_div_self (a : Z) : 0 < a -> Py.int_true_div a a = Ok Py.one.
Proof.
  intros Ha. unfold Py.int_true_div.
  rewrite (proj2 (Z.eqb_neq a 0)) by lia.
  destruct a as [|p|p]; try lia. unfold Py.exact, SFdiv, SFdiv_core_binary.
  replace (Zdigits2 (Z.pos p) + 0 - (Zdigits2 (Z.pos p) + 0)) with 0 by lia.
  change (Z.min (fexp Py.prec Py.emax 0) (0 - 0)) with (-53).
  change (0 - 0 - -53) with 53.
  cbv beta iota zeta.
  pose proof (Z_div_mod (Z.shiftl (Z.pos p) 53) (Zpos p) ltac:(lia)) as Hdm.
  destruct (Z.div_eucl (Z.shiftl (Z.pos p) 53) (Z.pos p)) as [q r].
  rewrite Z.shiftl_mul_pow2 in Hdm by lia.
  destruct Hdm as [Heq Hr].
  pose proof (Z.div_unique (Zpos p * 2 ^ 53) (Zpos p) q r ltac:(lia) Heq) as Hq.
  rewrite Z.mul_comm, Z.div_mul in Hq by lia. subst q.
  assert (r = 0) by lia. subst r.
  replace (new_location (Z.pos p) 0) with loc_Exact
    by (unfold new_location; destruct (Z.even (Z.pos p)); reflexivity).
  reflexivity.
Qed.

Lemma int_true_div_zero (b : Z) :
  b <> 0 -> Py.int_true_div 0 b = Ok (S754_zero (b <? 0)).
Proof.
  intros Hb. unfold Py.int_true_div.
  rewrite (proj2 (Z.eqb_neq b 0)) by done.
  destruct b; done.
Qed.

(** A nonnegative numerator not above a positive denominator: the quotient is
    a nonnegative number, and [max(0.0, q)] leaves it alone. *)
Lemma int_true_div_nonneg (a b : Z) :
  0 <= a <= b -> 0 < b ->
  exists q, Py.int_true_div a b = Ok q /\ Py.max Py.zero q = q /\
            Py.has_sign false q = true /\ Py.fits 2 q = true.
Proof.
  intros Ha Hb. destruct (Z.eq_dec a 0) as [->|Hne].
  { rewrite int_true_div_zero by lia. rewrite (proj2 (Z.ltb_ge b 0)) by lia.
    eexists; split; [reflexivity|]. done. }
  destruct (SFdiv_exact_spec a b Hne ltac:(lia)) as [Hs Hf].
  rewrite (proj2 (Z.ltb_ge a 0)), (proj2 (Z.ltb_ge b 0)) in Hs by lia.
  assert (Hd : Zdigits2 a <= Zdigits2 b).
  { apply Zdigits2_le; [lia|apply Zdigits2_nonneg|].
    pose proof (Zdigits2_lt_pow2 b ltac:(lia)). lia. }
  specialize (Hf ltac:(lia)).
  apply (fits_mono _ 2) in Hf; [|lia].
  unfold Py.int_true_div. rewrite (proj2 (Z.eqb_neq b 0)) by lia.
  destruct (SFdiv Py.prec Py.emax (Py.exact a) (Py.exact b)) as [s|s| |s m e];
    try discriminate; destruct s; try discriminate;
    eexists; (split; [reflexivity|]); done.
Qed.

(** A negative numerator over a positive denominator: [max(0.0, q)] is
    [0.0] whenever the quotient exists. *)
Lemma int_true_div_neg (a b : Z) :
  a < 0 -> 0 < b ->
  (Py.int_true_div a b = Raise OverflowError \/
   exists q, Py.int_true_div a b = Ok q /\ Py.max Py.zero q = Py.zero) /\
  (- a < 2 ^ 1021 ->
   exists q, Py.int_true_div a b = Ok q /\ Py.max Py.zero q = Py.zero).
Proof.
  intros Ha Hb.
  destruct (SFdiv_exact_spec a b ltac:(lia) ltac:(lia)) as [Hs Hf].
  rewrite (proj2 (Z.ltb_lt a 0)), (proj2 (Z.ltb_ge b 0)) in Hs by lia.
  unfold Py.int_true_div. rewrite (proj2 (Z.eqb_neq b 0)) by lia.
  split.
  - destruct (SFdiv Py.prec Py.emax (Py.exact a) (Py.exact b)) as [s|s| |s m e];
      try discriminate; destruct s; try discriminate;
      first [by left | right; eexists; (split; [reflexivity|]); done].
  - intros Hlt.
    assert (Hd : Zdigits2 a <= 1021).
    { destruct a as [|p|p]; try lia. change (Zdigits2 (Zpos p) <= 1021).
      apply Zdigits2_le; lia. }
    assert (1 <= Zdigits2 b).
    { rewrite Zdigits2_log2 by done. pose proof (Z.log2_nonneg b). lia. }
    specialize (Hf ltac:(lia)).
    destruct (SFdiv Py.prec Py.emax (Py.exact a) (Py.exact b)) as [s|s| |s m e];
      try discriminate; destruct s; try discriminate;
      eexists; (split; [reflexivity|]); done.
Qed.

(** ** Order facts on floats *)

Lemma SFcompare_antisym (x y : Py.float) :
  SFcompare y x = option_map CompOpp (SFcompare x y).
Proof.
  destruct x as [sx|sx| |sx mx ex], y as [sy|sy| |sy my ey]; simpl;
    try reflexivity;
    try (destruct sx; reflexivity); try (destruct sy; reflexivity);
    try (destruct sx, sy; reflexivity).
  pose proof (Pos.compare_cont_antisym mx my Eq) as Ha.
  change (CompOpp Eq) with Eq in Ha.
  destruct sx, sy; try reflexivity; rewrite (Z.compare_antisym ex ey);
    destruct (ex ?= ey); simpl; try reflexivity;
    rewrite <- Ha; destruct (Pos.compare_cont Eq mx my); reflexivity.
Qed.

Lemma SFcompare_total (x y : Py.float) :
  Py.is_nan x = false -> Py.is_nan y = false ->
  exists c, SFcompare x y = Some c.
Proof.
  destruct x as [sx|sx| |sx mx ex], y as [sy|sy| |sy my ey];
    try discriminate; intros _ _; simpl; eauto.
Qed.

Lemma SFcompare_refl (x : Py.float) :
  Py.is_nan x = false -> SFcompare x x = Some Eq.
Proof.
  destruct x as [s|s| |s m e]; try discriminate; intros _; simpl;
    try (destruct s; reflexivity).
  rewrite Z.compare_refl, Pos.compare_cont_refl. destruct s; reflexivity.
Qed.

Lemma le_refl (x : Py.float) : Py.is_nan x = false -> Py.le x x = true.
Proof. intros Hx. unfold Py.le, SFleb. by rewrite SFcompare_refl. Qed.

Lemma gt_irrefl (x : Py.float) : Py.gt x x = false.
Proof.
  unfold Py.gt, SFltb. destruct (Py.is_nan x) eqn:Hx.
  - destruct x; try discriminate. reflexivity.
  - by rewrite SFcompare_refl.
Qed.

Lemma gt_le (x y : Py.float) : Py.gt x y = true -> Py.le y x = true.
Proof.
  unfold Py.gt, Py.le, SFltb, SFleb. destruct (SFcompare y x) as [[]|]; done.
Qed.

Lemma le_not_nan (x y : Py.float) :
  Py.le x y = true -> Py.is_nan x = false /\ Py.is_nan y = false.
Proof.
  unfold Py.le, SFleb.
  destruct x as [sx|sx| |sx mx ex], y as [sy|sy| |sy my ey]; simpl; done.
Qed.

Lemma gt_not_nan (x y : Py.float) :
  Py.gt x y = true -> Py.is_nan x = false /\ Py.is_nan y = false.
Proof.
  unfold Py.gt, SFltb.
  destruct x as [sx|sx| |sx mx ex], y as [sy|sy| |sy my ey]; simpl; done.
Qed.

(** ** Statements *)

Section Statements.
Context `{Backend}.

Lemma bind_Ok {A B} (m : M A) (k : A -> M B) w b w' :
  bind m k w = Ok (b, w') ->
  exists a w1, m w = Ok (a, w1) /\ k a w1 = Ok (b, w').
Proof.
  unfold bind. destruct (m w) as [[a w1]|e]; [eauto|discriminate].
Qed.

Lemma lift_Ok {A} (r : result A) w a w' :
  lift r w = Ok (a, w') -> r = Ok a /\ w' = w.
Proof. unfold lift. destruct r; [|discriminate]. by intros [= -> ->]. Qed.

Lemma for_each_invariant {A S} (P : S -> World -> Prop)
    (body : S -> A -> M S) (l : list A) :
  (forall s x w s' w', P s w -> body s x w = Ok (s', w') -> P s' w') ->
  forall s w s' w',
    P s w -> for_each body s l w = Ok (s', w') -> P s' w'.
Proof.
  intros Hbody. induction l as [|x l IH]; intros s w s' w' HP Hrun.
  - injection Hrun as <- <-. done.
  - simpl in Hrun. apply bind_Ok in Hrun as (s1 & w1 & Hx & Hl). eauto.
Qed.

Lemma for_each_snoc {A S} (body : S -> A -> M S) (l : list A) x s w :
  for_each body s (l ++ [x]) w
  = bind (for_each body s l) (fun s' => body s' x) w.
Proof.
  revert s w. induction l as [|y l IH]; intros s w; simpl.
  - unfold bind, ret. destruct (body s x w) as [[s1 w1]|e]; reflexivity.
  - unfold bind in *. destruct (body s y w) as [[s1 w1]|e]; [|reflexivity].
    apply IH.
Qed.

(** *** The model selector *)

Lemma manage_best_run model evaluation_metric (val_metrics : Metrics)
    best_val_metric best_model lower_is_better metric w :
  val_metrics !! evaluation_metric = Some metric ->
  manage_best_model_and_metrics model evaluation_metric val_metrics
    best_val_metric best_model lower_is_better w
  = if wins lower_is_better metric best_val_metric
    then Ok ((metric, model),
             with_trace (trace w ++ [PrintNewBest evaluation_metric metric]) w)
    else Ok ((best_val_metric, best_model), w).
Proof.
  intros Hget. unfold manage_best_model_and_metrics, wins, bind, lift, getitem.
  rewrite Hget. destruct lower_is_better;
    [destruct (Py.le metric best_val_metric)
    |destruct (Py.gt metric best_val_metric)]; reflexivity.
Qed.

Lemma manage_best_KeyError model evaluation_metric (val_metrics : Metrics)
    best_val_metric best_model lower_is_better w :
  val_metrics !! evaluation_metric = None ->
  manage_best_model_and_metrics model evaluation_metric val_metrics
    best_val_metric best_model lower_is_better w
  = Raise (KeyError evaluation_metric).
Proof.
  intros Hget. unfold manage_best_model_and_metrics, bind, lift, getitem.
  by rewrite Hget.
Qed.

Lemma wins_not_nan lower metric best :
  wins lower metric best = true ->
  Py.is_nan metric = false /\ Py.is_nan best = false.
Proof.
  destruct lower; simpl; [apply le_not_nan|apply gt_not_nan].
Qed.

(** The value the selector keeps is never NaN and never worse than the
    one it was given (which must not be NaN itself). *)
Lemma manage_best_monotone model evaluation_metric (val_metrics : Metrics)
    best_val_metric best_model lower_is_better w v r w' :
  Py.is_nan best_val_metric = false ->
  manage_best_model_and_metrics model evaluation_metric val_metrics
    best_val_metric best_model lower_is_better w = Ok ((v, r), w') ->
  Py.is_nan v = false /\
  (if lower_is_better then Py.le v best_val_metric
   else Py.le best_val_metric v) = true.
Proof.
  intros Hbest Hrun.
  destruct (val_metrics !! evaluation_metric) as [metric|] eqn:Hget;
    [|by rewrite manage_best_KeyError in Hrun].
  rewrite (manage_best_run _ _ _ _ _ _ metric) in Hrun by done.
  destruct (wins lower_is_better metric best_val_metric) eqn:Hw;
    injection Hrun as <- <- <-.
  - split; [by destruct (wins_not_nan _ _ _ Hw)|].
    destruct lower_is_better; simpl in Hw; [done|by apply gt_le].
  - split; [done|]. destruct lower_is_better; by apply le_refl.
Qed.

End Statements.

(** ** The model selector: claims *)

Section Selector.
Context `{Backend}.

(** One iteration of the epoch loop, taken apart: one training pass, one
    validation pass, one call of the selector. *)
Lemma epoch_body_inv config model train_dl val_dl best epoch w best' w' :
  epoch_body config model train_dl val_dl best epoch w = Ok (best', w') ->
  exists train_metrics val_metrics w1 w2 w3 tl ta vl va,
    train_one_epoch model train_dl
      (with_trace
         (trace w ++ [PrintEpoch (epoch + 1) (training_epochs config)]) w)
    = Ok (train_metrics, w1) /\
    evaluate model val_dl w1 = Ok (val_metrics, w2) /\
    manage_best_model_and_metrics model
      (training_evaluation_metric config) val_metrics (fst best) (snd best)
      (training_best_metric_lower_is_better config)
      (with_trace (trace w2 ++ [PrintTrain tl ta] ++ [PrintVal vl va]) w2)
    = Ok (best', w3) /\
    w' = with_trace (trace w3 ++ [PrintBlank]) w3.
Proof.
  destruct best as [b bm]. unfold epoch_body. intros Hrun.
  apply bind_Ok in Hrun as ([] & w0 & [= <-] & Hrun).
  apply bind_Ok in Hrun as (train_metrics & w1 & Htrain & Hrun).
  apply bind_Ok in Hrun as (val_metrics & w2 & Hval & Hrun).
  apply bind_Ok in Hrun as (tl & ? & [_ ->]%lift_Ok & Hrun).
  apply bind_Ok in Hrun as (ta & ? & [_ ->]%lift_Ok & Hrun).
  apply bind_Ok in Hrun as (vl & ? & [_ ->]%lift_Ok & Hrun).
  apply bind_Ok in Hrun as (va & ? & [_ ->]%lift_Ok & Hrun).
  apply bind_Ok in Hrun as ([] & ? & [= <-] & Hrun).
  apply bind_Ok in Hrun as ([] & ? & [= <-] & Hrun).
  apply bind_Ok in Hrun as (bst & w3 & Hsel & Hrun).
  apply bind_Ok in Hrun as ([] & ? & [= <-] & [= <- <-]).
  exists train_metrics, val_metrics, w1, w2, w3, tl, ta, vl, va.
  split; [exact Htrain|]. split; [exact Hval|]. split; [|reflexivity].
  simpl. rewrite <- Hsel. f_equal.
  unfold with_trace. simpl. by rewrite <- app_assoc.
Qed.

(** C1. The selector breaks ties asymmetrically.  A candidate whose metric
    is in the mapping wins exactly when [metric <= best_val_metric] if
    lower is better, and exactly when [metric > best_val_metric] otherwise;
    on a win the call returns [(metric, model)] and announces it, on a
    non-win it returns [(best_val_metric, best_model)] and changes nothing.
    On a tie, the newer model is taken in the first case (unless the value
    is NaN) and the older one kept in the second. *)
Theorem C1_selector_tie_breaking
    model evaluation_metric (val_metrics : Metrics)
    best_val_metric best_model lower_is_better metric w :
  val_metrics !! evaluation_metric = Some metric ->
  manage_best_model_and_metrics model evaluation_metric val_metrics
    best_val_metric best_model lower_is_better w
  = (if wins lower_is_better metric best_val_metric
     then Ok ((metric, model),
              with_trace
                (trace w ++ [PrintNewBest evaluation_metric metric]) w)
     else Ok ((best_val_metric, best_model), w)) /\
  wins true metric best_val_metric = Py.le metric best_val_metric /\
  wins false metric best_val_metric = Py.gt metric best_val_metric /\
  wins true metric metric = negb (Py.is_nan metric) /\
  wins false metric metric = false.
Proof.
  intros Hget. split; [by apply manage_best_run|].
  split; [reflexivity|]. split; [reflexivity|]. split.
  - simpl. destruct (Py.is_nan metric) eqn:Hn.
    + destruct metric; try discriminate. reflexivity.
    + by apply le_refl.
  - apply gt_irrefl.
Qed.

(** C5. The best model is the live model, not a copy.  On every winning
    selection the reference returned is the very [model] that was passed,
    no object is created or copied (the heap is the one before the call),
    and a later optimizer step on [model], which writes the parameters in
    place, is seen through the returned reference. *)
Theorem C5_best_model_aliases_live_model
    model evaluation_metric (val_metrics : Metrics)
    best_val_metric best_model lower_is_better metric w :
  val_metrics !! evaluation_metric = Some metric ->
  wins lower_is_better metric best_val_metric = true ->
  exists r w',
    manage_best_model_and_metrics model evaluation_metric val_metrics
      best_val_metric best_model lower_is_better w = Ok ((metric, r), w') /\
    r = model /\
    heap w' = heap w /\
    (forall h p, params (set_params model p h r) = p) /\
    (forall w2 batch, exists w3,
        optimizer_step model batch w2 = Ok (tt, w3) /\
        params (heap w3 r)
        = snd (optimizer_update (opt_lr (optimizer w2))
                                (opt_state (optimizer w2))
                                (training (heap w2 model))
                                (params (heap w2 model)) batch)).
Proof.
  intros Hget Hwin. exists model. eexists. split.
  { rewrite (manage_best_run _ _ _ _ _ _ metric) by done.
    rewrite Hwin. reflexivity. }
  split; [reflexivity|]. split; [reflexivity|]. split.
  - intros h p. unfold set_params. by rewrite fn_lookup_insert.
  - intros w2 batch. unfold optimizer_step.
    destruct (optimizer_update _ _ _ _ batch) as [st p]. eexists.
    split; [reflexivity|]. simpl. unfold set_params.
    by rewrite fn_lookup_insert.
Qed.

(** C10, as amended.  When neither the metric nor the best value so far is
    NaN, the value the selector returns is [min(metric, best_val_metric)]
    if lower is better and equals ([==]) [max(metric, best_val_metric)]
    otherwise; a NaN metric never wins and leaves the pair as it was.
    Along the epoch loop, started from plus or minus infinity, the tracked
    value is never NaN and each iteration leaves it not worse than the one
    before: non-increasing if lower is better, non-decreasing otherwise. *)
Theorem C10_best_metric_is_min_or_max :
  (forall model evaluation_metric (val_metrics : Metrics)
          best_val_metric best_model lower_is_better metric w,
      val_metrics !! evaluation_metric = Some metric ->
      Py.is_nan metric = false ->
      Py.is_nan best_val_metric = false ->
      exists v r w',
        manage_best_model_and_metrics model evaluation_metric val_metrics
          best_val_metric best_model lower_is_better w = Ok ((v, r), w') /\
        (if lower_is_better
         then v = Py.min metric best_val_metric
         else Py.eq v (Py.max metric best_val_metric) = true)) /\
  (forall model evaluation_metric (val_metrics : Metrics)
          best_val_metric best_model lower_is_better metric w,
      val_metrics !! evaluation_metric = Some metric ->
      Py.is_nan metric = true ->
      manage_best_model_and_metrics model evaluation_metric val_metrics
        best_val_metric best_model lower_is_better w
      = Ok ((best_val_metric, best_model), w)) /\
  (forall config model train_dl val_dl k w best_k w_k best_k1 w_k1,
      for_each (epoch_body config model train_dl val_dl)
               (initial_best config model) (seqZ 0 k) w = Ok (best_k, w_k) ->
      epoch_body config model train_dl val_dl best_k k w_k
      = Ok (best_k1, w_k1) ->
      Py.is_nan (fst best_k) = false /\
      Py.is_nan (fst best_k1) = false /\
      (if training_best_metric_lower_is_better config
       then Py.le (fst best_k1) (fst best_k)
       else Py.le (fst best_k) (fst best_k1)) = true).
Proof.
  split; [|split].
  - intros model em vm best bm lower metric w Hget Hm Hb.
    rewrite (manage_best_run _ _ _ _ _ _ metric) by done.
    destruct (SFcompare_total metric best Hm Hb) as [c Hc].
    pose proof (SFcompare_antisym metric best) as Ha. rewrite Hc in Ha.
    simpl in Ha.
    destruct lower; unfold wins, Py.min, Py.max, Py.le, Py.gt, Py.lt, Py.eq,
      SFleb, SFltb, SFeqb; rewrite ?Hc, ?Ha.
    + destruct c; simpl; do 3 eexists; split; reflexivity.
    + destruct c; simpl; do 3 eexists; (split; [reflexivity|]);
        rewrite ?Ha, ?SFcompare_refl; done.
  - intros model em vm best bm lower metric w Hget Hm.
    rewrite (manage_best_run _ _ _ _ _ _ metric) by done.
    destruct (wins lower metric best) eqn:Hw; [|reflexivity].
    apply wins_not_nan in Hw as [Hw _]. congruence.
  - intros config model train_dl val_dl k w best_k w_k best_k1 w_k1 Hloop Hbody.
    assert (Hk : Py.is_nan (fst best_k) = false).
    { revert Hloop.
      apply (for_each_invariant (fun s _ => Py.is_nan (fst s) = false)).
      - intros [b bm] x w0 [b' bm'] w0' Hb Hrun.
        apply epoch_body_inv in Hrun
          as (? & ? & ? & ? & ? & ? & ? & ? & ? & _ & _ & Hsel & _).
        by destruct (manage_best_monotone _ _ _ _ _ _ _ _ _ _ Hb Hsel).
      - unfold initial_best.
        by destruct (training_best_metric_lower_is_better config). }
    split; [done|]. destruct best_k as [b bm], best_k1 as [b' bm'].
    apply epoch_body_inv in Hbody
      as (? & ? & ? & ? & ? & ? & ? & ? & ? & _ & _ & Hsel & _).
    by apply (manage_best_monotone _ _ _ _ _ _ _ _ _ _ Hk Hsel).
Qed.

End Selector.

(** *** The selector on concrete calls *)

(** A tie under "lower is better": the candidate (model 1) replaces the
    best so far (model 0). *)
Lemma C1_selector_tie_breaking_witness :
  Toy.loss_only Py.one !! "loss"%string = Some Py.one /\
  manage_best_model_and_metrics (H := Toy.backend) 1%nat "loss"
    (Toy.loss_only Py.one) Py.one 0%nat true Toy.world0
  = Ok ((Py.one, 1%nat),
        with_trace [PrintNewBest "loss" Py.one] Toy.world0).
Proof.
  split; [reflexivity|].
  exact (proj1 (C1_selector_tie_breaking (H := Toy.backend) 1%nat "loss"
                  (Toy.loss_only Py.one) Py.one 0%nat true Py.one Toy.world0
                  eq_refl)).
Defined.

(** The same tie under "higher is better": the best so far is kept. *)
Example selector_tie_higher_is_better :
  manage_best_model_and_metrics (H := Toy.backend) 1%nat "loss"
    (Toy.loss_only Py.one) Py.one 0%nat false Toy.world0
  = Ok ((Py.one, 0%nat), Toy.world0).
Proof. reflexivity. Qed.

Lemma C5_best_model_aliases_live_model_witness :
  exists r w',
    manage_best_model_and_metrics (H := Toy.backend) 1%nat "loss"
      (Toy.loss_only Py.zero) Py.one 0%nat true Toy.world0
    = Ok ((Py.zero, r), w') /\ r = 1%nat.
Proof.
  destruct (C5_best_model_aliases_live_model (H := Toy.backend) 1%nat "loss"
              (Toy.loss_only Py.zero) Py.one 0%nat true Py.zero Toy.world0
              eq_refl eq_refl) as (r & w' & Hrun & Hr & _).
  exists r, w'. split; [exact Hrun | exact Hr].
Defined.

(** C10 as it was stated fails on a NaN metric: the selector keeps [1.0],
    while [min(nan, 1.0)] is [nan] (and [1.0 == nan] is false). *)
Lemma C10_counterexample :
  manage_best_model_and_metrics (H := Toy.backend) 1%nat "loss"
    (Toy.loss_only Py.nan) Py.one 0%nat true Toy.world0
  = Ok ((Py.one, 0%nat), Toy.world0) /\
  Py.min Py.nan Py.one = Py.nan /\
  Py.one <> Py.min Py.nan Py.one /\
  Py.eq Py.one (Py.min Py.nan Py.one) = false.
Proof. repeat split; try reflexivity; discriminate. Qed.

(** A statement that returns a value ends in the world [Toy.world_of]
    names. *)
Lemma run_eq {A} (r : result (A * @World Toy.backend)) (v : A) :
  Toy.value_of r = Some v -> r = Ok (v, Toy.world_of r).
Proof. destruct r as [[a w]|e]; simpl; [by intros [= ->]|discriminate]. Qed.

Lemma C10_best_metric_is_min_or_max_witness :
  (exists v r w',
      manage_best_model_and_metrics (H := Toy.backend) 1%nat "loss"
        (Toy.loss_only Py.zero) Py.one 0%nat true Toy.world0 = Ok ((v, r), w') /\
      v = Py.min Py.zero Py.one) /\
  manage_best_model_and_metrics (H := Toy.backend) 1%nat "loss"
    (Toy.loss_only Py.nan) Py.one 0%nat true Toy.world0
  = Ok ((Py.one, 0%nat), Toy.world0) /\
  Py.le Py.zero Py.zero = true.
Proof.
  destruct (C10_best_metric_is_min_or_max (H := Toy.backend))
    as (Hmin & Hnan & Hloop).
  split; [|split].
  - exact (Hmin 1%nat "loss"%string (Toy.loss_only Py.zero) Py.one 0%nat true
             Py.zero Toy.world0 eq_refl eq_refl eq_refl).
  - exact (Hnan 1%nat "loss"%string (Toy.loss_only Py.nan) Py.one 0%nat true
             Py.nan Toy.world0 eq_refl eq_refl).
  - assert (H1 : Toy.value_of
                   (for_each (epoch_body Toy.config2 Toy.model Toy.train_dl
                                         Toy.val_dl)
                             (initial_best Toy.config2 Toy.model) (seqZ 0 1)
                             Toy.ready)
                 = Some (Py.zero, Toy.model)) by (vm_compute; reflexivity).
    apply run_eq in H1.
    assert (H2 : Toy.value_of
                   (epoch_body Toy.config2 Toy.model Toy.train_dl Toy.val_dl
                      (Py.zero, Toy.model) 1
                      (Toy.world_of
                         (for_each (epoch_body Toy.config2 Toy.model
                                               Toy.train_dl Toy.val_dl)
                                   (initial_best Toy.config2 Toy.model)
                                   (seqZ 0 1) Toy.ready)))
                 = Some (Py.zero, Toy.model)) by (vm_compute; reflexivity).
    apply run_eq in H2.
    exact (proj2 (proj2 (Hloop _ _ _ _ _ _ _ _ _ _ H1 H2))).
Defined.

(** ** The learning-rate schedule: claims *)

Lemma lr_warmup_branch (total_steps warmup_steps step : Z) :
  step < warmup_steps ->
  lr_warmup_linear_decay total_steps warmup_steps step
  = Py.int_true_div step warmup_steps.
Proof.
  intros Hlt. unfold lr_warmup_linear_decay.
  by rewrite (proj2 (Z.ltb_lt step warmup_steps)).
Qed.

Lemma lr_decay_branch (total_steps warmup_steps step : Z) :
  warmup_steps <= step ->
  lr_warmup_linear_decay total_steps warmup_steps step
  = let? q := Py.int_true_div (total_steps - step)
                              (total_steps - warmup_steps) in
    Ok (Py.max Py.zero q).
Proof.
  intros Hge. unfold lr_warmup_linear_decay.
  by rewrite (proj2 (Z.ltb_ge step warmup_steps)).
Qed.

(** C2. With [0 < warmup_steps < total_steps], the multiplier is [0.0] at
    step 0, is [step / warmup_steps] below [warmup_steps] (a nonnegative
    number from step 0 on), is [1.0] exactly at [warmup_steps], is
    [(total_steps - step) / (total_steps - warmup_steps)] from there up to
    [total_steps], is [0.0] exactly at [total_steps], and beyond
    [total_steps] is never negative: it is [0.0] (unless the int quotient is
    too large for a float, which takes a step more than [2 ^ 1021] past
    [total_steps]). *)
Theorem C2_lr_warmup_linear_decay (total_steps warmup_steps : Z) :
  0 < warmup_steps -> warmup_steps < total_steps ->
  let f := lr_warmup_linear_decay total_steps warmup_steps in
  f 0 = Ok Py.zero /\
  (forall s, s < warmup_steps -> f s = Py.int_true_div s warmup_steps) /\
  (forall s, 0 <= s < warmup_steps ->
     exists q, f s = Ok q /\ Py.has_sign false q = true) /\
  f warmup_steps = Ok Py.one /\
  (forall s, warmup_steps <= s <= total_steps ->
     f s = Py.int_true_div (total_steps - s) (total_steps - warmup_steps) /\
     exists q, f s = Ok q /\ Py.has_sign false q = true) /\
  f total_steps = Ok Py.zero /\
  (forall s, total_steps < s ->
     (f s = Ok Py.zero \/ f s = Raise OverflowError) /\
     (s - total_steps < 2 ^ 1021 -> f s = Ok Py.zero)).
Proof.
  intros Hw Ht f. subst f.
  assert (H0 : lr_warmup_linear_decay total_steps warmup_steps 0 = Ok Py.zero).
  { rewrite lr_warmup_branch by done. rewrite int_true_div_zero by lia.
    by rewrite (proj2 (Z.ltb_ge warmup_steps 0)) by lia. }
  split; [exact H0|]. split; [intros s Hs; by apply lr_warmup_branch|].
  split.
  { intros s Hs. rewrite lr_warmup_branch by lia.
    destruct (int_true_div_nonneg s warmup_steps)
      as (q & -> & _ & Hsign & _); [lia..|]. eauto. }
  split.
  { rewrite lr_decay_branch by lia. rewrite int_true_div_self by lia.
    reflexivity. }
  split.
  { intros s Hs. rewrite lr_decay_branch by lia.
    destruct (int_true_div_nonneg (total_steps - s) (total_steps - warmup_steps))
      as (q & -> & Hmax & Hsign & _); [lia..|].
    simpl. rewrite Hmax. eauto. }
  split.
  { rewrite lr_decay_branch by lia. rewrite Z.sub_diag.
    rewrite int_true_div_zero by lia.
    by rewrite (proj2 (Z.ltb_ge (total_steps - warmup_steps) 0)) by lia. }
  intros s Hs. rewrite lr_decay_branch by lia.
  destruct (int_true_div_neg (total_steps - s) (total_steps - warmup_steps))
    as [Hany Hsmall]; [lia..|].
  split.
  - destruct Hany as [-> | (q & -> & Hmax)]; [by right|]. left. simpl.
    by rewrite Hmax.
  - intros Hlt. destruct Hsmall as (q & -> & Hmax); [lia|]. simpl.
    by rewrite Hmax.
Qed.

(** The scenario of the specification: [warmup_ratio = 0.1] and 100 steps. *)
Example lr_schedule_scenario :
  warmup_steps 100 (Toy.decimal 1 10) = Ok 10 /\
  lr_warmup_linear_decay 100 10 5 = Ok (Toy.decimal 1 2) /\
  lr_warmup_linear_decay 100 10 10 = Ok Py.one /\
  lr_warmup_linear_decay 100 10 55 = Ok (Toy.decimal 1 2) /\
  lr_warmup_linear_decay 100 10 100 = Ok Py.zero /\
  lr_warmup_linear_decay 100 10 101 = Ok Py.zero.
Proof. repeat split; vm_compute; reflexivity. Qed.

Lemma C2_lr_warmup_linear_decay_witness :
  lr_warmup_linear_decay 100 10 0 = Ok Py.zero /\
  lr_warmup_linear_decay 100 10 10 = Ok Py.one /\
  lr_warmup_linear_decay 100 10 100 = Ok Py.zero /\
  lr_warmup_linear_decay 100 10 7 = Py.int_true_div 7 10 /\
  lr_warmup_linear_decay 100 10 150 = Ok Py.zero.
Proof.
  destruct (C2_lr_warmup_linear_decay 100 10 ltac:(lia) ltac:(lia))
    as (H0 & Hup & _ & H1 & _ & Hend & Hpast).
  split; [exact H0|]. split; [exact H1|]. split; [exact Hend|].
  split; [apply Hup; lia|].
  apply Hpast; [lia|]. apply Z.ltb_lt. vm_compute. reflexivity.
Defined.

(** With [warmup_steps = 0] nothing guards [step / warmup_steps], but only
    a negative step reaches it.  The steps a scheduler passes count up
    from 0: they all take the decay branch, which divides by
    [total_steps]. *)
Lemma lr_warmup_zero_negative_step (total_steps step : Z) :
  step < 0 ->
  (step <? 0) = true /\
  Py.int_true_div step 0 = Raise ZeroDivisionError /\
  lr_warmup_linear_decay total_steps 0 step = Raise ZeroDivisionError.
Proof.
  intros Hs. unfold lr_warmup_linear_decay.
  by rewrite (proj2 (Z.ltb_lt step 0) Hs).
Qed.

Lemma lr_warmup_zero_from_step_0 (total_steps step : Z) :
  0 <= step ->
  lr_warmup_linear_decay total_steps 0 step
  = let? q := Py.int_true_div (total_steps - step) (total_steps - 0) in
    Ok (Py.max Py.zero q).
Proof. intros Hs. by apply lr_decay_branch. Qed.

Lemma lr_warmup_zero_no_error (total_steps step : Z) :
  0 < total_steps -> 0 <= step -> step - total_steps < 2 ^ 1021 ->
  is_ok (lr_warmup_linear_decay total_steps 0 step) = true.
Proof.
  intros Ht Hs Hb. rewrite lr_warmup_zero_from_step_0 by done.
  rewrite Z.sub_0_r.
  destruct (Z_le_gt_dec step total_steps) as [Hle|Hgt].
  - destruct (int_true_div_nonneg (total_steps - step) total_steps)
      as (q & -> & _); [lia..|]. reflexivity.
  - destruct (int_true_div_neg (total_steps - step) total_steps)
      as [_ Hsmall]; [lia..|].
    destruct Hsmall as (q & -> & _); [lia|]. reflexivity.
Qed.

(** C9. With [warmup_ratio = 1.0] the warmup ends where the schedule ends:
    [warmup_steps = total_steps = 7] for one epoch of 7 batches, and every
    step from there on takes the decay branch and divides by
    [total_steps - warmup_steps = 0]. *)
Theorem C9_decay_zero_division :
  exists (total_steps : Z) (warmup_ratio : Py.float),
    0 < total_steps /\
    warmup_ratio = Py.one /\
    warmup_steps total_steps warmup_ratio = Ok total_steps /\
    forall step, total_steps <= step ->
      (step <? total_steps) = false /\
      Py.int_true_div (total_steps - step) (total_steps - total_steps)
      = Raise ZeroDivisionError /\
      lr_warmup_linear_decay total_steps total_steps step
      = Raise ZeroDivisionError.
Proof.
  exists 7, Py.one. split; [lia|]. split; [reflexivity|].
  split; [vm_compute; reflexivity|].
  intros step Hs. split; [by apply Z.ltb_ge|].
  assert (Hdiv : Py.int_true_div (7 - step) (7 - 7) = Raise ZeroDivisionError)
    by reflexivity.
  split; [exact Hdiv|]. rewrite lr_decay_branch by done. by rewrite Hdiv.
Qed.

(** Whatever the number of steps, equal [warmup_steps] and [total_steps]
    make every step of the decay branch fail. *)
Lemma lr_decay_branch_zero_division (total_steps step : Z) :
  total_steps <= step ->
  lr_warmup_linear_decay total_steps total_steps step = Raise ZeroDivisionError.
Proof.
  intros Hs. rewrite lr_decay_branch by done. by rewrite Z.sub_diag.
Qed.

(** On the small backend: one epoch of 7 batches with [warmup_ratio = 1.0]
    ends in [ZeroDivisionError] (at the last [scheduler.step()]), and with
    [warmup_ratio = 0.0] runs to the end. *)
Example main_warmup_ratio_one :
  Toy.error_of (main (H := Toy.backend) (Toy.config 1 Py.one)
                     (Toy.dataset 100) Toy.model Toy.world0)
  = Some ZeroDivisionError.
Proof. vm_compute. reflexivity. Qed.

Example main_warmup_ratio_zero :
  is_ok (main (H := Toy.backend) (Toy.config 1 Py.zero) (Toy.dataset 100)
              Toy.model Toy.world0) = true.
Proof. vm_compute. reflexivity. Qed.

(** A divisor that is not zero never gives [ZeroDivisionError]. *)
Lemma int_true_div_no_zero_division (a b : Z) :
  b <> 0 -> Py.int_true_div a b <> Raise ZeroDivisionError.
Proof.
  intros Hb. unfold Py.int_true_div.
  rewrite (proj2 (Z.eqb_neq b 0) Hb).
  destruct (SFdiv Py.prec Py.emax _ _); discriminate.
Qed.

(** C4, amended.  With [warmup_steps = 0] the division [step / warmup_steps]
    is unguarded in the source, but no step a scheduler passes reaches it.
    At every step from 0 on the test [step < warmup_steps] is false and the
    multiplier is the decay expression, which divides by [total_steps]; only
    a negative step takes the warmup branch and divides by zero.  So for a
    training of at least one step the multiplier at step 0 is 1.0, no step
    from 0 on raises [ZeroDivisionError], [LambdaLR], which evaluates the
    multiplier at step 0, is built, and every [scheduler.step()] of a
    scheduler whose counter is not negative passes a step that is not
    negative again and does not raise [ZeroDivisionError].  A division by
    zero with [warmup_steps = 0] needs [total_steps = 0] as well, and then
    it is the one of the decay branch. *)
Theorem C4_warmup_zero_division `{Backend} (total_steps : Z) :
  (forall step, 0 <= step ->
     (step <? 0) = false /\
     lr_warmup_linear_decay total_steps 0 step
     = (let? q := Py.int_true_div (total_steps - step) (total_steps - 0) in
        Ok (Py.max Py.zero q))) /\
  (forall step, step < 0 ->
     (step <? 0) = true /\
     lr_warmup_linear_decay total_steps 0 step = Raise ZeroDivisionError) /\
  (0 < total_steps ->
   lr_warmup_linear_decay total_steps 0 0 = Ok Py.one /\
   (forall step, 0 <= step ->
      lr_warmup_linear_decay total_steps 0 step <> Raise ZeroDivisionError) /\
   (forall w, exists w',
      LambdaLR_new (lr_warmup_linear_decay total_steps 0) w = Ok (tt, w') /\
      last_epoch (scheduler w') = 0 /\
      lr_lambda (scheduler w') = lr_warmup_linear_decay total_steps 0) /\
   (forall w,
      lr_lambda (scheduler w) = lr_warmup_linear_decay total_steps 0 ->
      0 <= last_epoch (scheduler w) ->
      scheduler_step w <> Raise ZeroDivisionError /\
      forall w', scheduler_step w = Ok (tt, w') ->
        lr_lambda (scheduler w') = lr_warmup_linear_decay total_steps 0 /\
        last_epoch (scheduler w') = last_epoch (scheduler w) + 1)) /\
  (total_steps = 0 ->
   forall step, 0 <= step ->
     Py.int_true_div (total_steps - step) (total_steps - 0)
     = Raise ZeroDivisionError /\
     lr_warmup_linear_decay total_steps 0 step = Raise ZeroDivisionError).
Proof.
  assert (Hnz : 0 < total_steps -> forall step, 0 <= step ->
            lr_warmup_linear_decay total_steps 0 step
            <> Raise ZeroDivisionError).
  { intros Ht step Hs. rewrite lr_warmup_zero_from_step_0 by done.
    pose proof (int_true_div_no_zero_division (total_steps - step)
                  (total_steps - 0) ltac:(lia)) as Hd.
    destruct (Py.int_true_div _ _) as [q|e]; [discriminate|].
    simpl. congruence. }
  assert (H0 : 0 < total_steps ->
            lr_warmup_linear_decay total_steps 0 0 = Ok Py.one).
  { intros Ht. rewrite lr_warmup_zero_from_step_0, !Z.sub_0_r by lia.
    by rewrite int_true_div_self by lia. }
  split_and!.
  - intros step Hs. split; [by apply Z.ltb_ge|].
    by apply lr_warmup_zero_from_step_0.
  - intros step Hs.
    by destruct (lr_warmup_zero_negative_step total_steps step Hs)
      as (? & _ & ?).
  - intros Ht. split; [by apply H0|]. split; [by apply Hnz|]. split.
    + intros w. unfold LambdaLR_new, scheduler_set_lr.
      cbn [lr_lambda last_epoch base_lr]. rewrite (H0 Ht).
      eexists. split; [reflexivity|]. done.
    + intros w Hf Hl. unfold scheduler_step, scheduler_set_lr.
      cbn [lr_lambda last_epoch base_lr]. rewrite Hf.
      pose proof (Hnz Ht (last_epoch (scheduler w) + 1) ltac:(lia)) as Hd.
      destruct (lr_warmup_linear_decay total_steps 0
                  (last_epoch (scheduler w) + 1)) as [k|e].
      * split; [discriminate|]. by intros w' [= <-].
      * split; [congruence|]. discriminate.
  - intros -> step Hs. rewrite lr_warmup_zero_from_step_0 by done.
    by change (Py.int_true_div (0 - step) (0 - 0))
      with (@Raise Py.float ZeroDivisionError).
Qed.

Lemma C4_warmup_zero_division_witness :
  lr_warmup_linear_decay 7 0 0 = Ok Py.one /\
  lr_warmup_linear_decay 7 0 3 <> Raise ZeroDivisionError.
Proof.
  destruct (C4_warmup_zero_division (H := Toy.backend) 7)
    as (_ & _ & Hpos & _).
  destruct (Hpos ltac:(lia)) as (H0 & Hnz & _).
  split; [exact H0 | apply Hnz; lia].
Defined.

(** C4 as it was stated fails at step 0, the step the spec names, and at
    every step a scheduler passes.  A warmup ratio of 0.0 over 7 steps
    gives [warmup_steps = 0]; step 0 is not below it, the multiplier is the
    decay expression and is 1.0, not the division [0 / 0] of the warmup
    branch, and the script runs to its end. *)
Lemma C4_counterexample :
  warmup_steps 7 Py.zero = Ok 0 /\
  (0 <? 0) = false /\
  Py.int_true_div 0 0 = Raise ZeroDivisionError /\
  lr_warmup_linear_decay 7 0 0 = Ok Py.one /\
  lr_warmup_linear_decay 7 0 0 <> Py.int_true_div 0 0 /\
  is_ok (main (H := Toy.backend) (Toy.config 1 Py.zero) (Toy.dataset 100)
              Toy.model Toy.world0) = true.
Proof. split_and!; try discriminate; vm_compute; reflexivity. Qed.

Lemma C9_decay_zero_division_witness :
  exists total_steps,
    0 < total_steps /\
    lr_warmup_linear_decay total_steps total_steps total_steps
    = Raise ZeroDivisionError.
Proof.
  destruct C9_decay_zero_division as (t & r & Ht & _ & _ & Hall).
  exists t. split; [exact Ht|].
  exact (proj2 (proj2 (Hall t (Z.le_refl t)))).
Defined.

(** ** The dataset split: claims *)

(** [n * x] and [x * n] stay finite when [n] is an int below [2 ^ k] and [x]
    a float below 1. *)
Lemma float_mul_int_fits (x : Py.float) (n k : Z) :
  0 <= k <= 900 -> Z.abs n < 2 ^ k -> Py.fits 0 x = true ->
  exists y, Py.float_mul_int x n = Ok y /\ Py.fits (k + 2) y = true.
Proof.
  intros Hk Hn Hx. unfold Py.float_mul_int.
  destruct (float_of_int_fits n k ltac:(lia) Hn) as (f & -> & Hf). simpl.
  eexists. split; [reflexivity|].
  eapply fits_mono; [|apply (mul_fits 0 (k + 1)); [lia|done..]]. lia.
Qed.

Lemma int_mul_float_fits (n : Z) (x : Py.float) (k : Z) :
  0 <= k <= 900 -> Z.abs n < 2 ^ k -> Py.fits 0 x = true ->
  exists y, Py.int_mul_float n x = Ok y /\ Py.fits (k + 2) y = true.
Proof.
  intros Hk Hn Hx. unfold Py.int_mul_float.
  destruct (float_of_int_fits n k ltac:(lia) Hn) as (f & -> & Hf). simpl.
  eexists. split; [reflexivity|].
  eapply fits_mono; [|apply (mul_fits (k + 1) 0); [lia|done..]]. lia.
Qed.

(** The sizes are computed for every dataset and every pair of ratios, and
    the validation size takes what is left. *)
Lemma split_sizes_total (train_ratio test_val_ratio : Py.float) (N : Z) :
  0 <= N < 2 ^ 63 ->
  Py.is_ratio train_ratio = true ->
  Py.is_ratio test_val_ratio = true ->
  exists train_size test_size val_size,
    split_sizes train_ratio test_val_ratio N
    = Ok (train_size, test_size, val_size) /\
    (let? x := Py.float_mul_int train_ratio N in Py.int_of_float x)
    = Ok train_size /\
    (let? y := Py.int_mul_float (N - train_size) test_val_ratio in
     Py.int_of_float y) = Ok test_size /\
    val_size = (N - train_size) - test_size /\
    train_size + test_size + val_size = N.
Proof.
  intros HN Htr Htv. apply is_ratio_fits in Htr, Htv. unfold split_sizes.
  destruct (float_mul_int_fits train_ratio N 63) as (x & Ex & Hx);
    [lia|lia|done|].
  destruct (int_of_float_fits 65 x ltac:(lia) Hx) as (train_size & Et & Htrain).
  assert (Habs : Z.abs (N - train_size) < 2 ^ 66).
  { change (2 ^ 66) with (2 * 2 ^ 65).
    change (2 ^ 63) with 9223372036854775808 in HN.
    change (2 ^ 65) with 36893488147419103232 in *. lia. }
  destruct (int_mul_float_fits (N - train_size) test_val_ratio 66)
    as (y & Ey & Hy); [lia|done|done|].
  destruct (int_of_float_fits 68 y ltac:(lia) Hy) as (test_size & Es & _).
  exists train_size, test_size, (N - train_size - test_size).
  rewrite Ex. simpl. rewrite Et. simpl. rewrite Ey. simpl. rewrite Es. simpl.
  repeat split; lia.
Qed.

(** The scenario of the specification: 100 samples, ratios 0.7 and 0.5. *)
Example split_sizes_scenario :
  split_sizes (Toy.decimal 7 10) (Toy.decimal 1 2) 100 = Ok (70, 15, 15).
Proof. vm_compute. reflexivity. Qed.

(** C3. For a dataset of [N] samples ([N] below [2 ^ 63], as every length
    is) and two ratios strictly between 0 and 1, the three sizes are
    computed without error, [train_size = int(train_ratio * N)],
    [test_size = int((N - train_size) * test_val_ratio)], the validation
    size is what is left, and they add up to [N].  In particular, with 100
    samples and the ratios 0.7 and 0.5 (the binary64 numbers these literals
    denote) the training size is [int(0.7 * 100) = 70], 30 samples are
    left, the test size is [int(30 * 0.5) = 15] and the validation size is
    15. *)
Theorem C3_split_sizes_sum :
  (forall (train_ratio test_val_ratio : Py.float) (N : Z),
     0 <= N < 2 ^ 63 ->
     Py.is_ratio train_ratio = true ->
     Py.is_ratio test_val_ratio = true ->
     exists train_size test_size val_size,
       split_sizes train_ratio test_val_ratio N
       = Ok (train_size, test_size, val_size) /\
       (let? x := Py.float_mul_int train_ratio N in Py.int_of_float x)
       = Ok train_size /\
       (let? y := Py.int_mul_float (N - train_size) test_val_ratio in
        Py.int_of_float y) = Ok test_size /\
       val_size = (N - train_size) - test_size /\
       train_size + test_size + val_size = N) /\
  Toy.decimal 7 10 = S754_finite false 6305039478318694 (-53) /\
  Toy.decimal 1 2 = S754_finite false 4503599627370496 (-53) /\
  (let? x := Py.float_mul_int (Toy.decimal 7 10) 100 in Py.int_of_float x)
  = Ok 70 /\
  100 - 70 = 30 /\
  (let? y := Py.int_mul_float 30 (Toy.decimal 1 2) in Py.int_of_float y)
  = Ok 15 /\
  30 - 15 = 15 /\
  split_sizes (Toy.decimal 7 10) (Toy.decimal 1 2) 100 = Ok (70, 15, 15).
Proof.
  split; [exact split_sizes_total|].
  split_and!; vm_compute; reflexivity.
Qed.

Lemma C3_split_sizes_sum_witness :
  exists train_size test_size val_size,
    split_sizes (Toy.decimal 7 10) (Toy.decimal 1 2) 100
    = Ok (train_size, test_size, val_size) /\
    train_size + test_size + val_size = 100 /\
    train_size = 70 /\ test_size = 15 /\ val_size = 15.
Proof.
  destruct (proj1 C3_split_sizes_sum (Toy.decimal 7 10) (Toy.decimal 1 2)
                  100)
    as (a & b & c & Hrun & _ & _ & _ & Hsum).
  - split; [lia|]. apply Z.ltb_lt. vm_compute. reflexivity.
  - vm_compute. reflexivity.
  - vm_compute. reflexivity.
  - exists a, b, c. split; [exact Hrun|]. split; [exact Hsum|].
    destruct C3_split_sizes_sum as (_ & _ & _ & _ & _ & _ & _ & Hs).
    rewrite Hrun in Hs. injection Hs as -> -> ->. by split_and!.
Defined.

(** ** The training loop: what each statement touches *)

Section Frames.
Context `{Backend}.

Lemma same_output_refl w : same_output w w.
Proof. by repeat split. Qed.

Lemma same_output_trans w1 w2 w3 :
  same_output w1 w2 -> same_output w2 w3 -> same_output w1 w3.
Proof.
  intros (? & ? & ?) (? & ? & ?). repeat split; congruence.
Qed.

Lemma stepped_0 w : stepped 0 w w.
Proof. repeat split. lia. Qed.

Lemma stepped_trans n m w1 w2 w3 :
  stepped n w1 w2 -> stepped m w2 w3 -> stepped (n + m) w1 w3.
Proof.
  intros (? & ? & ?) (? & ? & ?). repeat split; try congruence. lia.
Qed.

Lemma scheduler_step_run w :
  scheduler_step w
  = match lr_lambda (scheduler w) (last_epoch (scheduler w) + 1) with
    | Ok k =>
        Ok (tt,
            with_scheduler
              {| lr_lambda := lr_lambda (scheduler w);
                 base_lr := base_lr (scheduler w);
                 last_epoch := last_epoch (scheduler w) + 1 |}
              (with_optimizer
                 {| opt_state := opt_state (optimizer w);
                    opt_lr := Py.mul (base_lr (scheduler w)) k |} w))
    | Raise e => Raise e
    end.
Proof. reflexivity. Qed.

Lemma optimizer_step_frame model batch w :
  exists w', optimizer_step model batch w = Ok (tt, w') /\
             scheduler w' = scheduler w /\ same_output w w' /\
             rng w' = rng w.
Proof.
  unfold optimizer_step. destruct (optimizer_update _ _ _ _ batch) as [st p].
  eexists. split; [reflexivity|]. by repeat split.
Qed.

(** One pass of the batch loop body is one scheduler step, and it
    succeeds exactly when the multiplier of the next step exists. *)
Lemma train_batch_run model acc batch w :
  match lr_lambda (scheduler w) (last_epoch (scheduler w) + 1) with
  | Ok _ =>
      exists acc' w', train_batch model acc batch w = Ok (acc', w') /\
                      stepped 1 w w' /\ same_output w w' /\ rng w' = rng w
  | Raise e => train_batch model acc batch w = Raise e
  end.
Proof.
  destruct acc as [[running_loss predictions] references].
  unfold train_batch, bind, get.
  destruct (optimizer_step_frame model batch w) as (w1 & -> & Hs & Ho & Hr).
  rewrite scheduler_step_run, Hs.
  destruct (lr_lambda (scheduler w) (last_epoch (scheduler w) + 1)) as [k|e];
    [|reflexivity].
  do 2 eexists. split; [reflexivity|]. simpl.
  destruct Ho as (? & ? & ?). by repeat split.
Qed.

Lemma train_batch_steps model acc batch w acc' w' :
  train_batch model acc batch w = Ok (acc', w') ->
  stepped 1 w w' /\ same_output w w' /\ rng w' = rng w.
Proof.
  intros Hrun. pose proof (train_batch_run model acc batch w) as Hspec.
  destruct (lr_lambda (scheduler w) (last_epoch (scheduler w) + 1)).
  - destruct Hspec as (acc1 & w1 & Hrun1 & Hrest). congruence.
  - congruence.
Qed.

Lemma train_loop_steps model batches acc w acc' w' :
  for_each (train_batch model) acc batches w = Ok (acc', w') ->
  stepped (Z.of_nat (length batches)) w w' /\ same_output w w' /\
  rng w' = rng w.
Proof.
  revert acc w. induction batches as [|b bs IH]; intros acc w Hrun.
  - injection Hrun as <- <-.
    split; [apply stepped_0|]. split; [apply same_output_refl|done].
  - simpl in Hrun. apply bind_Ok in Hrun as (acc1 & w1 & Hb & Hbs).
    apply train_batch_steps in Hb as (Hs1 & Ho1 & Hr1).
    apply IH in Hbs as (Hs2 & Ho2 & Hr2).
    split; [|split; [by eapply same_output_trans|congruence]].
    replace (Z.of_nat (length (b :: bs)))
      with (1 + Z.of_nat (length bs)) by (simpl length; lia).
    by eapply stepped_trans.
Qed.

(** The batch loop runs to its end when the schedule is defined on the
    steps it will take. *)
Lemma train_loop_total model batches acc w :
  (forall k, 1 <= k <= Z.of_nat (length batches) ->
     is_ok (lr_lambda (scheduler w) (last_epoch (scheduler w) + k)) = true) ->
  exists acc' w', for_each (train_batch model) acc batches w = Ok (acc', w').
Proof.
  revert acc w. induction batches as [|b bs IH]; intros acc w Hok.
  - by do 2 eexists.
  - simpl for_each. unfold bind.
    pose proof (train_batch_run model acc b w) as Hb.
    pose proof (Hok 1 ltac:(simpl length; lia)) as H1.
    destruct (lr_lambda (scheduler w) (last_epoch (scheduler w) + 1));
      [|discriminate].
    destruct Hb as (acc1 & w1 & -> & (Hl & Hf & _) & _).
    apply IH. intros k Hk. rewrite Hf, Hl.
    replace (last_epoch (scheduler w) + 1 + k)
      with (last_epoch (scheduler w) + (1 + k)) by lia.
    apply Hok. simpl length. lia.
Qed.

(** *** The number of batches of a loader *)

Lemma chunks_length {A} (n : nat) (fuel : nat) (l : list A) :
  (0 < n)%nat -> (length l <= fuel)%nat ->
  Z.of_nat (length (chunks fuel n l))
  = (Z.of_nat (length l) + Z.of_nat n - 1) / Z.of_nat n.
Proof.
  intros Hn. revert l. induction fuel as [|fuel IH]; intros l Hl.
  - destruct l; [|simpl in Hl; lia]. simpl.
    symmetry. apply Z.div_small. lia.
  - destruct l as [|x l'].
    { simpl. symmetry. apply Z.div_small. lia. }
    change (chunks (S fuel) n (x :: l'))
      with (take n (x :: l') :: chunks fuel n (drop n (x :: l'))).
    simpl length at 1. rewrite Nat2Z.inj_succ, IH
      by (rewrite length_drop; simpl length in *; lia).
    rewrite length_drop.
    destruct (Nat.le_gt_cases n (length (x :: l'))) as [Hle|Hgt].
    + rewrite Nat2Z.inj_sub by done.
      replace (Z.of_nat (length (x :: l')) + Z.of_nat n - 1)
        with (Z.of_nat (length (x :: l')) - Z.of_nat n + Z.of_nat n - 1
              + 1 * Z.of_nat n) by lia.
      rewrite Z.div_add by lia. lia.
    + replace (length (x :: l') - n)%nat with 0%nat by lia.
      rewrite (Z.div_small (Z.of_nat 0 + _ - 1)) by lia.
      apply Z.div_unique with (r := Z.of_nat (length (x :: l')) - 1).
      * simpl length in *. lia.
      * lia.
Qed.

Lemma dl_iter_run dataloader w :
  0 < dl_batch_size dataloader ->
  exists batches w',
    dl_iter dataloader w = Ok (batches, w') /\
    Z.of_nat (length batches) = dl_len dataloader /\
    scheduler w' = scheduler w /\ optimizer w' = optimizer w /\
    heap w' = heap w /\ same_output w w'.
Proof.
  intros Hbs. unfold dl_iter, dl_len.
  assert (Hn : (0 < Z.to_nat (dl_batch_size dataloader))%nat) by lia.
  destruct (dl_shuffle dataloader); do 2 eexists;
    (split; [reflexivity|]); (split; [|by repeat split]).
  - rewrite chunks_length by (rewrite ?permute_length; lia).
    rewrite permute_length. by rewrite Z2Nat.id by lia.
  - rewrite chunks_length by lia. by rewrite Z2Nat.id by lia.
Qed.

End Frames.

Section Loop.
Context `{Backend}.

Lemma set_training_frame model b w :
  exists w', set_training model b w = Ok (tt, w') /\
             scheduler w' = scheduler w /\ optimizer w' = optimizer w /\
             rng w' = rng w /\ same_output w w' /\
             (forall l, params (heap w' l) = params (heap w l)).
Proof.
  eexists. split; [reflexivity|]. do 4 (split; [by repeat split|]).
  intros l. simpl. unfold insert, fn_insert. by destruct (decide (model = l)) as [->|].
Qed.

Lemma eval_loop_frame model batches acc w :
  exists acc', for_each (eval_batch model) acc batches w = Ok (acc', w).
Proof.
  revert acc. induction batches as [|b bs IH]; intros acc; [by eexists|].
  destruct acc as [[running_loss predictions] references].
  simpl for_each. unfold bind at 1. unfold eval_batch at 1. unfold bind, get, ret.
  apply IH.
Qed.

(** The evaluator writes no parameter, takes no scheduler step, and leaves
    one [CallEvaluate] in the trace. *)
Lemma evaluate_frame model dataloader w m w' :
  evaluate model dataloader w = Ok (m, w') ->
  scheduler w' = scheduler w /\ optimizer w' = optimizer w /\
  trace w' = trace w ++ [CallEvaluate model dataloader] /\
  dirs w' = dirs w /\ files w' = files w /\
  (forall l, params (heap w' l) = params (heap w l)).
Proof.
  unfold evaluate. intros Hrun.
  apply bind_Ok in Hrun as ([] & w0 & [= <-] & Hrun).
  apply bind_Ok in Hrun as ([] & w1 & Hset & Hrun).
  destruct (set_training_frame model false
              (with_trace (trace w ++ [CallEvaluate model dataloader]) w))
    as (w1' & Hset' & Hs1 & Ho1 & _ & (Ht1 & Hd1 & Hf1) & Hp1).
  rewrite Hset in Hset'. injection Hset' as <-.
  apply bind_Ok in Hrun as (batches & w2 & Hit & Hrun).
  assert (Hw2 : scheduler w2 = scheduler w1 /\ optimizer w2 = optimizer w1 /\
                heap w2 = heap w1 /\ same_output w1 w2).
  { unfold dl_iter in Hit. destruct (dl_shuffle dataloader);
      injection Hit as <- <-; by repeat split. }
  destruct Hw2 as (Hs2 & Ho2 & Hh2 & Ht2 & Hd2 & Hf2).
  apply bind_Ok in Hrun as ([[rl ps] rs] & w3 & Hloop & Hrun).
  destruct (eval_loop_frame model batches (Py.zero, [], []) w2) as (acc' & Hl).
  rewrite Hl in Hloop. assert (w3 = w2) as -> by congruence.
  apply lift_Ok in Hrun as [_ ->].
  simpl in Hs1, Ho1, Ht1, Hd1, Hf1, Hp1.
  split_and!; try congruence; intros l; rewrite Hh2; apply Hp1.
Qed.

(** One call of [train_one_epoch] on a loader of [B] batches: [B]
    scheduler steps, one progress bar and no line printed, and the metrics
    of the accumulated losses and predictions. *)
Lemma train_one_epoch_run model dataloader w :
  0 < dl_batch_size dataloader ->
  (forall k, 1 <= k <= dl_len dataloader ->
     is_ok (lr_lambda (scheduler w) (last_epoch (scheduler w) + k)) = true) ->
  exists batches w0 acc w1,
    Z.of_nat (length batches) = dl_len dataloader /\
    scheduler w0 = scheduler w /\
    train_loop model batches w0 = Ok (acc, w1) /\
    stepped (dl_len dataloader) w w1 /\
    (trace w1 = trace w ++ [ProgressBar "Training" (dl_len dataloader)] /\
     dirs w1 = dirs w /\ files w1 = files w) /\
    train_one_epoch model dataloader w
    = (let? m := compute_metrics (snd (fst acc)) (snd acc) (fst (fst acc))
                                 (dl_len dataloader) in
       Ok (m, w1)).
Proof.
  intros Hbs Hok. unfold train_one_epoch.
  destruct (set_training_frame model true w)
    as (wa & Hset & Hsa & _ & _ & (Hta & Hda & Hfa) & _).
  destruct (dl_iter_run dataloader
              (with_trace
                 (trace wa ++ [ProgressBar "Training" (dl_len dataloader)])
                 wa) Hbs)
    as (batches & w0 & Hit & Hlen & Hs0 & _ & _ & (Ht0 & Hd0 & Hf0)).
  cbn [scheduler trace dirs files with_trace] in Hs0, Ht0, Hd0, Hf0.
  destruct (train_loop_total model batches (Py.zero, [], []) w0)
    as ([[rl ps] rs] & w1 & Hloop).
  { intros k Hk. rewrite Hs0, Hsa. apply Hok. lia. }
  exists batches, w0, (rl, ps, rs), w1.
  pose proof (train_loop_steps _ _ _ _ _ _ Hloop) as (Hst & (Ht1 & Hd1 & Hf1) & _).
  split; [done|]. split; [congruence|]. split; [exact Hloop|].
  split; [|split].
  - rewrite Hlen in Hst. destruct Hst as (? & ? & ?).
    rewrite Hs0, Hsa in *. by repeat split.
  - split_and!; congruence.
  - unfold bind. rewrite Hset. unfold emit at 1. rewrite Hit.
    unfold train_loop in Hloop.
    unfold train_loop. rewrite Hloop. simpl. unfold lift.
    by destruct (compute_metrics ps rs rl (dl_len dataloader)).
Qed.

Lemma train_one_epoch_steps model dataloader w m w' :
  0 < dl_batch_size dataloader ->
  train_one_epoch model dataloader w = Ok (m, w') ->
  stepped (dl_len dataloader) w w' /\
  trace w' = trace w ++ [ProgressBar "Training" (dl_len dataloader)] /\
  dirs w' = dirs w /\ files w' = files w.
Proof.
  intros Hbs Hrun. unfold train_one_epoch in Hrun.
  apply bind_Ok in Hrun as ([] & wa & Hset & Hrun).
  destruct (set_training_frame model true w)
    as (wa' & Hset' & Hsa & _ & _ & (Hta & Hda & Hfa) & _).
  rewrite Hset in Hset'. injection Hset' as <-.
  apply bind_Ok in Hrun as ([] & wb & [= <-] & Hrun).
  apply bind_Ok in Hrun as (batches & w0 & Hit & Hrun).
  destruct (dl_iter_run dataloader
              (with_trace
                 (trace wa ++ [ProgressBar "Training" (dl_len dataloader)])
                 wa) Hbs)
    as (batches' & w0' & Hit' & Hlen & Hs0 & _ & _ & (Ht0 & Hd0 & Hf0)).
  rewrite Hit in Hit'. injection Hit' as <- <-.
  cbn [scheduler trace dirs files with_trace] in Hs0, Ht0, Hd0, Hf0.
  apply bind_Ok in Hrun as ([[rl ps] rs] & w1 & Hloop & Hrun).
  apply lift_Ok in Hrun as [_ ->].
  apply train_loop_steps in Hloop as (Hst & (Ht1 & Hd1 & Hf1) & _).
  split.
  - rewrite Hlen in Hst. destruct Hst as (? & ? & ?).
    rewrite Hs0, Hsa in *. by repeat split.
  - split_and!; congruence.
Qed.

End Loop.

Section Epochs.
Context `{Backend}.

Lemma manage_best_cases model evaluation_metric (val_metrics : Metrics)
    best_val_metric best_model lower_is_better w v r w' :
  manage_best_model_and_metrics model evaluation_metric val_metrics
    best_val_metric best_model lower_is_better w = Ok ((v, r), w') ->
  (v = best_val_metric /\ r = best_model /\ w' = w) \/
  (exists metric,
      val_metrics !! evaluation_metric = Some metric /\
      wins lower_is_better metric best_val_metric = true /\
      v = metric /\ r = model /\
      w' = with_trace (trace w ++ [PrintNewBest evaluation_metric metric]) w).
Proof.
  intros Hrun.
  destruct (val_metrics !! evaluation_metric) as [metric|] eqn:Hget;
    [|by rewrite manage_best_KeyError in Hrun].
  rewrite (manage_best_run _ _ _ _ _ _ metric) in Hrun by done.
  destruct (wins lower_is_better metric best_val_metric) eqn:Hw;
    injection Hrun as <- <- <-; [right; by exists metric|by left].
Qed.

Lemma new_best_count_app (t t' : list event) :
  new_best_count (t ++ t') = (new_best_count t + new_best_count t')%nat.
Proof. unfold new_best_count. by rewrite List.filter_app, length_app. Qed.

Lemma evaluate_calls_app (t t' : list event) :
  evaluate_calls (t ++ t') = evaluate_calls t ++ evaluate_calls t'.
Proof. unfold evaluate_calls. apply omap_app. Qed.

(** One iteration of the epoch loop: the scheduler advances by the number
    of training batches, the best pair changes at most once, and only by
    the selector. *)
Lemma epoch_body_run config model train_dl val_dl best epoch w best' w' :
  0 < dl_batch_size train_dl ->
  epoch_body config model train_dl val_dl best epoch w = Ok (best', w') ->
  stepped (dl_len train_dl) w w' /\
  dirs w' = dirs w /\ files w' = files w /\
  ((best' = best /\ new_best_count (trace w') = new_best_count (trace w)) \/
   (snd best' = model /\
    wins (training_best_metric_lower_is_better config)
         (fst best') (fst best) = true /\
    new_best_count (trace w') = S (new_best_count (trace w)))).
Proof.
  intros Hbs Hrun.
  apply epoch_body_inv in Hrun
    as (tm & vm & w1 & w2 & w3 & tl & ta & vl & va
        & Htrain & Hval & Hsel & ->).
  apply train_one_epoch_steps in Htrain
    as ((Hl1 & Hf1 & Hb1) & Ht1 & Hd1 & Hfi1); [|done].
  apply evaluate_frame in Hval as (Hs2 & _ & Ht2 & Hd2 & Hfi2 & _).
  simpl in Hl1, Hf1, Hb1, Ht1, Hd1, Hfi1.
  destruct best as [b bm], best' as [v r]. simpl fst in *. simpl snd in *.
  apply manage_best_cases in Hsel
    as [(-> & -> & ->) | (metric & Hget & Hwin & -> & -> & ->)]; simpl.
  - unfold stepped. simpl. rewrite Hs2, Hd2, Hfi2.
    do 3 (split; [done|]). left. split; [done|].
    rewrite Ht2, Ht1, !new_best_count_app. unfold new_best_count. simpl. lia.
  - unfold stepped. simpl. rewrite Hs2, Hd2, Hfi2.
    do 3 (split; [done|]). right. split; [done|]. split; [done|].
    rewrite Ht2, Ht1, !new_best_count_app. unfold new_best_count. simpl. lia.
Qed.

Lemma epoch_loop_run config model train_dl val_dl (epochs : list Z) :
  0 < dl_batch_size train_dl ->
  forall best w best' w',
    for_each (epoch_body config model train_dl val_dl) best epochs w
    = Ok (best', w') ->
    stepped (dl_len train_dl * Z.of_nat (length epochs)) w w' /\
    dirs w' = dirs w /\ files w' = files w /\
    (new_best_count (trace w')
     <= new_best_count (trace w) + length epochs)%nat /\
    (snd best = model -> snd best' = model).
Proof.
  intros Hbs. induction epochs as [|e es IH]; intros best w best' w' Hrun.
  - injection Hrun as <- <-. rewrite Z.mul_0_r.
    split; [apply stepped_0|]. repeat split; [lia|done].
  - simpl in Hrun. apply bind_Ok in Hrun as (best1 & w1 & Hbody & Hrest).
    apply epoch_body_run in Hbody as (Hs1 & Hd1 & Hf1 & Hcase); [|done].
    apply IH in Hrest as (Hs2 & Hd2 & Hf2 & Hc2 & Hm2).
    split.
    { replace (dl_len train_dl * Z.of_nat (length (e :: es)))
        with (dl_len train_dl + dl_len train_dl * Z.of_nat (length es))
        by (simpl length; lia).
      by eapply stepped_trans. }
    split; [congruence|]. split; [congruence|]. split.
    + simpl length. destruct Hcase as [[_ Hc]|(_ & _ & Hc)]; lia.
    + intros Hm. apply Hm2.
      destruct Hcase as [[-> _]|(Hr & _)]; done.
Qed.

(** C6. The scheduler advances by exactly one per training batch.  Each
    pass of the batch loop body takes one step; an epoch over a loader of
    [B] batches, on which the schedule is defined, completes its batch
    loop with exactly [B] steps more; an iteration of the epoch loop adds
    no other step, so that the whole loop takes [len(train_dl) * epochs]
    steps, which is the [total_steps] the schedule was built with, once,
    before the loop. *)
Theorem C6_scheduler_steps_per_batch :
  (forall model acc batch w acc' w',
      train_batch model acc batch w = Ok (acc', w') ->
      last_epoch (scheduler w') = last_epoch (scheduler w) + 1) /\
  (forall model dataloader w,
      0 < dl_batch_size dataloader ->
      (forall k, 1 <= k <= dl_len dataloader ->
         is_ok (lr_lambda (scheduler w) (last_epoch (scheduler w) + k))
         = true) ->
      exists batches w0 acc w1,
        Z.of_nat (length batches) = dl_len dataloader /\
        train_loop model batches w0 = Ok (acc, w1) /\
        last_epoch (scheduler w1)
        = last_epoch (scheduler w) + dl_len dataloader /\
        train_one_epoch model dataloader w
        = (let? m := compute_metrics (snd (fst acc)) (snd acc)
                                     (fst (fst acc)) (dl_len dataloader) in
           Ok (m, w1))) /\
  (forall model dataloader w m w',
      0 < dl_batch_size dataloader ->
      train_one_epoch model dataloader w = Ok (m, w') ->
      last_epoch (scheduler w')
      = last_epoch (scheduler w) + dl_len dataloader) /\
  (forall config model train_dl val_dl best epoch w best' w',
      0 < dl_batch_size train_dl ->
      epoch_body config model train_dl val_dl best epoch w
      = Ok (best', w') ->
      last_epoch (scheduler w')
      = last_epoch (scheduler w) + dl_len train_dl) /\
  (forall config train_dl w w',
      build_scheduler config train_dl w = Ok (tt, w') ->
      total_steps train_dl (training_epochs config)
      = dl_len train_dl * training_epochs config /\
      last_epoch (scheduler w') = 0 /\
      exists n,
        warmup_steps (total_steps train_dl (training_epochs config))
                     (training_warmup_ratio config) = Ok n /\
        lr_lambda (scheduler w')
        = lr_warmup_linear_decay
            (total_steps train_dl (training_epochs config)) n) /\
  (forall config model train_dl val_dl best w best' w',
      0 < dl_batch_size train_dl ->
      0 <= training_epochs config ->
      epoch_loop config model train_dl val_dl best w = Ok (best', w') ->
      last_epoch (scheduler w')
      = last_epoch (scheduler w)
        + total_steps train_dl (training_epochs config)).
Proof.
  split_and!.
  - intros model acc batch w acc' w' Hrun.
    by apply train_batch_steps in Hrun as ((? & _) & _).
  - intros model dataloader w Hbs Hok.
    destruct (train_one_epoch_run model dataloader w Hbs Hok)
      as (batches & w0 & acc & w1 & Hlen & _ & Hloop & (Hl & _) & _ & Hrun).
    by exists batches, w0, acc, w1.
  - intros model dataloader w m w' Hbs Hrun.
    by apply train_one_epoch_steps in Hrun as ((? & _) & _).
  - intros config model train_dl val_dl best epoch w best' w' Hbs Hrun.
    by apply epoch_body_run in Hrun as ((? & _) & _).
  - intros config train_dl w w' Hrun. split; [reflexivity|].
    unfold build_scheduler in Hrun.
    apply bind_Ok in Hrun as (n & w1 & [Hn ->]%lift_Ok & Hrun).
    unfold LambdaLR_new, scheduler_set_lr in Hrun. simpl in Hrun.
    destruct (lr_warmup_linear_decay _ n 0); [|discriminate].
    injection Hrun as <-. simpl. split; [done|]. by exists n.
  - intros config model train_dl val_dl best w best' w' Hbs He Hrun.
    apply epoch_loop_run in Hrun as ((Hl & _) & _); [|done].
    rewrite Hl, length_seqZ. unfold total_steps. by rewrite Z2Nat.id.
Qed.

(** C7. The tracking state starts as [(+inf, model)] when lower is better
    and [(-inf, model)] otherwise, and an iteration of the epoch loop
    changes it at most once: its new value is what one call of the
    selector returns for the old one, either the old pair (and no "New
    best" line is printed) or the pair of the validation metric and the
    model (and exactly one "New best" line is printed). *)
Theorem C7_best_tracking_state :
  (forall config model,
      initial_best config model
      = (if training_best_metric_lower_is_better config
         then Py.inf else Py.neg_inf, model)) /\
  (forall config model train_dl val_dl best epoch w best' w',
      0 < dl_batch_size train_dl ->
      epoch_body config model train_dl val_dl best epoch w
      = Ok (best', w') ->
      (exists val_metrics w2 w3,
          manage_best_model_and_metrics model
            (training_evaluation_metric config) val_metrics
            (fst best) (snd best)
            (training_best_metric_lower_is_better config) w2
          = Ok (best', w3)) /\
      ((best' = best /\
        new_best_count (trace w') = new_best_count (trace w)) \/
       (snd best' = model /\
        wins (training_best_metric_lower_is_better config)
             (fst best') (fst best) = true /\
        new_best_count (trace w') = S (new_best_count (trace w))))) /\
  (forall config model train_dl val_dl best w best' w',
      0 < dl_batch_size train_dl ->
      epoch_loop config model train_dl val_dl best w = Ok (best', w') ->
      (new_best_count (trace w')
       <= new_best_count (trace w) + Z.to_nat (training_epochs config))%nat).
Proof.
  split_and!.
  - reflexivity.
  - intros config model train_dl val_dl best epoch w best' w' Hbs Hrun.
    split.
    + apply epoch_body_inv in Hrun
        as (tm & vm & w1 & w2 & w3 & tl & ta & vl & va & _ & _ & Hsel & _).
      eauto.
    + by apply epoch_body_run in Hrun as (_ & _ & _ & Hcase).
  - intros config model train_dl val_dl best w best' w' Hbs Hrun.
    apply epoch_loop_run in Hrun as (_ & _ & _ & Hc & _); [|done].
    by rewrite length_seqZ in Hc.
Qed.

End Epochs.

(** ** The final evaluation and the checkpoint *)

Section Checkpoint.
Context `{Backend}.

Lemma print_tests_run (l : list (string * Py.float)) w :
  exists w',
    for_each (fun _ kv => emit (PrintTest (fst kv) (snd kv))) tt l w
    = Ok (tt, w') /\
    heap w' = heap w /\ dirs w' = dirs w /\ files w' = files w /\
    evaluate_calls (trace w') = evaluate_calls (trace w).
Proof.
  revert w. induction l as [|kv l IH]; intros w; [by eexists|].
  simpl for_each. unfold bind, emit at 1.
  destruct (IH (with_trace (trace w ++ [PrintTest (fst kv) (snd kv)]) w))
    as (w' & -> & Hh & Hd & Hf & Hc).
  exists w'. split; [reflexivity|]. simpl in *. split_and!; try done.
  rewrite Hc, evaluate_calls_app. simpl. by rewrite app_nil_r.
Qed.

(** What the last lines of the script do with the reference they are
    given: one evaluator call on the test loader with it, the checkpoint
    directory made, and the parameters behind the reference written to
    [{checkpoint_dir}/{model_name}.pt], whatever was there. *)
Lemma test_and_save_run config test_dl best_model w w' :
  test_and_save config test_dl best_model w = Ok (tt, w') ->
  evaluate_calls (trace w')
  = evaluate_calls (trace w) ++ [(best_model, test_dl)] /\
  training_checkpoint_dir config ∈ dirs w' /\
  files w'
  = <[checkpoint_path config := params (heap w best_model)]> (files w) /\
  (forall l, params (heap w' l) = params (heap w l)).
Proof.
  unfold test_and_save. intros Hrun.
  apply bind_Ok in Hrun as (tm & w1 & Heval & Hrun).
  apply evaluate_frame in Heval as (_ & _ & Ht1 & Hd1 & Hf1 & Hp1).
  apply bind_Ok in Hrun as ([] & w2 & Hprint & Hrun).
  destruct (print_tests_run (map_to_list tm) w1)
    as (w2' & Hprint' & Hh2 & Hd2 & Hf2 & Hc2).
  rewrite Hprint in Hprint'. injection Hprint' as <-.
  apply bind_Ok in Hrun as ([] & w3 & Hmk & Hrun).
  unfold makedirs in Hmk.
  destruct (files w2 !! training_checkpoint_dir config); [discriminate|].
  injection Hmk as <-.
  apply bind_Ok in Hrun as (sd & w4 & [= <- <-] & Hrun).
  apply bind_Ok in Hrun as ([] & w5 & Hsave & [= <-]).
  unfold torch_save in Hsave. destruct (decide _); [discriminate|].
  injection Hsave as <-. simpl.
  rewrite evaluate_calls_app, Hc2, Ht1, evaluate_calls_app. simpl.
  rewrite app_nil_r. split; [done|].
  split; [by apply elem_of_union_l, elem_of_singleton|].
  rewrite Hf2, Hf1. split.
  - f_equal. rewrite Hh2. apply Hp1.
  - intros l. rewrite Hh2. apply Hp1.
Qed.

(** The reference the epoch loop ends with is the live model: the
    checkpoint of a run holds the parameters the model has after the last
    epoch, and the test metrics are computed on them. *)
Lemma main_saves_final_parameters config dataset model w w' :
  0 < training_batch_size config ->
  main config dataset model w = Ok (tt, w') ->
  exists train_dl test_dl val_dl w0 best_val_metric w_end,
    epoch_loop config model train_dl val_dl (initial_best config model) w0
    = Ok ((best_val_metric, model), w_end) /\
    test_and_save config test_dl model w_end = Ok (tt, w') /\
    files w' !! checkpoint_path config = Some (params (heap w_end model)) /\
    evaluate_calls (trace w')
    = evaluate_calls (trace w_end) ++ [(model, test_dl)].
Proof.
  intros Hbs Hrun. unfold main in Hrun.
  apply bind_Ok in Hrun as ([[train_dl test_dl] val_dl] & w1 & Hload & Hrun).
  apply bind_Ok in Hrun as ([] & w2 & _ & Hrun).
  apply bind_Ok in Hrun as ([] & w3 & _ & Hrun).
  apply bind_Ok in Hrun as ([] & w4 & _ & Hrun).
  apply bind_Ok in Hrun as ([b bm] & w5 & Hloop & Hrun).
  assert (Htrain : dl_batch_size train_dl = training_batch_size config).
  { unfold build_loaders in Hload.
    apply bind_Ok in Hload as ([[a t] v] & ? & _ & Hload).
    apply bind_Ok in Hload as ([[da dt] dv] & ? & _ & Hload).
    apply bind_Ok in Hload as (d1 & ? & [Hd1 ->]%lift_Ok & Hload).
    apply bind_Ok in Hload as (d2 & ? & _ & Hload).
    apply bind_Ok in Hload as (d3 & ? & _ & Hload).
    injection Hload as <- _ _ _. unfold DataLoader_new in Hd1.
    destruct (_ && _); [discriminate|].
    destruct (training_batch_size config <=? 0); [discriminate|].
    by injection Hd1 as <-. }
  pose proof Hloop as Hloop'.
  apply epoch_loop_run in Hloop' as (_ & _ & _ & _ & Hm); [|lia].
  specialize (Hm eq_refl). simpl in Hm. subst bm.
  exists train_dl, test_dl, val_dl, w4, b, w5.
  split; [exact Hloop|]. split; [exact Hrun|].
  apply test_and_save_run in Hrun as (Hc & _ & Hf & _).
  split; [|exact Hc]. rewrite Hf. apply lookup_insert_eq.
Qed.

End Checkpoint.

(** *** A run of two epochs on the small backend *)

(** C8.  The script evaluates and saves through [best_model], and that
    reference is the live model.  In this run the first epoch ends at
    weight 7 with validation loss [0.0] and is selected (the only "New
    best" line); the second epoch moves the weight to 14, has validation
    loss [7.0] and is not selected.  The test metrics are then computed
    once, on the test loader, and [ckpt/m.pt] is written: but what is
    evaluated (test loss [7.0]) and what is saved (weight 14) is the model
    of the final epoch, not the one that was selected. *)
Theorem C8_final_test_and_checkpoint_run :
  Toy.value_of
    (epoch_body (H := Toy.backend) Toy.config2 Toy.model Toy.train_dl
                Toy.val_dl (initial_best Toy.config2 Toy.model) 0 Toy.ready)
  = Some (Py.zero, Toy.model) /\
  params (heap Toy.after_epoch_1 Toy.model) = 7 /\
  Toy.value_of
    (epoch_body (H := Toy.backend) Toy.config2 Toy.model Toy.train_dl
                Toy.val_dl (Py.zero, Toy.model) 1 Toy.after_epoch_1)
  = Some (Py.zero, Toy.model) /\
  params (heap Toy.after_epoch_2 Toy.model) = 14 /\
  is_ok (main (H := Toy.backend) Toy.config2 (Toy.dataset 100) Toy.model
              Toy.world0) = true /\
  printed (trace Toy.final)
  = [LineBanner 70 15 15;
     LineEpoch 1 2; LineTrain (Toy.of_Z 4) Py.one; LineVal Py.zero Py.one;
     LineNewBest "loss" Py.zero; LineBlank;
     LineEpoch 2 2; LineTrain (Toy.of_Z 3) Py.one;
     LineVal (Toy.of_Z 7) Py.one; LineBlank;
     LineTest "accuracy" Py.one; LineTest "loss" (Toy.of_Z 7);
     LineSaved] /\
  Toy.calls (trace Toy.final)
  = [(Toy.model, 15%nat); (Toy.model, 15%nat); (Toy.model, 15%nat)] /\
  Toy.calls (trace Toy.after_epoch_2)
  = [(Toy.model, 15%nat); (Toy.model, 15%nat)] /\
  checkpoint_path Toy.config2 = "ckpt/m.pt"%string /\
  files Toy.final !! "ckpt/m.pt"%string = Some 14 /\
  params (heap Toy.final Toy.model) = 14.
Proof. split_and!; vm_compute; reflexivity. Qed.

(** The scenario of the specification: one epoch over 70 training samples
    in batches of 10 is 7 batches and 7 scheduler steps. *)
Lemma C6_scheduler_steps_per_batch_witness :
  dl_len Toy.train_dl = 7 /\
  last_epoch (scheduler
                (Toy.world_of
                   (train_one_epoch (H := Toy.backend) Toy.model Toy.train_dl
                                    Toy.ready)))
  = last_epoch (scheduler Toy.ready) + 7.
Proof.
  split; [reflexivity|].
  assert (Hrun : Toy.value_of (train_one_epoch (H := Toy.backend) Toy.model
                                 Toy.train_dl Toy.ready)
                 = Some (<["loss"%string := Toy.of_Z 4]>
                           (<["accuracy"%string := Py.one]> ∅)))
    by (vm_compute; reflexivity).
  apply run_eq in Hrun.
  exact (proj1 (proj2 (proj2 (C6_scheduler_steps_per_batch (H := Toy.backend))))
           Toy.model Toy.train_dl Toy.ready _ _ eq_refl Hrun).
Defined.

Lemma C7_best_tracking_state_witness :
  initial_best Toy.config2 Toy.model = (Py.inf, Toy.model) /\
  ((Py.zero, Toy.model) = initial_best Toy.config2 Toy.model /\
   new_best_count (trace Toy.after_epoch_1) = new_best_count (trace Toy.ready)
   \/
   Toy.model = Toy.model /\
   wins true Py.zero Py.inf = true /\
   new_best_count (trace Toy.after_epoch_1)
   = S (new_best_count (trace Toy.ready))).
Proof.
  destruct (C7_best_tracking_state (H := Toy.backend)) as (Hinit & Hbody & _).
  split; [exact (Hinit Toy.config2 Toy.model)|].
  assert (Hrun : Toy.value_of
                   (epoch_body (H := Toy.backend) Toy.config2 Toy.model
                      Toy.train_dl Toy.val_dl
                      (initial_best Toy.config2 Toy.model) 0 Toy.ready)
                 = Some (Py.zero, Toy.model)) by (vm_compute; reflexivity).
  apply run_eq in Hrun.
  exact (proj2 (Hbody Toy.config2 Toy.model Toy.train_dl Toy.val_dl
                  (initial_best Toy.config2 Toy.model) 0 Toy.ready
                  (Py.zero, Toy.model) Toy.after_epoch_1 eq_refl Hrun)).
Defined.

(** * Further properties of the script *)

(** ** The selector and the schedule at their edges *)

(** X2. Without warmup ([warmup_steps = 0]) and with [total_steps > 0] the
    schedule is a plain linear decay: the multiplier is [1.0] at step 0, is
    the nonnegative quotient [(total_steps - step) / total_steps] up to
    [total_steps], is [0.0] at [total_steps] and stays [0.0] after it; no
    step from 0 on divides by zero. *)
Theorem X2_schedule_without_warmup (total_steps : Z) :
  0 < total_steps ->
  let f := lr_warmup_linear_decay total_steps 0 in
  f 0 = Ok Py.one /\
  (forall s, 0 <= s <= total_steps ->
     f s = Py.int_true_div (total_steps - s) total_steps /\
     exists q, f s = Ok q /\ Py.has_sign false q = true) /\
  f total_steps = Ok Py.zero /\
  (forall s, total_steps < s -> s - total_steps < 2 ^ 1021 ->
     f s = Ok Py.zero) /\
  (forall s, 0 <= s -> f s <> Raise ZeroDivisionError).
Proof.
  intros Ht f. subst f.
  assert (Hdecay : forall s, 0 <= s <= total_steps ->
            lr_warmup_linear_decay total_steps 0 s
            = Py.int_true_div (total_steps - s) total_steps /\
            exists q, lr_warmup_linear_decay total_steps 0 s = Ok q /\
                      Py.has_sign false q = true).
  { intros s Hs. rewrite lr_decay_branch, Z.sub_0_r by lia.
    destruct (int_true_div_nonneg (total_steps - s) total_steps)
      as (q & -> & Hmax & Hsign & _); [lia..|].
    simpl. rewrite Hmax. eauto. }
  split_and!.
  - rewrite lr_decay_branch, !Z.sub_0_r by lia.
    by rewrite int_true_div_self by lia.
  - exact Hdecay.
  - rewrite lr_decay_branch, Z.sub_0_r, Z.sub_diag by lia.
    rewrite int_true_div_zero by lia.
    by rewrite (proj2 (Z.ltb_ge total_steps 0)) by lia.
  - intros s Hs Hb. rewrite lr_decay_branch, Z.sub_0_r by lia.
    destruct (int_true_div_neg (total_steps - s) total_steps)
      as [_ Hsmall]; [lia..|].
    destruct Hsmall as (q & -> & Hmax); [lia|]. simpl. by rewrite Hmax.
  - intros s Hs. rewrite lr_decay_branch, Z.sub_0_r by lia.
    unfold Py.int_true_div. rewrite (proj2 (Z.eqb_neq total_steps 0)) by lia.
    destruct (SFdiv Py.prec Py.emax _ _); discriminate.
Qed.

Lemma X2_schedule_without_warmup_witness :
  lr_warmup_linear_decay 7 0 0 = Ok Py.one /\
  lr_warmup_linear_decay 7 0 7 = Ok Py.zero /\
  lr_warmup_linear_decay 7 0 9 = Ok Py.zero.
Proof.
  destruct (X2_schedule_without_warmup 7 ltac:(lia))
    as (H0 & _ & Hend & Hpast & _).
  split; [exact H0|]. split; [exact Hend|].
  apply Hpast; [lia|]. apply Z.ltb_lt. vm_compute. reflexivity.
Defined.

(** [int(0 * warmup_ratio)] is 0 for every finite ratio. *)
Lemma warmup_steps_of_0 (warmup_ratio : Py.float) :
  Py.is_finite warmup_ratio = true -> warmup_steps 0 warmup_ratio = Ok 0.
Proof. destruct warmup_ratio as [s|s| |s m e]; try discriminate; done. Qed.

(** X3. A run without a single training step cannot build its scheduler.
    When [total_steps = len(train_dl) * epochs] is 0 (zero epochs, or a
    training partition with no batch) and the warmup ratio is finite,
    [warmup_steps] is 0 too, the first multiplier [LambdaLR] asks for is
    [0 / 0], and [build_scheduler] ends in [ZeroDivisionError].  So does the
    whole script with [epochs = 0], once its loaders are built, before any
    training, evaluation or checkpoint. *)
Theorem X3_no_training_step_no_scheduler `{Backend} config :
  Py.is_finite (training_warmup_ratio config) = true ->
  (forall train_dl w,
      total_steps train_dl (training_epochs config) = 0 ->
      build_scheduler config train_dl w = Raise ZeroDivisionError) /\
  (forall dataset model w,
      training_epochs config = 0 ->
      is_ok (build_loaders config dataset w) = true ->
      main config dataset model w = Raise ZeroDivisionError).
Proof.
  intros Hfin.
  assert (Hsched : forall train_dl w,
            total_steps train_dl (training_epochs config) = 0 ->
            build_scheduler config train_dl w = Raise ZeroDivisionError).
  { intros train_dl w Hsteps. unfold build_scheduler, bind, lift.
    rewrite Hsteps, warmup_steps_of_0 by done. reflexivity. }
  split; [exact Hsched|].
  intros dataset model w He Hload. unfold main, bind.
  destruct (build_loaders config dataset w)
    as [[[[train_dl test_dl] val_dl] w1]|e]; [|discriminate].
  unfold build_optimizer. rewrite Hsched; [reflexivity|].
  unfold total_steps. rewrite He. lia.
Qed.

Lemma X3_no_training_step_no_scheduler_witness :
  main (H := Toy.backend) (Toy.config 0 (Toy.decimal 1 10))
       (Toy.dataset 100) Toy.model Toy.world0
  = Raise ZeroDivisionError.
Proof.
  refine (proj2 (X3_no_training_step_no_scheduler (H := Toy.backend)
                   (Toy.config 0 (Toy.decimal 1 10)) _)
                (Toy.dataset 100) Toy.model Toy.world0 eq_refl _);
    vm_compute; reflexivity.
Defined.

(** ** The last lines of the script *)

(** X4. The final evaluation and the checkpoint, for whatever reference
    they are given: when lines 167-177 run to their end, the evaluator has
    been called exactly once more, on the test loader with that reference;
    the checkpoint directory exists; the file
    [{checkpoint_dir}/{model_name}.pt] holds the parameters behind the
    reference, whatever it held before, and no other file has changed; the
    parameters of every module are what they were; and the last line
    printed is "Model saved". *)
Theorem X4_test_and_save `{Backend} config test_dl best_model w w' :
  test_and_save config test_dl best_model w = Ok (tt, w') ->
  evaluate_calls (trace w')
  = evaluate_calls (trace w) ++ [(best_model, test_dl)] /\
  training_checkpoint_dir config ∈ dirs w' /\
  files w' !! checkpoint_path config = Some (params (heap w best_model)) /\
  (forall path, path <> checkpoint_path config ->
     files w' !! path = files w !! path) /\
  (forall l, params (heap w' l) = params (heap w l)) /\
  (exists t, trace w' = t ++ [PrintSaved]).
Proof.
  intros Hrun.
  destruct (test_and_save_run _ _ _ _ _ Hrun) as (Hc & Hd & Hf & Hp).
  split_and!; try done.
  - rewrite Hf. apply lookup_insert_eq.
  - intros path Hne. rewrite Hf. by apply lookup_insert_ne.
  - unfold test_and_save in Hrun.
    repeat (apply bind_Ok in Hrun as (? & ? & _ & Hrun)).
    injection Hrun as <-. simpl. eauto.
Qed.

Lemma X4_test_and_save_witness :
  files (Toy.world_of
           (test_and_save (H := Toy.backend) Toy.config2 Toy.test_dl Toy.model
                          Toy.after_epoch_2))
    !! checkpoint_path Toy.config2
  = Some (params (heap Toy.after_epoch_2 Toy.model)).
Proof.
  assert (Hrun : Toy.value_of
                   (test_and_save (H := Toy.backend) Toy.config2 Toy.test_dl
                                  Toy.model Toy.after_epoch_2)
                 = Some tt) by (vm_compute; reflexivity).
  apply run_eq in Hrun.
  exact (proj1 (proj2 (proj2 (X4_test_and_save (H := Toy.backend) _ _ _ _ _
                                Hrun)))).
Defined.

(** X5. [best_model] never is anything but [model].  In every run that
    reaches its end, the reference the epoch loop leaves in [best_model] is
    the model the script trains, so the final evaluation is made with the
    parameters the model has after the last epoch and the checkpoint holds
    exactly those. *)
Theorem X5_checkpoint_holds_last_parameters `{Backend}
    config dataset model w w' :
  0 < training_batch_size config ->
  main config dataset model w = Ok (tt, w') ->
  exists train_dl test_dl val_dl w0 best_val_metric w_end,
    epoch_loop config model train_dl val_dl (initial_best config model) w0
    = Ok ((best_val_metric, model), w_end) /\
    test_and_save config test_dl model w_end = Ok (tt, w') /\
    files w' !! checkpoint_path config = Some (params (heap w_end model)) /\
    params (heap w' model) = params (heap w_end model) /\
    evaluate_calls (trace w')
    = evaluate_calls (trace w_end) ++ [(model, test_dl)].
Proof.
  intros Hbs Hrun.
  destruct (main_saves_final_parameters _ _ _ _ _ Hbs Hrun)
    as (train_dl & test_dl & val_dl & w0 & b & w_end & Hloop & Hsave & Hf & Hc).
  exists train_dl, test_dl, val_dl, w0, b, w_end. split_and!; try done.
  by destruct (test_and_save_run _ _ _ _ _ Hsave) as (_ & _ & _ & Hp).
Qed.

Lemma X5_checkpoint_holds_last_parameters_witness :
  exists w_end,
    files Toy.final !! checkpoint_path Toy.config2
    = Some (params (heap w_end Toy.model)) /\
    params (heap Toy.final Toy.model) = params (heap w_end Toy.model).
Proof.
  assert (Hrun : Toy.value_of
                   (main (H := Toy.backend) Toy.config2 (Toy.dataset 100)
                         Toy.model Toy.world0)
                 = Some tt) by (vm_compute; reflexivity).
  apply run_eq in Hrun.
  destruct (X5_checkpoint_holds_last_parameters (H := Toy.backend)
              Toy.config2 (Toy.dataset 100) Toy.model Toy.world0 _
              eq_refl Hrun)
    as (_ & _ & _ & _ & _ & w_end & _ & _ & Hf & Hp & _).
  exists w_end. split; [exact Hf | exact Hp].
Defined.

(** ** One training pass *)

Section TrainingPass.
Context `{Backend}.

(** The order of the statements of the batch loop.  The outputs, the
    loss and the predictions of a batch are those of the parameters the
    model has when the batch arrives; the optimizer then overwrites the
    parameters of [model], and of no other module, using the learning rate
    in force when the batch arrived; only then the scheduler moves on, and
    the rate left for the next batch is [base_lr] times the multiplier of
    the next step. *)
Lemma train_batch_inv
    model running_loss predictions references batch w acc' w' :
  train_batch model (running_loss, predictions, references) batch w
  = Ok (acc', w') ->
  let m := heap w model in
  let outputs := forward (training m) (params m) batch in
  acc' = (Py.add running_loss (criterion outputs batch),
          predictions ++ argmax outputs,
          references ++ map label batch) /\
  params (heap w' model)
  = snd (optimizer_update (opt_lr (optimizer w)) (opt_state (optimizer w))
                          (training m) (params m) batch) /\
  training (heap w' model) = training m /\
  (forall l, l <> model -> heap w' l = heap w l) /\
  exists k,
    lr_lambda (scheduler w) (last_epoch (scheduler w) + 1) = Ok k /\
    opt_lr (optimizer w') = Py.mul (base_lr (scheduler w)) k.
Proof.
  intros Hrun m outputs. subst m outputs.
  unfold train_batch, bind, get, optimizer_step in Hrun.
  destruct (optimizer_update _ _ _ _ batch) as [st p] eqn:Hup.
  rewrite scheduler_step_run in Hrun. simpl in Hrun.
  destruct (lr_lambda (scheduler w) (last_epoch (scheduler w) + 1)) as [k|e];
    [|discriminate].
  injection Hrun as <- <-. simpl. unfold set_params.
  split_and!; try done.
  - by rewrite fn_lookup_insert.
  - by rewrite fn_lookup_insert.
  - intros l Hl. by rewrite fn_lookup_insert_ne.
  - by exists k.
Qed.

Lemma train_loop_raises model batches acc w k e :
  1 <= k <= Z.of_nat (length batches) ->
  (forall j, 1 <= j < k ->
     is_ok (lr_lambda (scheduler w) (last_epoch (scheduler w) + j)) = true) ->
  lr_lambda (scheduler w) (last_epoch (scheduler w) + k) = Raise e ->
  for_each (train_batch model) acc batches w = Raise e.
Proof.
  revert acc w k. induction batches as [|b bs IH]; intros acc w k Hk Hok He.
  - simpl in Hk. lia.
  - simpl for_each. unfold bind.
    pose proof (train_batch_run model acc b w) as Hb.
    destruct (Z.eq_dec k 1) as [->|Hne].
    + rewrite He in Hb. by rewrite Hb.
    + pose proof (Hok 1 ltac:(lia)) as H1.
      destruct (lr_lambda (scheduler w) (last_epoch (scheduler w) + 1));
        [|discriminate].
      destruct Hb as (acc1 & w1 & -> & (Hl & Hf & _) & _).
      apply (IH acc1 w1 (k - 1)).
      * simpl length in Hk. lia.
      * intros j Hj. rewrite Hf, Hl.
        replace (last_epoch (scheduler w) + 1 + j)
          with (last_epoch (scheduler w) + (1 + j)) by lia.
        apply Hok. lia.
      * rewrite Hf, Hl.
        by replace (last_epoch (scheduler w) + 1 + (k - 1))
          with (last_epoch (scheduler w) + k) by lia.
Qed.

(** X7. An exception of the schedule ends the epoch.  If the multiplier
    function raises at one of the steps an epoch has to take, and not at an
    earlier one, [train_one_epoch] raises that very exception: nothing
    catches it and no metrics are returned. *)
Theorem X7_train_one_epoch_propagates model dataloader w k e :
  0 < dl_batch_size dataloader ->
  1 <= k <= dl_len dataloader ->
  (forall j, 1 <= j < k ->
     is_ok (lr_lambda (scheduler w) (last_epoch (scheduler w) + j)) = true) ->
  lr_lambda (scheduler w) (last_epoch (scheduler w) + k) = Raise e ->
  train_one_epoch model dataloader w = Raise e.
Proof.
  intros Hbs Hk Hok He. unfold train_one_epoch, bind.
  destruct (set_training_frame model true w)
    as (wa & -> & Hsa & _ & _ & _ & _).
  unfold emit at 1.
  destruct (dl_iter_run dataloader
              (with_trace
                 (trace wa ++ [ProgressBar "Training" (dl_len dataloader)])
                 wa) Hbs)
    as (batches & w0 & -> & Hlen & Hs0 & _ & _ & _).
  cbn [scheduler with_trace] in Hs0.
  unfold train_loop. rewrite (train_loop_raises model batches _ w0 k e);
    [reflexivity|by rewrite Hlen|..]; rewrite Hs0, Hsa; done.
Qed.

Lemma train_loop_heap model batches acc w acc' w' :
  for_each (train_batch model) acc batches w = Ok (acc', w') ->
  training (heap w' model) = training (heap w model) /\
  (forall l, l <> model -> heap w' l = heap w l).
Proof.
  revert acc w. induction batches as [|b bs IH]; intros acc w Hrun.
  - by injection Hrun as <- <-.
  - simpl in Hrun. apply bind_Ok in Hrun as ([[rl ps] rs] & w1 & Hb & Hbs).
    destruct acc as [[rl0 ps0] rs0].
    apply train_batch_inv in Hb as (_ & _ & Ht & Hl & _).
    apply IH in Hbs as (Ht' & Hl'). split; [congruence|].
    intros l Hne. rewrite Hl', Hl; done.
Qed.

Lemma train_loop_acc model batches running_loss predictions references w
    rl ps rs w' :
  for_each (train_batch model) (running_loss, predictions, references)
           batches w = Ok ((rl, ps, rs), w') ->
  rs = references ++ map label (concat batches).
Proof.
  revert running_loss predictions references w.
  induction batches as [|b bs IH]; intros rl0 ps0 rs0 w Hrun.
  - injection Hrun as <- <- <- <-. simpl. by rewrite app_nil_r.
  - simpl in Hrun. apply bind_Ok in Hrun as ([[rl1 ps1] rs1] & w1 & Hb & Hbs).
    apply train_batch_inv in Hb as ([= _ _ ->] & _).
    apply IH in Hbs as ->. simpl concat.
    by rewrite map_app, <- app_assoc.
Qed.

Lemma chunks_concat {A} (n fuel : nat) (l : list A) :
  (0 < n)%nat -> (length l <= fuel)%nat -> concat (chunks fuel n l) = l.
Proof.
  intros Hn. revert l. induction fuel as [|fuel IH]; intros l Hl.
  - destruct l; [done|simpl in Hl; lia].
  - destruct l as [|x l']; [done|].
    change (chunks (S fuel) n (x :: l'))
      with (take n (x :: l') :: chunks fuel n (drop n (x :: l'))).
    simpl concat. rewrite IH by (rewrite length_drop; simpl length in *; lia).
    apply take_drop.
Qed.

Lemma train_one_epoch_inv model dataloader w m w' :
  0 < dl_batch_size dataloader ->
  train_one_epoch model dataloader w = Ok (m, w') ->
  (exists running_loss predictions,
      compute_metrics predictions (map label (served dataloader w))
                      running_loss (dl_len dataloader) = Ok m) /\
  training (heap w' model) = true /\
  (forall l, l <> model -> heap w' l = heap w l) /\
  rng w' = (if dl_shuffle dataloader then S (rng w) else rng w).
Proof.
  intros Hbs Hrun. unfold train_one_epoch in Hrun.
  apply bind_Ok in Hrun as ([] & wa & [= <-] & Hrun).
  apply bind_Ok in Hrun as ([] & wb & [= <-] & Hrun).
  apply bind_Ok in Hrun as (batches & w0 & Hit & Hrun).
  apply bind_Ok in Hrun as ([[rl ps] rs] & w1 & Hloop & Hrun).
  apply lift_Ok in Hrun as [Hm ->].
  assert (Hn : (0 < Z.to_nat (dl_batch_size dataloader))%nat) by lia.
  assert (Hb : concat batches = served dataloader w /\
               heap w0 = <[model := {| params := params (heap w model);
                                       training := true |}]> (heap w) /\
               rng w0 = (if dl_shuffle dataloader then S (rng w) else rng w)).
  { unfold dl_iter, served in *. simpl in Hit.
    destruct (dl_shuffle dataloader); injection Hit as <- <-; simpl;
      (split; [apply chunks_concat; rewrite ?permute_length; lia|done]). }
  destruct Hb as (Hcat & Hh0 & Hr0). unfold train_loop in Hloop.
  pose proof (train_loop_acc _ _ _ _ _ _ _ _ _ _ Hloop) as Hrs.
  pose proof (train_loop_heap _ _ _ _ _ _ Hloop) as (Ht & Hl).
  pose proof (train_loop_steps _ _ _ _ _ _ Hloop) as (_ & _ & Hr).
  simpl in Hrs. rewrite Hcat in Hrs. subst rs.
  split; [eauto|]. split.
  - rewrite Ht, Hh0. by rewrite fn_lookup_insert.
  - split; [|congruence].
    intros l Hne. rewrite Hl, Hh0 by done. by rewrite fn_lookup_insert_ne.
Qed.

(** X8. What a training pass leaves behind.  When [train_one_epoch]
    returns, [model] is in training mode and no other module has been
    written.  The console has received the progress bar of the pass, the
    one [tqdm] draws on stderr with the description [Training] and
    [len(dataloader)] as its total, and nothing else: [print] has written no
    line, the evaluator has not been called, and no file or directory has
    been touched. *)
Theorem X8_train_one_epoch_effects model dataloader w m w' :
  0 < dl_batch_size dataloader ->
  train_one_epoch model dataloader w = Ok (m, w') ->
  training (heap w' model) = true /\
  (forall l, l <> model -> heap w' l = heap w l) /\
  trace w' = trace w ++ [ProgressBar "Training" (dl_len dataloader)] /\
  progress_bars (trace w')
  = progress_bars (trace w) ++ [("Training"%string, dl_len dataloader)] /\
  printed (trace w') = printed (trace w) /\
  evaluate_calls (trace w') = evaluate_calls (trace w) /\
  dirs w' = dirs w /\ files w' = files w.
Proof.
  intros Hbs Hrun.
  destruct (train_one_epoch_inv _ _ _ _ _ Hbs Hrun) as (_ & Ht & Hl & _).
  destruct (train_one_epoch_steps _ _ _ _ _ Hbs Hrun) as (_ & Htr & ? & ?).
  split_and!; try done; rewrite Htr.
  - unfold progress_bars. by rewrite omap_app.
  - unfold printed. rewrite omap_app. cbn. by rewrite app_nil_r.
  - rewrite evaluate_calls_app. cbn. by rewrite app_nil_r.
Qed.


End TrainingPass.

Lemma X7_train_one_epoch_propagates_witness :
  train_one_epoch (H := Toy.backend) Toy.model Toy.train_dl
    (with_scheduler {| lr_lambda := lr_warmup_linear_decay 7 7;
                       base_lr := Py.one; last_epoch := 0 |} Toy.world0)
  = Raise ZeroDivisionError.
Proof.
  apply (X7_train_one_epoch_propagates (H := Toy.backend) Toy.model
           Toy.train_dl _ 7 ZeroDivisionError).
  - reflexivity.
  - split; [lia|]. apply Z.leb_le. reflexivity.
  - intros j Hj. simpl.
    assert (Hcases : j = 1 \/ j = 2 \/ j = 3 \/ j = 4 \/ j = 5 \/ j = 6)
      by lia.
    destruct Hcases as [->|[->|[->|[->|[->| ->]]]]]; vm_compute; reflexivity.
  - vm_compute. reflexivity.
Defined.

Lemma X8_train_one_epoch_effects_witness :
  training (heap (Toy.world_of
                    (train_one_epoch (H := Toy.backend) Toy.model Toy.train_dl
                                     Toy.ready)) Toy.model)
  = true.
Proof.
  assert (Hrun : Toy.value_of (train_one_epoch (H := Toy.backend) Toy.model
                                 Toy.train_dl Toy.ready)
                 = Some (<["loss"%string := Toy.of_Z 4]>
                           (<["accuracy"%string := Py.one]> ∅)))
    by (vm_compute; reflexivity).
  apply run_eq in Hrun.
  exact (proj1 (X8_train_one_epoch_effects (H := Toy.backend) Toy.model
                  Toy.train_dl Toy.ready _ _ eq_refl Hrun)).
Defined.


(** ** Rounding, more closely: what a product below an int turns into *)

Lemma iter_pos_Pos_iter {A} (f : A -> A) (p : positive) (x : A) :
  SpecFloat.iter_pos f p x = Pos.iter f x p.
Proof.
  revert x. induction p as [p IH|p IH|]; intros x; simpl.
  - by rewrite !IH, <- !Pos.iter_swap.
  - by rewrite !IH.
  - reflexivity.
Qed.

Lemma shr_1_r (r : shr_record) :
  0 <= shr_m r -> shr_r (shr_1 r) = Z.odd (shr_m r).
Proof.
  destruct r as [m r s]. simpl. intros Hm.
  destruct m as [|[p|p|]|p]; try reflexivity; lia.
Qed.

(** The round bit after a shift by [n] is bit [n - 1] of the mantissa. *)
Lemma shr_r_iter (n : positive) (m : Z) :
  0 <= m ->
  shr_r (SpecFloat.iter_pos shr_1 n (Build_shr_record m false false)) = true ->
  2 ^ (Zpos n - 1) <= m mod 2 ^ Zpos n.
Proof.
  intros Hm. rewrite iter_pos_Pos_iter.
  destruct (Pos.eq_dec n 1%positive) as [->|Hn].
  - cbn [Pos.iter]. rewrite shr_1_r by done. cbn [shr_m]. intros Hodd.
    rewrite Z.pow_1_r. rewrite Zodd_mod in Hodd.
    apply Z.eqb_eq in Hodd. simpl. lia.
  - destruct (Pos.succ_pred_or n) as [->|Hs]; [done|].
    rewrite <- Hs at 1. rewrite Pos.iter_succ, <- iter_pos_Pos_iter.
    assert (Hq : shr_m (SpecFloat.iter_pos shr_1 (Pos.pred n)
                          (Build_shr_record m false false))
                 = m / 2 ^ Zpos (Pos.pred n))
      by (by rewrite iter_pos_shr_1_m).
    assert (H2 : 0 < 2 ^ Zpos (Pos.pred n)) by (apply Z.pow_pos_nonneg; lia).
    rewrite shr_1_r by (rewrite Hq; apply Z.div_pos; lia).
    rewrite Hq, Zodd_mod. intros Hodd. apply Z.eqb_eq in Hodd.
    replace (Zpos n - 1) with (Zpos (Pos.pred n)) by lia.
    replace (Zpos n) with (Zpos (Pos.pred n) + 1) by lia.
    rewrite Z.pow_add_r, Z.pow_1_r by lia.
    rewrite Z.rem_mul_r by lia.
    assert (0 <= m mod 2 ^ Zpos (Pos.pred n))
      by (apply Z.mod_pos_bound; lia).
    lia.
Qed.

(** Rounding to nearest after a shift by [n] moves a mantissa by at most
    half a unit, and not at all when nothing is shifted out. *)
Lemma round_after_shift (m e n : Z) :
  0 <= m ->
  let r1 := fst (shr (shr_record_of_loc m loc_Exact) e n) in
  let m2 := round_nearest_even (shr_m r1) (loc_of_shr_record r1) in
  0 <= m2 /\
  (n <= 0 -> m2 = m) /\
  (0 < n -> m2 * 2 ^ n <= m + 2 ^ (n - 1)).
Proof.
  intros Hm r1 m2. subst r1 m2.
  destruct n as [|p|p]; cbn [shr fst shr_record_of_loc].
  - cbn. split; [done|]. split; [done|lia].
  - pose proof (iter_pos_shr_1_m p (Build_shr_record m false false) Hm) as Hq.
    pose proof (shr_r_iter p m Hm) as Hr.
    destruct (SpecFloat.iter_pos shr_1 p (Build_shr_record m false false))
      as [m1 r s]. cbn [shr_m shr_r] in Hq, Hr. cbn [shr_m].
    assert (H2 : 0 < 2 ^ Zpos p) by (apply Z.pow_pos_nonneg; lia).
    assert (H2' : 0 < 2 ^ (Zpos p - 1)) by (apply Z.pow_pos_nonneg; lia).
    assert (Hm1 : 0 <= m1) by (subst m1; apply Z.div_pos; lia).
    pose proof (Z.div_mod m (2 ^ Zpos p) ltac:(lia)) as Hdm.
    pose proof (Z.mod_pos_bound m (2 ^ Zpos p) H2) as Hrem.
    rewrite <- Hq in Hdm.
    pose proof (round_nearest_even_bounds m1
                  (loc_of_shr_record (Build_shr_record m1 r s))) as Hb.
    assert (HPQ : 2 ^ Zpos p = 2 * 2 ^ (Zpos p - 1)).
    { rewrite <- (Z.pow_succ_r 2 (Zpos p - 1)) by lia. f_equal. lia. }
    set (rem := m mod 2 ^ Zpos p) in *.
    set (P := 2 ^ Zpos p) in *. set (Q := 2 ^ (Zpos p - 1)) in *.
    clearbody rem P Q. clear Hq.
    split; [lia|]. split; [intros ?; lia|]. intros _.
    destruct r.
    + specialize (Hr eq_refl). nia.
    + assert (round_nearest_even m1
                (loc_of_shr_record (Build_shr_record m1 false s)) = m1)
        as -> by (by destruct s). nia.
  - cbn. split; [done|]. split; [done|lia].
Qed.

(** The number [binary_round_aux] makes of an exact product [m * 2 ^ e]:
    a finite one (for these sizes), at an exponent not below [e], and not
    above the product by more than half a unit of the first shift. *)
Lemma binary_round_aux_value (s : bool) (m e : Z) :
  0 < m -> e <= 0 -> Zdigits2 m + e <= 1023 ->
  let k := Z.max 0 (fexp Py.prec Py.emax (Zdigits2 m + e) - e) in
  exists m3 e3 : Z,
    binary_round_aux Py.prec Py.emax s m e loc_Exact =
      match m3 with
      | Z0 => S754_zero s
      | Zpos p => S754_finite s p e3
      | Zneg _ => S754_nan
      end /\
    0 <= m3 /\ e <= e3 /\
    m3 * 2 ^ (e3 - e) <= m + (if 0 <? k then 2 ^ (k - 1) else 0).
Proof.
  intros Hm He Hd k. unfold binary_round_aux, shr_fexp.
  set (d := Zdigits2 m) in *.
  pose proof (Zdigits2_nonneg m) as Hdn. fold d in Hdn.
  set (n1 := fexp Py.prec Py.emax (d + e) - e) in *.
  destruct (round_after_shift m e n1 ltac:(lia)) as (Hm2pos & Hsame & Hup).
  destruct (shr_spec (shr_record_of_loc m loc_Exact) e n1) as [Hm1 He1];
    [simpl; lia|].
  destruct (shr (shr_record_of_loc m loc_Exact) e n1) as [r1 e1].
  simpl in Hm1, He1, Hm2pos, Hsame, Hup.
  set (m2 := round_nearest_even (shr_m r1) (loc_of_shr_record r1)) in *.
  assert (Hm1pos : 0 <= shr_m r1).
  { rewrite Hm1. apply Z.div_pos; [lia|]. apply Z.pow_pos_nonneg; lia. }
  set (n2 := fexp Py.prec Py.emax (Zdigits2 m2 + e1) - e1).
  destruct (shr_spec (shr_record_of_loc m2 loc_Exact) e1 n2) as [Hm3 He3];
    [simpl; lia|].
  destruct (shr (shr_record_of_loc m2 loc_Exact) e1 n2) as [r3 e3].
  simpl in Hm3, He3.
  assert (H2n2 : 0 < 2 ^ Z.max 0 n2) by (apply Z.pow_pos_nonneg; lia).
  assert (Hm3pos : 0 <= shr_m r3) by (rewrite Hm3; apply Z.div_pos; lia).
  assert (Hd1 : Zdigits2 (shr_m r1) <= Z.max (d - Z.max 0 n1) 0).
  { rewrite Hm1. apply Zdigits2_div_pow2; lia. }
  assert (Hd2 : Zdigits2 m2 <= Zdigits2 (shr_m r1) + 1).
  { apply Zdigits2_succ_le; [lia|].
    pose proof (round_nearest_even_bounds (shr_m r1) (loc_of_shr_record r1)).
    fold m2 in H. lia. }
  assert (He3le : e3 <= 971).
  { unfold fexp, emin, Py.prec, Py.emax in n1, n2. subst n1 n2. lia. }
  exists (shr_m r3), e3. split.
  { destruct (shr_m r3); try reflexivity.
    by rewrite (proj2 (Z.leb_le e3 (Py.emax - Py.prec)))
      by (unfold Py.emax, Py.prec; lia). }
  split; [done|]. split; [lia|].
  (* the value *)
  assert (Hval3 : shr_m r3 * 2 ^ Z.max 0 n2 <= m2).
  { rewrite Hm3. rewrite Z.mul_comm. apply Z.mul_div_le. lia. }
  replace (e3 - e) with (Z.max 0 n2 + Z.max 0 n1) by lia.
  rewrite Z.pow_add_r by lia.
  assert (H2n1 : 0 < 2 ^ Z.max 0 n1) by (apply Z.pow_pos_nonneg; lia).
  subst k. fold n1.
  destruct (Z.ltb_spec 0 (Z.max 0 n1)) as [Hpos|Hzero].
  - assert (Hn1 : Z.max 0 n1 = n1) by lia. rewrite Hn1 in *.
    specialize (Hup Hpos).
    apply Z.le_trans with (m2 * 2 ^ n1); [|exact Hup].
    rewrite Z.mul_assoc. apply Z.mul_le_mono_nonneg_r; lia.
  - assert (Hn1 : Z.max 0 n1 = 0) by lia. rewrite Hn1.
    rewrite Z.pow_0_r, Z.mul_1_r, Z.add_0_r.
    rewrite Hsame in Hval3 by lia. exact Hval3.
Qed.

Lemma iter_xO_value (p k : positive) :
  Zpos (Pos.iter xO p k) = Zpos p * 2 ^ Zpos k.
Proof.
  induction k as [|k IH] using Pos.peano_ind.
  - simpl. lia.
  - rewrite Pos.iter_succ, Pos2Z.inj_xO, IH, Pos2Z.inj_succ.
    rewrite Z.pow_succ_r by lia. lia.
Qed.

(** Below [2 ^ 53], [float(n)] is [n] itself, on 53 digits. *)
Lemma float_of_int_exact (n : Z) :
  0 < n < 2 ^ 53 ->
  exists mF,
    Py.float_of_int n = Ok (S754_finite false mF (Zdigits2 n - 53)) /\
    Zpos mF = n * 2 ^ (53 - Zdigits2 n) /\
    Zpos (digits2_pos mF) = 53.
Proof.
  intros Hn. destruct n as [|p|p]; try lia.
  assert (Hd : 1 <= Zdigits2 (Zpos p) <= 53).
  { split; [|apply Zdigits2_le; lia].
    rewrite Zdigits2_log2 by lia. pose proof (Z.log2_nonneg (Zpos p)). lia. }
  cbn [Zdigits2] in *. set (d := Zpos (digits2_pos p)) in *.
  assert (Hshl : exists mz,
            shl_align p 0 (fexp Py.prec Py.emax (d + 0)) = (mz, d - 53) /\
            Zpos mz = Zpos p * 2 ^ (53 - d) /\ Zpos (digits2_pos mz) = 53).
  { unfold shl_align, fexp, emin, Py.prec, Py.emax.
    replace (Z.max (d + 0 - 53) (3 - 1024 - 53) - 0) with (d - 53) by lia.
    replace (Z.max (d + 0 - 53) (3 - 1024 - 53)) with (d - 53) by lia.
    destruct (d - 53) as [|k|k] eqn:Hk; try lia.
    - exists p. replace (53 - d) with 0 by lia. rewrite Z.mul_1_r.
      split; [done|]. split; [done|]. fold d. lia.
    - exists (Pos.iter xO p k). split; [done|].
      rewrite iter_xO_value, digits2_pos_iter_xO. fold d.
      replace (53 - d) with (Zpos k) by lia. split; [done|lia]. }
  destruct Hshl as (mz & Hshl & Hval & Hdz). exists mz.
  split; [|split; [exact Hval|exact Hdz]].
  unfold Py.float_of_int, binary_normalize, binary_round.
  change (Zpos (digits2_pos p)) with d. rewrite Hshl.
  unfold binary_round_aux, shr_fexp. cbn [Zdigits2]. rewrite Hdz.
  assert (Hn0 : fexp Py.prec Py.emax (53 + (d - 53)) - (d - 53) = 0)
    by (unfold fexp, emin, Py.prec, Py.emax; lia).
  rewrite Hn0. cbn [shr shr_record_of_loc shr_m loc_of_shr_record
                      round_nearest_even Zdigits2].
  rewrite Hdz, Hn0. cbn [shr shr_record_of_loc shr_m].
  by rewrite (proj2 (Z.leb_le (d - 53) (Py.emax - Py.prec)))
    by (unfold Py.emax, Py.prec; lia).
Qed.

(** What [is_ratio] means for the mantissa and the exponent. *)
Lemma is_ratio_inv (r : Py.float) :
  Py.is_ratio r = true ->
  exists mr er,
    r = S754_finite false mr er /\
    er <= -53 /\
    Zpos mr + 2 ^ (- er - 53) <= 2 ^ (- er).
Proof.
  intros Hr. pose proof (is_ratio_fits r Hr) as Hfit.
  unfold Py.is_ratio in Hr. rewrite !andb_true_iff in Hr.
  destruct Hr as [[Hv H0] H1].
  destruct r as [s|s| |s mr er].
  { destruct s; vm_compute in H0; discriminate. }
  { destruct s; [vm_compute in H0 | vm_compute in H1]; discriminate. }
  { vm_compute in H0; discriminate. }
  destruct s; [vm_compute in H0; discriminate|].
  exists mr, er. split; [done|].
  unfold valid_binary, bounded, canonical_mantissa, fexp, emin, Py.prec,
    Py.emax in Hv.
  apply andb_true_iff in Hv as [Hc _]. apply Z.eqb_eq in Hc.
  unfold Py.fits in Hfit. apply Z.leb_le in Hfit.
  pose proof (Zdigits2_lt_pow2 (Zpos mr) ltac:(lia)) as Hlt.
  cbn [Zdigits2] in Hlt. set (dr := Zpos (digits2_pos mr)) in *.
  assert (Hdr : 1 <= dr <= 53) by (subst dr; lia).
  assert (Her : er <= -53) by lia.
  split; [done|].
  assert (Hmr : Zpos mr < 2 ^ 53).
  { eapply Z.lt_le_trans; [exact Hlt|]. apply Z.pow_le_mono_r; lia. }
  destruct (Z.eq_dec er (-53)) as [->|Hne].
  - change (2 ^ (- -53 - 53)) with 1. change (- -53) with 53. lia.
  - assert (H1' : 2 ^ 53 <= 2 ^ (- er - 1)) by (apply Z.pow_le_mono_r; lia).
    assert (H2' : 2 ^ (- er - 53) <= 2 ^ (- er - 1))
      by (apply Z.pow_le_mono_r; lia).
    assert (H3' : 2 ^ (- er) = 2 * 2 ^ (- er - 1)).
    { rewrite <- (Z.pow_succ_r 2 (- er - 1)) by lia. f_equal. lia. }
    lia.
Qed.

(** The rounded product of an int below [2 ^ 53] with a ratio, truncated,
    stays strictly below the int. *)
Lemma round_product_below (mF mr : positive) (eF er n : Z) :
  0 < n -> -52 <= eF <= 0 ->
  Zpos mF = n * 2 ^ (- eF) -> 2 ^ 52 <= Zpos mF < 2 ^ 53 ->
  er <= -53 -> Zpos mr + 2 ^ (- er - 53) <= 2 ^ (- er) ->
  forall m e, m = Zpos mF * Zpos mr -> e = eF + er ->
  exists k,
    Py.int_of_float (binary_round_aux Py.prec Py.emax false m e loc_Exact)
    = Ok k /\ 0 <= k < n.
Proof.
  intros Hn HeF HmF HmFb Her Hmr m e Em Ee.
  assert (HT : 2 ^ 53 = 2 * 2 ^ 52) by reflexivity.
  set (T := 2 ^ 53) in *. set (T2 := 2 ^ 52) in *.
  assert (HT2 : 1 <= T2) by (subst T2; lia).
  assert (HPQ : 2 ^ (- er) = T * 2 ^ (- er - 53)).
  { subst T. rewrite <- Z.pow_add_r by lia. f_equal. lia. }
  assert (HQ : 0 < 2 ^ (- er - 53)) by (apply Z.pow_pos_nonneg; lia).
  set (P := 2 ^ (- er)) in *. set (Q := 2 ^ (- er - 53)) in *.
  assert (Hm : 0 < m) by lia.
  assert (He : e <= 0) by lia.
  assert (HmP : m < Zpos mF * P).
  { rewrite Em. apply Z.mul_lt_mono_pos_l; lia. }
  assert (Hdm : Zdigits2 m <= 53 - er).
  { apply Zdigits2_le; [lia|lia|].
    replace (53 - er) with (53 + - er) by lia.
    rewrite Z.pow_add_r by lia. fold T P.
    eapply Z.lt_le_trans; [exact HmP|].
    apply Z.mul_le_mono_nonneg_r; lia. }
  destruct (binary_round_aux_value false m e Hm He ltac:(lia))
    as (m3 & e3 & Eq & H0 & He3 & Hle).
  cbv zeta in Hle. rewrite Eq.
  assert (Hkey : m3 * 2 ^ (e3 - e) < Zpos mF * P).
  { eapply Z.le_lt_trans; [exact Hle|].
    unfold fexp, emin, Py.prec, Py.emax in *.
    set (dm := Zdigits2 m) in *.
    destruct (0 <? _) eqn:Ek; [apply Z.ltb_lt in Ek|lia].
    assert (HmFP : Zpos mF * (Zpos mr + Q) <= Zpos mF * P)
      by (apply Z.mul_le_mono_nonneg_l; lia).
    destruct (Z.le_ge_cases (dm - 53) (-1074 - e)) as [Hc|Hc].
    - replace (Z.max 0 (Z.max (dm + e - 53) (3 - 1024 - 53) - e) - 1)
        with (-1075 - e) by lia.
      assert (Hh : 2 ^ (-1075 - e) <= Q)
        by (subst Q; apply Z.pow_le_mono_r; lia).
      assert (HQm : Q * 1 <= Q * Zpos mF)
        by (apply Z.mul_le_mono_nonneg_l; lia).
      assert (HQm' : Q * 2 <= Q * Zpos mF)
        by (apply Z.mul_le_mono_nonneg_l; lia).
      lia.
    - replace (Z.max 0 (Z.max (dm + e - 53) (3 - 1024 - 53) - e) - 1)
        with (dm - 54) by lia.
      assert (Hdm54 : 0 <= dm - 54) by lia.
      pose proof (Zdigits2_ge_pow2 m Hm) as Hge. fold dm in Hge.
      replace (dm - 1) with (53 + (dm - 54)) in Hge by lia.
      rewrite Z.pow_add_r in Hge by lia. fold T in Hge.
      set (h := 2 ^ (dm - 54)) in *.
      assert (Hstep : T * (m + h) < T * (Zpos mF * P)); [|nia].
      assert (H1 : T * (m + h) <= (T + 1) * m) by lia.
      assert (H2 : (T + 1) * m <= (T + 1) * (Zpos mF * (P - Q))).
      { apply Z.mul_le_mono_nonneg_l; [lia|]. rewrite Em.
        apply Z.mul_le_mono_nonneg_l; lia. }
      assert (H3 : (T + 1) * (Zpos mF * (P - Q))
                   = Zpos mF * (T * P - Q)) by (rewrite HPQ; ring).
      assert (H4 : Zpos mF * (T * P - Q) < Zpos mF * (T * P))
        by (apply Z.mul_lt_mono_pos_l; lia).
      assert (H5 : Zpos mF * (T * P) = T * (Zpos mF * P)) by ring.
      lia. }
  assert (HnP : Zpos mF * P = n * 2 ^ (- e)).
  { rewrite HmF. subst P. replace (- e) with (- eF + - er) by lia.
    rewrite Z.pow_add_r by lia. ring. }
  rewrite HnP in Hkey. clear Hle HmP Hdm HnP.
  destruct m3 as [|p|p]; [exists 0; split; [done|lia]| |lia].
  cbn [Py.int_of_float].
  destruct e3 as [|k|k].
  - eexists; split; [reflexivity|].
    rewrite Z.shiftl_0_r.
    replace (0 - e) with (- e) in Hkey by lia.
    assert (0 < 2 ^ (- e)) by (apply Z.pow_pos_nonneg; lia).
    split; [lia|]. eapply Z.mul_lt_mono_pos_r; eauto.
  - eexists; split; [reflexivity|].
    rewrite Z.shiftl_mul_pow2 by lia.
    replace (Zpos k - e) with (Zpos k + - e) in Hkey by lia.
    rewrite Z.pow_add_r, Z.mul_assoc in Hkey by lia.
    assert (0 < 2 ^ (- e)) by (apply Z.pow_pos_nonneg; lia).
    assert (0 < 2 ^ Zpos k) by (apply Z.pow_pos_nonneg; lia).
    split; [apply Z.mul_nonneg_nonneg; lia|].
    apply (Z.mul_lt_mono_pos_r (2 ^ (- e))); [lia|exact Hkey].
  - eexists; split; [reflexivity|].
    rewrite Z.shiftr_div_pow2 by lia.
    assert (HK : 0 < 2 ^ Zpos k) by (apply Z.pow_pos_nonneg; lia).
    assert (HR : 0 < 2 ^ (Zneg k - e)) by (apply Z.pow_pos_nonneg; lia).
    assert (Hsplit : 2 ^ (- e) = 2 ^ Zpos k * 2 ^ (Zneg k - e)).
    { rewrite <- Z.pow_add_r by lia. f_equal. lia. }
    rewrite Hsplit in Hkey.
    split; [apply Z.div_pos; lia|].
    apply Z.div_lt_upper_bound; [lia|].
    apply (Z.mul_lt_mono_pos_r (2 ^ (Zneg k - e))); [lia|].
    rewrite (Z.mul_comm (2 ^ Zpos k) n). rewrite <- Z.mul_assoc. exact Hkey.
Qed.

(** [int(n * r)] and [int(r * n)] for an int [0 <= n < 2 ^ 53] and a ratio
    [r]: defined, never negative, and strictly below [n] unless [n = 0]. *)
Lemma int_of_ratio_product (n : Z) (r x : Py.float) :
  0 <= n < 2 ^ 53 -> Py.is_ratio r = true ->
  Py.float_of_int n = Ok x ->
  (exists k, Py.int_of_float (Py.mul x r) = Ok k /\
             0 <= k <= n /\ (0 < n -> k < n)) /\
  (exists k, Py.int_of_float (Py.mul r x) = Ok k /\
             0 <= k <= n /\ (0 < n -> k < n)).
Proof.
  intros Hn Hr Ex.
  destruct (is_ratio_inv r Hr) as (mr & er & -> & Her & Hmr).
  destruct (Z.eq_dec n 0) as [->|Hn0].
  { injection Ex as <-. split; exists 0; (split; [done|lia]). }
  destruct (float_of_int_exact n ltac:(lia)) as (mF & EF & HmF & HdF).
  rewrite EF in Ex. injection Ex as <-.
  assert (Hd : 1 <= Zdigits2 n <= 53).
  { split; [|apply Zdigits2_le; lia].
    rewrite Zdigits2_log2 by lia. pose proof (Z.log2_nonneg n). lia. }
  assert (HmFb : 2 ^ 52 <= Zpos mF < 2 ^ 53).
  { pose proof (Zdigits2_ge_pow2 (Zpos mF) ltac:(lia)) as H1.
    pose proof (Zdigits2_lt_pow2 (Zpos mF) ltac:(lia)) as H2.
    cbn [Zdigits2] in H1, H2. rewrite HdF in H1, H2.
    change (53 - 1) with 52 in H1. split; assumption. }
  assert (HmF' : Zpos mF = n * 2 ^ (- (Zdigits2 n - 53))).
  { rewrite HmF. do 2 f_equal. lia. }
  split.
  - destruct (round_product_below mF mr (Zdigits2 n - 53) er n
                ltac:(lia) ltac:(lia) HmF' HmFb Her Hmr
                (Zpos (mF * mr)) (Zdigits2 n - 53 + er)
                (Pos2Z.inj_mul _ _) eq_refl) as (k & Ek & Hk).
    exists k. split; [exact Ek|lia].
  - destruct (round_product_below mF mr (Zdigits2 n - 53) er n
                ltac:(lia) ltac:(lia) HmF' HmFb Her Hmr
                (Zpos (mr * mF)) (er + (Zdigits2 n - 53))
                ltac:(rewrite Pos2Z.inj_mul; ring) ltac:(ring))
      as (k & Ek & Hk).
    exists k. split; [exact Ek|lia].
Qed.

(** ** The sizes of the split and of the warmup *)

Lemma split_sizes_bounds (train_ratio test_val_ratio : Py.float)
    (N : Z) :
  0 <= N < 2 ^ 53 ->
  Py.is_ratio train_ratio = true ->
  Py.is_ratio test_val_ratio = true ->
  exists train_size test_size val_size,
    split_sizes train_ratio test_val_ratio N
    = Ok (train_size, test_size, val_size) /\
    train_size + test_size + val_size = N /\
    0 <= train_size /\ 0 <= test_size /\ 0 <= val_size /\
    (0 < N ->
     train_size < N /\ test_size < N - train_size /\ 1 <= val_size).
Proof.
  intros HN Htr Htv. unfold split_sizes, Py.float_mul_int, Py.int_mul_float.
  destruct (float_of_int_fits N 53) as (x & Ex & _); [lia|lia|].
  destruct (proj2 (int_of_ratio_product N train_ratio x HN Htr Ex))
    as (a & Ea & Ha & Ha').
  rewrite Ex. cbn [result_bind]. rewrite Ea. cbn [result_bind].
  destruct (float_of_int_fits (N - a) 53) as (y & Ey & _); [lia|lia|].
  destruct (proj1 (int_of_ratio_product (N - a) test_val_ratio y
                     ltac:(lia) Htv Ey)) as (b & Eb & Hb & Hb').
  rewrite Ey. cbn [result_bind]. rewrite Eb. cbn [result_bind].
  exists a, b, (N - a - b). split; [reflexivity|].
  split_and!; lia.
Qed.

Lemma warmup_steps_bounds (total_steps : Z)
    (warmup_ratio : Py.float) :
  0 < total_steps < 2 ^ 53 ->
  Py.is_ratio warmup_ratio = true ->
  exists n,
    warmup_steps total_steps warmup_ratio = Ok n /\
    0 <= n < total_steps /\
    (forall step, 0 <= step <= total_steps ->
       exists q, lr_warmup_linear_decay total_steps n step = Ok q /\
                 Py.has_sign false q = true) /\
    (forall step, 0 <= step ->
       lr_warmup_linear_decay total_steps n step <> Raise ZeroDivisionError).
Proof.
  intros HT Hr. unfold warmup_steps, Py.int_mul_float.
  destruct (float_of_int_fits total_steps 53) as (x & Ex & _); [lia|lia|].
  destruct (proj1 (int_of_ratio_product total_steps warmup_ratio x
                     ltac:(lia) Hr Ex)) as (n & En & Hn & Hn').
  rewrite Ex. cbn [result_bind]. rewrite En.
  specialize (Hn' ltac:(lia)).
  exists n. split; [reflexivity|]. split; [lia|].
  assert (Hin : forall step, 0 <= step <= total_steps ->
            exists q, lr_warmup_linear_decay total_steps n step = Ok q /\
                      Py.has_sign false q = true).
  { intros step Hs. destruct (Z.lt_ge_cases step n) as [Hlt|Hge].
    - rewrite lr_warmup_branch by done.
      destruct (int_true_div_nonneg step n ltac:(lia) ltac:(lia))
        as (q & Eq & _ & Hsign & _).
      exists q. split; done.
    - rewrite lr_decay_branch by done.
      destruct (int_true_div_nonneg (total_steps - step) (total_steps - n)
                  ltac:(lia) ltac:(lia)) as (q & Eq & Hmax & Hsign & _).
      exists q. rewrite Eq. cbn [result_bind]. rewrite Hmax. split; done. }
  split; [exact Hin|].
  intros step Hs. destruct (Z.le_gt_cases step total_steps) as [Hle|Hgt].
  - destruct (Hin step ltac:(lia)) as (q & -> & _). discriminate.
  - rewrite lr_decay_branch by lia.
    destruct (proj1 (int_true_div_neg (total_steps - step) (total_steps - n)
                       ltac:(lia) ltac:(lia))) as [->|(q & -> & _)];
      discriminate.
Qed.

(** X10. The three sizes of lines 87-94, for a dataset of fewer than
    [2 ^ 53] samples and two ratios strictly between 0 and 1: the sizes are
    computed without error, none is negative and they add up to the size
    of the dataset; when the dataset is not
    empty the training part is a strict part of it, the test part is a
    strict part of what the training part leaves, and so the validation
    part holds at least one sample. *)
Theorem X10_split_sizes_bounds (train_ratio test_val_ratio : Py.float)
    (N : Z) :
  0 <= N < 2 ^ 53 ->
  Py.is_ratio train_ratio = true ->
  Py.is_ratio test_val_ratio = true ->
  exists train_size test_size val_size,
    split_sizes train_ratio test_val_ratio N
    = Ok (train_size, test_size, val_size) /\
    train_size + test_size + val_size = N /\
    0 <= train_size /\ 0 <= test_size /\ 0 <= val_size /\
    (0 < N ->
     train_size < N /\ test_size < N - train_size /\ 1 <= val_size).
Proof. apply split_sizes_bounds. Qed.

Lemma X10_split_sizes_bounds_witness :
  exists train_size test_size val_size,
    split_sizes (Toy.decimal 7 10) (Toy.decimal 1 2) 100
    = Ok (train_size, test_size, val_size) /\
    train_size < 100 /\ 1 <= val_size.
Proof.
  destruct (X10_split_sizes_bounds (Toy.decimal 7 10) (Toy.decimal 1 2) 100)
    as (a & b & c & Hrun & _ & _ & _ & _ & Hpos).
  - split; [lia|]. apply Z.ltb_lt. vm_compute. reflexivity.
  - vm_compute. reflexivity.
  - vm_compute. reflexivity.
  - exists a, b, c. destruct (Hpos ltac:(lia)) as (Ha & _ & Hc).
    split; [exact Hrun|]. split; [exact Ha | exact Hc].
Defined.

(** X11. The warmup of lines 118-124, for a training of at least one and
    fewer than [2 ^ 53] steps and a warmup ratio strictly between 0 and 1:
    [warmup_steps] is computed without error and lies in
    [0 <= warmup_steps < total_steps], so neither division of
    [lr_warmup_linear_decay] has a zero divisor from step 0 on, and at every
    step of the training the multiplier is a number that is not negative. *)
Theorem X11_warmup_shorter_than_training (total_steps : Z)
    (warmup_ratio : Py.float) :
  0 < total_steps < 2 ^ 53 ->
  Py.is_ratio warmup_ratio = true ->
  exists n,
    warmup_steps total_steps warmup_ratio = Ok n /\
    0 <= n < total_steps /\
    (forall step, 0 <= step <= total_steps ->
       exists q, lr_warmup_linear_decay total_steps n step = Ok q /\
                 Py.has_sign false q = true) /\
    (forall step, 0 <= step ->
       lr_warmup_linear_decay total_steps n step <> Raise ZeroDivisionError).
Proof. apply warmup_steps_bounds. Qed.

Lemma X11_warmup_shorter_than_training_witness :
  exists n,
    warmup_steps 14 (Toy.decimal 1 10) = Ok n /\ 0 <= n < 14 /\
    exists q, lr_warmup_linear_decay 14 n 14 = Ok q /\
              Py.has_sign false q = true.
Proof.
  destruct (X11_warmup_shorter_than_training 14 (Toy.decimal 1 10))
    as (n & Hn & Hb & Hin & _).
  - split; [lia|]. apply Z.ltb_lt. vm_compute. reflexivity.
  - vm_compute. reflexivity.
  - exists n. split; [exact Hn|]. split; [exact Hb|].
    apply Hin. lia.
Defined.

(** ** The loaders and the scheduler of the script *)

Section Setup.
Context `{Backend}.

Lemma take_take_take {A} (a b c : nat) (d : list A) :
  (a + b + c = length d)%nat ->
  take a d ++ take b (drop a d) ++ take c (drop (a + b) d) = d.
Proof.
  intros Hlen.
  rewrite (take_ge (drop (a + b) d)) by (rewrite length_drop; lia).
  rewrite <- (drop_drop d b a), take_drop. apply take_drop.
Qed.

Lemma build_loaders_run config dataset w :
  Z.of_nat (length dataset) < 2 ^ 53 ->
  Py.is_ratio (data_train_ratio config) = true ->
  Py.is_ratio (data_test_val_ratio config) = true ->
  exists train_size test_size val_size,
    split_sizes (data_train_ratio config) (data_test_val_ratio config)
                (Z.of_nat (length dataset))
    = Ok (train_size, test_size, val_size) /\
    (train_size = 0 ->
     build_loaders config dataset w = Raise ValueError) /\
    (training_batch_size config <= 0 ->
     build_loaders config dataset w = Raise ValueError) /\
    (0 < train_size -> 0 < training_batch_size config ->
     exists train_dl test_dl val_dl w',
       build_loaders config dataset w
       = Ok ((train_dl, test_dl, val_dl), w') /\
       Z.of_nat (length (dl_dataset train_dl)) = train_size /\
       Z.of_nat (length (dl_dataset test_dl)) = test_size /\
       Z.of_nat (length (dl_dataset val_dl)) = val_size /\
       dl_dataset train_dl ++ dl_dataset test_dl ++ dl_dataset val_dl
       = permute (rng w) dataset /\
       (dl_shuffle train_dl = true /\ dl_shuffle test_dl = false /\
        dl_shuffle val_dl = false) /\
       (dl_batch_size train_dl = training_batch_size config /\
        dl_batch_size test_dl = training_batch_size config /\
        dl_batch_size val_dl = training_batch_size config) /\
       rng w' = S (rng w) /\ heap w' = heap w /\
       optimizer w' = optimizer w /\ scheduler w' = scheduler w /\
       same_output w w' /\
       dl_dataset train_dl <> [] /\ dl_dataset val_dl <> [] /\
       (length (dl_dataset train_dl) < length dataset)%nat).
Proof.
  intros HN Htr Htv.
  destruct (split_sizes_bounds (data_train_ratio config)
              (data_test_val_ratio config) (Z.of_nat (length dataset))
              ltac:(lia) Htr Htv)
    as (a & b & c & Hsplit & Hsum & Ha & Hb & Hc & Hpos).
  exists a, b, c. split; [exact Hsplit|].
  assert (Hnat : (Z.to_nat a + Z.to_nat b + Z.to_nat c
                  = length (permute (rng w) dataset))%nat)
    by (rewrite permute_length; lia).
  unfold build_loaders, bind, lift. rewrite Hsplit.
  unfold random_split. rewrite (proj2 (Z.eqb_eq _ _) Hsum). cbn [negb].
  unfold DataLoader_new. cbn [andb]. split_and!.
  - intros ->. by rewrite bool_decide_eq_true_2.
  - intros Hbs. case_bool_decide; [done|].
    by rewrite (proj2 (Z.leb_le _ _) Hbs).
  - intros Ha0 Hbs.
    assert (Hne : take (Z.to_nat a) (permute (rng w) dataset) <> []).
    { intros Hnil. apply (f_equal length) in Hnil.
      rewrite length_take in Hnil. simpl in Hnil. lia. }
    rewrite (bool_decide_eq_false_2 _ Hne).
    rewrite (proj2 (Z.leb_gt _ _) Hbs). unfold ret.
    do 4 eexists. split; [reflexivity|]. cbn.
    rewrite !length_take, !length_drop.
    destruct (Hpos ltac:(lia)) as (Ha' & _ & Hc').
    split_and!; try done; try lia.
    + by apply take_take_take.
    + intros Hnil. apply (f_equal length) in Hnil.
      rewrite length_take, length_drop in Hnil. simpl in Hnil. lia.
Qed.

(** The scheduler of lines 118-126 is built, and a training pass that
    ends within the schedule raises in none of its batches. *)
Lemma build_scheduler_run config train_dl w :
  0 < total_steps train_dl (training_epochs config) < 2 ^ 53 ->
  Py.is_ratio (training_warmup_ratio config) = true ->
  exists n k,
    warmup_steps (total_steps train_dl (training_epochs config))
                 (training_warmup_ratio config) = Ok n /\
    0 <= n < total_steps train_dl (training_epochs config) /\
    lr_warmup_linear_decay (total_steps train_dl (training_epochs config))
                           n 0 = Ok k /\
    build_scheduler config train_dl w
    = Ok (tt,
          with_scheduler
            {| lr_lambda :=
                 lr_warmup_linear_decay
                   (total_steps train_dl (training_epochs config)) n;
               base_lr := opt_lr (optimizer w);
               last_epoch := 0 |}
            (with_optimizer
               {| opt_state := opt_state (optimizer w);
                  opt_lr := Py.mul (opt_lr (optimizer w)) k |} w)).
Proof.
  intros HT Hr.
  destruct (warmup_steps_bounds _ _ HT Hr) as (n & En & Hn & Hin & _).
  destruct (Hin 0 ltac:(lia)) as (k & Ek & _).
  exists n, k. split_and!; try done; try lia.
  unfold build_scheduler, bind, lift. rewrite En.
  unfold LambdaLR_new, scheduler_set_lr. cbn [lr_lambda last_epoch base_lr].
  by rewrite Ek.
Qed.

Lemma training_pass_within_schedule model train_dl (T n : Z) w :
  0 < dl_batch_size train_dl ->
  (forall step, 0 <= step <= T ->
     is_ok (lr_warmup_linear_decay T n step) = true) ->
  lr_lambda (scheduler w) = lr_warmup_linear_decay T n ->
  0 <= last_epoch (scheduler w) ->
  last_epoch (scheduler w) + dl_len train_dl <= T ->
  exists batches w0 acc w1,
    (let* _ := set_training model true in
     let* _ := emit (ProgressBar "Training" (dl_len train_dl)) in
     dl_iter train_dl) w = Ok (batches, w0) /\
    Z.of_nat (length batches) = dl_len train_dl /\
    train_loop model batches w0 = Ok (acc, w1) /\
    stepped (dl_len train_dl) w w1 /\
    train_one_epoch model train_dl w
    = (let? m := compute_metrics (snd (fst acc)) (snd acc) (fst (fst acc))
                                 (dl_len train_dl) in
       Ok (m, w1)).
Proof.
  intros Hbs Hin Hf H0 Hend.
  destruct (set_training_frame model true w)
    as (wa & Hset & Hsa & _ & _ & _ & _).
  destruct (dl_iter_run train_dl
              (with_trace
                 (trace wa ++ [ProgressBar "Training" (dl_len train_dl)])
                 wa) Hbs)
    as (batches & w0 & Hit & Hlen & Hs0 & _ & _ & _).
  cbn [scheduler with_trace] in Hs0.
  destruct (train_loop_total model batches (Py.zero, [], []) w0)
    as ([[rl ps] rs] & w1 & Hloop).
  { intros k Hk. rewrite Hs0, Hsa, Hf. apply Hin. lia. }
  exists batches, w0, (rl, ps, rs), w1.
  pose proof (train_loop_steps _ _ _ _ _ _ Hloop) as (Hst & _).
  split_and!.
  - unfold bind. rewrite Hset. unfold emit at 1. exact Hit.
  - exact Hlen.
  - exact Hloop.
  - rewrite Hlen in Hst. destruct Hst as (? & ? & ?).
    rewrite Hs0, Hsa in *. by repeat split.
  - unfold train_one_epoch, bind. rewrite Hset. unfold emit at 1.
    rewrite Hit. unfold train_loop in Hloop. unfold train_loop.
    rewrite Hloop. simpl. unfold lift.
    by destruct (compute_metrics ps rs rl (dl_len train_dl)).
Qed.

(** X12. Lines 87-102 on a dataset of fewer than [2 ^ 53] samples, with two
    ratios strictly between 0 and 1.  The sizes are computed.  When the
    training size comes out as 0 (an empty dataset, or a ratio too small for
    it) the shuffling training loader refuses its empty part and line 100
    raises [ValueError]; so does a batch size of zero or less.  Otherwise
    the three loaders are built: their datasets have the three sizes and
    are, one after the other, the permutation [random_split] drew, so every
    position of it lands in exactly one part; only the training loader
    shuffles; all three use the configured batch size; one draw is taken
    from the random generator and nothing else of the world changes; and
    neither the training nor the validation part is empty, the training
    part being shorter than the dataset. *)
Theorem X12_build_loaders_partition config dataset w :
  Z.of_nat (length dataset) < 2 ^ 53 ->
  Py.is_ratio (data_train_ratio config) = true ->
  Py.is_ratio (data_test_val_ratio config) = true ->
  exists train_size test_size val_size,
    split_sizes (data_train_ratio config) (data_test_val_ratio config)
                (Z.of_nat (length dataset))
    = Ok (train_size, test_size, val_size) /\
    (train_size = 0 ->
     build_loaders config dataset w = Raise ValueError) /\
    (training_batch_size config <= 0 ->
     build_loaders config dataset w = Raise ValueError) /\
    (0 < train_size -> 0 < training_batch_size config ->
     exists train_dl test_dl val_dl w',
       build_loaders config dataset w
       = Ok ((train_dl, test_dl, val_dl), w') /\
       Z.of_nat (length (dl_dataset train_dl)) = train_size /\
       Z.of_nat (length (dl_dataset test_dl)) = test_size /\
       Z.of_nat (length (dl_dataset val_dl)) = val_size /\
       dl_dataset train_dl ++ dl_dataset test_dl ++ dl_dataset val_dl
       = permute (rng w) dataset /\
       (dl_shuffle train_dl = true /\ dl_shuffle test_dl = false /\
        dl_shuffle val_dl = false) /\
       (dl_batch_size train_dl = training_batch_size config /\
        dl_batch_size test_dl = training_batch_size config /\
        dl_batch_size val_dl = training_batch_size config) /\
       rng w' = S (rng w) /\ heap w' = heap w /\
       optimizer w' = optimizer w /\ scheduler w' = scheduler w /\
       same_output w w' /\
       dl_dataset train_dl <> [] /\ dl_dataset val_dl <> [] /\
       (length (dl_dataset train_dl) < length dataset)%nat).
Proof. apply build_loaders_run. Qed.

(** X13. Lines 118-126 and the training passes that follow, for a loader
    with a positive batch size, at least one and fewer than [2 ^ 53]
    training steps and a warmup ratio strictly between 0 and 1.  The
    scheduler is built without error: its counter is 0, its base rate is the
    optimizer's rate, and models, random generator, output and files are
    left alone.  From then on, take a pass of [train_one_epoch] over the
    training loader that starts at a counter that is not negative and ends
    at or before [total_steps].  Its first statements (training mode, the
    progress bar, the iterator of the loader) hand [len(train_dl)] batches
    to the batch loop; the loop, run on these very batches from the world
    these statements leave, returns, having moved the counter by
    [len(train_dl)]; and the pass returns what [compute_metrics] makes of
    the accumulators of that loop, so it can raise in [compute_metrics]
    only. *)
Theorem X13_scheduler_covers_training config train_dl w :
  0 < dl_batch_size train_dl ->
  0 < total_steps train_dl (training_epochs config) < 2 ^ 53 ->
  Py.is_ratio (training_warmup_ratio config) = true ->
  exists w0,
    build_scheduler config train_dl w = Ok (tt, w0) /\
    last_epoch (scheduler w0) = 0 /\
    base_lr (scheduler w0) = opt_lr (optimizer w) /\
    opt_state (optimizer w0) = opt_state (optimizer w) /\
    heap w0 = heap w /\ rng w0 = rng w /\ same_output w w0 /\
    forall model w1,
      lr_lambda (scheduler w1) = lr_lambda (scheduler w0) ->
      0 <= last_epoch (scheduler w1) ->
      last_epoch (scheduler w1) + dl_len train_dl
      <= total_steps train_dl (training_epochs config) ->
      exists batches w2 acc w3,
        (let* _ := set_training model true in
         let* _ := emit (ProgressBar "Training" (dl_len train_dl)) in
         dl_iter train_dl) w1 = Ok (batches, w2) /\
        Z.of_nat (length batches) = dl_len train_dl /\
        train_loop model batches w2 = Ok (acc, w3) /\
        stepped (dl_len train_dl) w1 w3 /\
        train_one_epoch model train_dl w1
        = (let? m := compute_metrics (snd (fst acc)) (snd acc)
                                     (fst (fst acc)) (dl_len train_dl) in
           Ok (m, w3)).
Proof.
  intros Hbs HT Hr.
  destruct (build_scheduler_run config train_dl w HT Hr)
    as (n & k & En & Hn & Ek & Hrun).
  eexists. split; [exact Hrun|]. cbn. split_and!; try done.
  intros model w1 Hf H0 Hend.
  destruct (warmup_steps_bounds _ _ HT Hr) as (n' & En' & _ & Hin & _).
  rewrite En in En'. injection En' as <-.
  eapply training_pass_within_schedule; eauto.
  intros step Hs. by destruct (Hin step Hs) as (q & -> & _).
Qed.

End Setup.

Lemma X12_build_loaders_partition_witness :
  (exists train_size test_size val_size,
     split_sizes (data_train_ratio Toy.config2)
                 (data_test_val_ratio Toy.config2)
                 (Z.of_nat (length (Toy.dataset 100)))
     = Ok (train_size, test_size, val_size) /\
     exists train_dl test_dl val_dl w',
       build_loaders (H := Toy.backend) Toy.config2 (Toy.dataset 100)
                     Toy.world0
       = Ok ((train_dl, test_dl, val_dl), w') /\
       Z.of_nat (length (dl_dataset val_dl)) = val_size /\
       dl_dataset train_dl <> [] /\ dl_dataset val_dl <> []) /\
  build_loaders (H := Toy.backend) Toy.config2 (Toy.dataset 1) Toy.world0
  = Raise ValueError.
Proof.
  split.
  - destruct (X12_build_loaders_partition (H := Toy.backend) Toy.config2
                (Toy.dataset 100) Toy.world0)
      as (a & b & c & Hsplit & _ & _ & Hrun).
    + apply Z.ltb_lt. vm_compute. reflexivity.
    + vm_compute. reflexivity.
    + vm_compute. reflexivity.
    + exists a, b, c. split; [exact Hsplit|].
      assert (Ha : 0 < a).
      { vm_compute in Hsplit. injection Hsplit as <- _ _. reflexivity. }
      destruct (Hrun Ha eq_refl)
        as (train_dl & test_dl & val_dl & w' & Hbuild & _ & _ & Hc & _ & _
            & _ & _ & _ & _ & _ & _ & Htrain & Hval & _).
      exists train_dl, test_dl, val_dl, w'.
      split; [exact Hbuild|]. split; [exact Hc|].
      split; [exact Htrain | exact Hval].
  - destruct (X12_build_loaders_partition (H := Toy.backend) Toy.config2
                (Toy.dataset 1) Toy.world0)
      as (a & b & c & Hsplit & Hzero & _).
    + apply Z.ltb_lt. vm_compute. reflexivity.
    + vm_compute. reflexivity.
    + vm_compute. reflexivity.
    + apply Hzero. vm_compute in Hsplit. injection Hsplit as <- _ _.
      reflexivity.
Defined.

Lemma X13_scheduler_covers_training_witness :
  exists w0,
    build_scheduler (H := Toy.backend) Toy.config2 Toy.train_dl Toy.world0
    = Ok (tt, w0) /\
    exists batches w2 acc w3,
      train_loop (H := Toy.backend) Toy.model batches w2 = Ok (acc, w3) /\
      Z.of_nat (length batches) = dl_len Toy.train_dl /\
      last_epoch (scheduler w3) = dl_len Toy.train_dl.
Proof.
  destruct (X13_scheduler_covers_training (H := Toy.backend) Toy.config2
              Toy.train_dl Toy.world0)
    as (w0 & Hbuild & Hcount & _ & _ & _ & _ & _ & Hpass).
  - reflexivity.
  - split; apply Z.ltb_lt; vm_compute; reflexivity.
  - vm_compute. reflexivity.
  - exists w0. split; [exact Hbuild|].
    destruct (Hpass Toy.model w0 eq_refl)
      as (batches & w2 & acc & w3 & _ & Hlen & Hloop & (Hstep & _) & _).
    + rewrite Hcount. lia.
    + rewrite Hcount. apply Z.leb_le. vm_compute. reflexivity.
    + exists batches, w2, acc, w3. split; [exact Hloop|].
      split; [exact Hlen|]. rewrite Hstep, Hcount. reflexivity.
Defined.

(** ** What the epochs print and evaluate *)

Section Output.
Context `{Backend}.

Lemma getitem_Ok (d : Metrics) key v : getitem d key = Ok v -> d !! key = Some v.
Proof. unfold getitem. destruct (d !! key); [by intros [= ->]|discriminate]. Qed.

Lemma printed_app (t t' : list event) :
  printed (t ++ t') = printed t ++ printed t'.
Proof. unfold printed. apply omap_app. Qed.

(** The lines [manage_best_model_and_metrics] prints for a candidate. *)
Lemma epoch_body_output config model train_dl val_dl best epoch w best' w' :
  0 < dl_batch_size train_dl ->
  epoch_body config model train_dl val_dl best epoch w = Ok (best', w') ->
  exists (train_metrics val_metrics : Metrics) tl ta vl va metric,
    train_metrics !! "loss"%string = Some tl /\
    train_metrics !! "accuracy"%string = Some ta /\
    val_metrics !! "loss"%string = Some vl /\
    val_metrics !! "accuracy"%string = Some va /\
    val_metrics !! training_evaluation_metric config = Some metric /\
    best'
    = (if wins (training_best_metric_lower_is_better config) metric (fst best)
       then (metric, model) else best) /\
    evaluate_calls (trace w')
    = evaluate_calls (trace w) ++ [(model, val_dl)] /\
    printed (trace w')
    = printed (trace w)
      ++ [LineEpoch (epoch + 1) (training_epochs config);
          LineTrain tl ta; LineVal vl va]
      ++ (if wins (training_best_metric_lower_is_better config) metric
                  (fst best)
          then [LineNewBest (training_evaluation_metric config) metric]
          else [])
      ++ [LineBlank].
Proof.
  intros Hbs Hrun. destruct best as [b bm]. unfold epoch_body in Hrun.
  apply bind_Ok in Hrun as ([] & w0 & [= <-] & Hrun).
  apply bind_Ok in Hrun as (train_metrics & w1 & Htrain & Hrun).
  apply bind_Ok in Hrun as (val_metrics & w2 & Hval & Hrun).
  apply bind_Ok in Hrun as (tl & ? & [Htl%getitem_Ok ->]%lift_Ok & Hrun).
  apply bind_Ok in Hrun as (ta & ? & [Hta%getitem_Ok ->]%lift_Ok & Hrun).
  apply bind_Ok in Hrun as (vl & ? & [Hvl%getitem_Ok ->]%lift_Ok & Hrun).
  apply bind_Ok in Hrun as (va & ? & [Hva%getitem_Ok ->]%lift_Ok & Hrun).
  apply bind_Ok in Hrun as ([] & ? & [= <-] & Hrun).
  apply bind_Ok in Hrun as ([] & ? & [= <-] & Hrun).
  apply bind_Ok in Hrun as (bst & w3 & Hsel & Hrun).
  apply bind_Ok in Hrun as ([] & ? & [= <-] & [= <- <-]).
  apply train_one_epoch_steps in Htrain as (_ & Ht1 & _); [|done].
  apply evaluate_frame in Hval as (_ & _ & Ht2 & _).
  cbn [trace with_trace] in Ht1. rewrite Ht1 in Ht2.
  destruct (val_metrics !! training_evaluation_metric config)
    as [metric|] eqn:Hget;
    [|by rewrite manage_best_KeyError in Hsel].
  rewrite (manage_best_run _ _ _ _ _ _ metric) in Hsel by done.
  exists train_metrics, val_metrics, tl, ta, vl, va, metric.
  do 5 (split; [done|]). cbn [fst].
  destruct (wins _ metric b); injection Hsel as <- <-;
    (split; [done|]); cbn [trace with_trace]; rewrite Ht2;
    rewrite !evaluate_calls_app, !printed_app; cbn;
    rewrite ?app_nil_r, <- ?app_assoc; done.
Qed.

Lemma epoch_loop_calls config model train_dl val_dl (epochs : list Z) :
  0 < dl_batch_size train_dl ->
  forall best w best' w',
    for_each (epoch_body config model train_dl val_dl) best epochs w
    = Ok (best', w') ->
    evaluate_calls (trace w')
    = evaluate_calls (trace w) ++ repeat (model, val_dl) (length epochs) /\
    exists lines,
      printed (trace w') = printed (trace w) ++ lines /\
      List.filter (fun l => match l with LineEpoch _ _ => true | _ => false end)
                  lines
      = map (fun e => LineEpoch (e + 1) (training_epochs config)) epochs.
Proof.
  intros Hbs. induction epochs as [|e es IH]; intros best w best' w' Hrun.
  - injection Hrun as <- <-. rewrite app_nil_r. split; [done|].
    exists []. by rewrite app_nil_r.
  - simpl in Hrun. apply bind_Ok in Hrun as (best1 & w1 & Hbody & Hrest).
    apply epoch_body_output in Hbody
      as (tm & vm & tl & ta & vl & va & metric & _ & _ & _ & _ & _ & _
          & Hc1 & Hp1); [|done].
    apply IH in Hrest as (Hc2 & lines & Hp2 & Hfilter).
    split.
    + rewrite Hc2, Hc1, <- app_assoc. done.
    + eexists. rewrite Hp2, Hp1, <- app_assoc. split; [reflexivity|].
      rewrite !List.filter_app, Hfilter.
      by destruct (wins _ metric (fst best)).
Qed.

Lemma print_tests_output (l : list (string * Py.float)) w w' :
  for_each (fun _ kv => emit (PrintTest (fst kv) (snd kv))) tt l w
  = Ok (tt, w') ->
  printed (trace w')
  = printed (trace w) ++ map (fun kv => LineTest (fst kv) (snd kv)) l.
Proof.
  revert w. induction l as [|kv l IH]; intros w Hrun.
  - injection Hrun as <-. by rewrite app_nil_r.
  - simpl in Hrun. apply bind_Ok in Hrun as ([] & w1 & [= <-] & Hrun).
    apply IH in Hrun. rewrite Hrun. cbn [trace with_trace].
    rewrite printed_app. cbn. by rewrite <- app_assoc.
Qed.

Lemma test_and_save_output config test_dl best_model w w' :
  test_and_save config test_dl best_model w = Ok (tt, w') ->
  exists test_metrics : Metrics,
    printed (trace w')
    = printed (trace w)
      ++ map (fun kv => LineTest (fst kv) (snd kv)) (map_to_list test_metrics)
      ++ [LineSaved].
Proof.
  unfold test_and_save. intros Hrun.
  apply bind_Ok in Hrun as (tm & w1 & Heval & Hrun).
  apply evaluate_frame in Heval as (_ & _ & Ht1 & _).
  apply bind_Ok in Hrun as ([] & w2 & Hprint & Hrun).
  apply print_tests_output in Hprint.
  apply bind_Ok in Hrun as ([] & w3 & Hmk & Hrun).
  unfold makedirs in Hmk.
  destruct (files w2 !! training_checkpoint_dir config); [discriminate|].
  injection Hmk as <-.
  apply bind_Ok in Hrun as (sd & w4 & [= <- <-] & Hrun).
  apply bind_Ok in Hrun as ([] & w5 & Hsave & [= <-]).
  unfold torch_save in Hsave. destruct (decide _); [discriminate|].
  injection Hsave as <-. exists tm. cbn [trace with_trace with_files with_dirs].
  rewrite printed_app, Hprint, Ht1, printed_app. cbn.
  by rewrite app_nil_r, <- app_assoc.
Qed.

Lemma build_scheduler_trace config train_dl w w' :
  build_scheduler config train_dl w = Ok (tt, w') -> trace w' = trace w.
Proof.
  unfold build_scheduler, bind, lift, LambdaLR_new, scheduler_set_lr.
  destruct (warmup_steps _ _); [|discriminate].
  cbn [lr_lambda last_epoch].
  destruct (lr_warmup_linear_decay _ _ _); [|discriminate].
  by intros [= <-].
Qed.

Lemma build_loaders_batch_size config dataset w train_dl test_dl val_dl w' :
  build_loaders config dataset w = Ok ((train_dl, test_dl, val_dl), w') ->
  dl_batch_size train_dl = training_batch_size config /\ trace w' = trace w.
Proof.
  unfold build_loaders. intros Hload.
  apply bind_Ok in Hload as ([[a t] v] & ? & [_ ->]%lift_Ok & Hload).
  apply bind_Ok in Hload as ([[da dt] dv] & w1 & Hsplit & Hload).
  apply bind_Ok in Hload as (d1 & ? & [Hd1 ->]%lift_Ok & Hload).
  apply bind_Ok in Hload as (d2 & ? & [_ ->]%lift_Ok & Hload).
  apply bind_Ok in Hload as (d3 & ? & [_ ->]%lift_Ok & Hload).
  injection Hload as <- _ _ <-. unfold DataLoader_new in Hd1.
  destruct (_ && _); [discriminate|].
  destruct (training_batch_size config <=? 0); [discriminate|].
  injection Hd1 as <-. split; [done|].
  unfold random_split in Hsplit. destruct (negb _); [discriminate|].
  by injection Hsplit as _ _ _ <-.
Qed.

(** X14. One turn of the epoch loop, lines 143-164, when it runs to its
    end.  Both metric dictionaries hold ["loss"] and ["accuracy"], and the
    validation metrics hold the configured evaluation metric.  The evaluator
    is called exactly once, on the live model and the validation loader.
    [print] writes, in this order: the header with the epoch counted
    from 1 and the configured number of epochs, the training line, the
    validation line, the "new best" line if and only if the selector took
    the candidate, and the blank line.  The tracking state that goes to the
    next epoch is the candidate and the live model when the selector took
    it, and the old state otherwise. *)
Theorem X14_epoch_output config model train_dl val_dl best epoch w best' w' :
  0 < dl_batch_size train_dl ->
  epoch_body config model train_dl val_dl best epoch w = Ok (best', w') ->
  exists (train_metrics val_metrics : Metrics) tl ta vl va metric,
    train_metrics !! "loss"%string = Some tl /\
    train_metrics !! "accuracy"%string = Some ta /\
    val_metrics !! "loss"%string = Some vl /\
    val_metrics !! "accuracy"%string = Some va /\
    val_metrics !! training_evaluation_metric config = Some metric /\
    best'
    = (if wins (training_best_metric_lower_is_better config) metric (fst best)
       then (metric, model) else best) /\
    evaluate_calls (trace w')
    = evaluate_calls (trace w) ++ [(model, val_dl)] /\
    printed (trace w')
    = printed (trace w)
      ++ [LineEpoch (epoch + 1) (training_epochs config);
          LineTrain tl ta; LineVal vl va]
      ++ (if wins (training_best_metric_lower_is_better config) metric
                  (fst best)
          then [LineNewBest (training_evaluation_metric config) metric]
          else [])
      ++ [LineBlank].
Proof. apply epoch_body_output. Qed.

(** X15. The whole script, when it runs to its end with a positive batch
    size: the evaluator is called once per epoch on the live model and the
    validation loader, then once on the test loader, always for the same
    model object, and at no other time.  [print] writes the banner with
    the sizes of the training, validation and test parts in this order,
    then the lines of the epochs, whose headers count 1, 2, ... up to the
    number of epochs, then one line for each test metric, and "Model saved"
    last. *)
Theorem X15_script_evaluations config dataset model w w' :
  0 < training_batch_size config ->
  0 <= training_epochs config ->
  main config dataset model w = Ok (tt, w') ->
  exists train_dl test_dl val_dl w1 lines test_lines
         (test_metrics : Metrics),
    build_loaders config dataset w = Ok ((train_dl, test_dl, val_dl), w1) /\
    evaluate_calls (trace w')
    = evaluate_calls (trace w)
      ++ repeat (model, val_dl) (Z.to_nat (training_epochs config))
      ++ [(model, test_dl)] /\
    printed (trace w')
    = printed (trace w)
      ++ [LineBanner (Z.of_nat (length (dl_dataset train_dl)))
                     (Z.of_nat (length (dl_dataset val_dl)))
                     (Z.of_nat (length (dl_dataset test_dl)))]
      ++ lines ++ test_lines ++ [LineSaved] /\
    Permutation test_lines
      (map (fun kv => LineTest (fst kv) (snd kv))
           (map_to_list test_metrics)) /\
    List.filter (fun l => match l with LineEpoch _ _ => true | _ => false end)
                lines
    = map (fun e => LineEpoch (e + 1) (training_epochs config))
          (seqZ 0 (training_epochs config)).
Proof.
  intros Hbs Hep Hrun. unfold main in Hrun.
  apply bind_Ok in Hrun as ([[train_dl test_dl] val_dl] & w1 & Hload & Hrun).
  apply bind_Ok in Hrun as ([] & w2 & [= <-] & Hrun).
  apply bind_Ok in Hrun as ([] & w3 & Hsched & Hrun).
  apply bind_Ok in Hrun as ([] & w4 & [= <-] & Hrun).
  apply bind_Ok in Hrun as ([b bm] & w5 & Hloop & Hrun).
  destruct (build_loaders_batch_size _ _ _ _ _ _ _ Hload) as [Hsize Ht1].
  apply build_scheduler_trace in Hsched.
  pose proof Hloop as Hloop'.
  apply epoch_loop_run in Hloop' as (_ & _ & _ & _ & Hm); [|lia].
  specialize (Hm eq_refl). simpl in Hm. subst bm.
  apply epoch_loop_calls in Hloop as (Hc5 & lines & Hp5 & Hfilter); [|lia].
  destruct (test_and_save_output _ _ _ _ _ Hrun) as (tm & Hp6).
  apply test_and_save_run in Hrun as (Hc6 & _).
  cbn [trace with_trace with_optimizer] in Hsched, Hc5, Hp5.
  rewrite Hsched, Ht1 in Hc5, Hp5.
  rewrite evaluate_calls_app, length_seqZ in Hc5. cbn in Hc5.
  rewrite app_nil_r in Hc5. rewrite printed_app in Hp5. cbn in Hp5.
  exists train_dl, test_dl, val_dl, w1, lines,
    (map (fun kv => LineTest (fst kv) (snd kv)) (map_to_list tm)), tm.
  split; [exact Hload|]. split; [by rewrite Hc6, Hc5, <- app_assoc|].
  split; [|split; [reflexivity|exact Hfilter]].
  rewrite Hp6, Hp5, <- !app_assoc. done.
Qed.

End Output.

Lemma X14_epoch_output_witness :
  exists tl ta vl va metric,
    printed (trace (Toy.world_of
                      (epoch_body (H := Toy.backend) Toy.config2 Toy.model
                         Toy.train_dl Toy.val_dl
                         (initial_best Toy.config2 Toy.model) 0 Toy.ready)))
    = printed (trace Toy.ready)
      ++ [LineEpoch (0 + 1) (training_epochs Toy.config2);
          LineTrain tl ta; LineVal vl va]
      ++ (if wins (training_best_metric_lower_is_better Toy.config2) metric
                  (fst (initial_best Toy.config2 Toy.model))
          then [LineNewBest (training_evaluation_metric Toy.config2) metric]
          else [])
      ++ [LineBlank].
Proof.
  assert (Hrun : Toy.value_of
                   (epoch_body (H := Toy.backend) Toy.config2 Toy.model
                      Toy.train_dl Toy.val_dl
                      (initial_best Toy.config2 Toy.model) 0 Toy.ready)
                 = Some (Py.zero, Toy.model)) by (vm_compute; reflexivity).
  apply run_eq in Hrun.
  destruct (X14_epoch_output (H := Toy.backend) Toy.config2 Toy.model
              Toy.train_dl Toy.val_dl (initial_best Toy.config2 Toy.model)
              0 Toy.ready _ _ eq_refl Hrun)
    as (_ & _ & tl & ta & vl & va & metric & _ & _ & _ & _ & _ & _ & _ & Hp).
  exists tl, ta, vl, va, metric. exact Hp.
Defined.

Lemma X15_script_evaluations_witness :
  exists test_dl val_dl,
    evaluate_calls
      (trace (Toy.world_of
                (main (H := Toy.backend) Toy.config2 (Toy.dataset 100)
                      Toy.model Toy.world0)))
    = evaluate_calls (trace Toy.world0)
      ++ repeat (Toy.model, val_dl) (Z.to_nat (training_epochs Toy.config2))
      ++ [(Toy.model, test_dl)].
Proof.
  assert (Hrun : Toy.value_of
                   (main (H := Toy.backend) Toy.config2 (Toy.dataset 100)
                         Toy.model Toy.world0)
                 = Some tt) by (vm_compute; reflexivity).
  apply run_eq in Hrun.
  destruct (X15_script_evaluations (H := Toy.backend) Toy.config2
              (Toy.dataset 100) Toy.model Toy.world0 _ eq_refl
              ltac:(simpl; lia) Hrun)
    as (_ & test_dl & val_dl & _ & _ & _ & _ & _ & Hc & _).
  exists test_dl, val_dl. exact Hc.
Defined.
